(** * Anomaly-detection pipeline: detector, store, alert service, controller

    A shallow embedding of the ingestion / detection / alerting core
    (detectors.py, data_storage.py, alert_service.py, controllers.py,
    data_sources.py, models.py, repositories.py) together with the
    properties of the specification that concern it.

    Modelling conventions.
    - A Python [float] is an IEEE 754 binary64 number.  The detector is
      embedded twice.  [Binary64.detect] and [Binary64.train_model]
      compute on binary64 numbers (the primitive floats, whose operations
      round as the processor does); the rules that name a threshold, a
      bound, a score or the calibrated sensitivity are stated about them.
      [detect] and [train_model], and the pipeline and the event source
      built on them, compute on exact rationals [Q], with the arithmetic
      of the source written out operation by operation and no rounding;
      what is stated about them are orderings, invariants and effects on
      the stores.
    - Division raises [ZeroDivisionError] on a zero divisor, as in Python.
    - [datetime] values are integers [Z] (a count of time units).
    - Exceptions are an explicit [result] type; code that mutates objects
      before raising returns the state reached together with the outcome.
    - [str(uuid.uuid4())] and [datetime.datetime.now()] are inputs of the
      operation that calls them.
    - The builtins [float(str)] and the formatting of a float inside an
      f-string are the two fields of the class [PyRuntime]; in the
      binary64 detector the formatting is a parameter. *)

From Stdlib Require Import QArith Qpower Qround Lqa Lia ZArith Ascii Floats.
From stdpp Require Import gmap strings list pretty.

Local Open Scope string_scope.

(** ** Exceptions *)

Inductive exn : Type :=
  | ValueError (msg : string)
  | ZeroDivisionError
  | IndexError.

Inductive result (A : Type) : Type :=
  | Ok (a : A)
  | Raise (e : exn).
Arguments Ok {A} a.
Arguments Raise {A} e.

Global Instance result_ret : MRet result := fun _ a => Ok a.
Global Instance result_bind : MBind result := fun _ _ k m =>
  match m with
  | Ok a => k a
  | Raise e => Raise e
  end.

Definition is_ok {A} (r : result A) : bool :=
  match r with Ok _ => true | Raise _ => false end.

(** ** Floats as rationals *)

(** [x < y] on floats. *)
Definition Qltb (x y : Q) : bool :=
  (Qnum x * QDen y <? Qnum y * QDen x)%Z.

(** [x / y], raising on a zero divisor. *)
Definition py_div (x y : Q) : result Q :=
  if Qeq_bool y 0 then Raise ZeroDivisionError else Ok (x / y)%Q.

(** The two builtins whose text format the source relies on. *)
Class PyRuntime : Type := {
  (** [float(s)]: [None] when Python raises [ValueError]. *)
  float_of_str : string -> option Q;
  (** [f"{x}"] for a float [x]. *)
  str_of_float : Q -> string;
}.

(** ** models.py *)

Module RawData.
Record t : Type := mk {
  id : string;
  timestamp : Z;
  source : string;
  attributes : gmap string string;
}.
End RawData.

Module PreparedData.
Record t : Type := mk {
  id : string;
  timestamp : Z;
  data_type : string;
  features : list Q;
}.
End PreparedData.

Module User.
Record t : Type := mk {
  user_id : string;
  username : string;
  role : string;
  email : string;
}.
End User.

Module Anomaly.
Record t : Type := mk {
  anomaly_id : string;
  data_id : string;
  detection_time : Z;
  score : Q;
  description : string;
  severity : string;
}.
End Anomaly.

Module Alert.
Record t : Type := mk {
  alert_id : string;
  anomaly_id : string;
  time_raised : Z;
  message : string;
  status : string;
}.
End Alert.

Module DetectionSettings.
(** [sensitivity] is declared [float]; [detect] tests it against [None],
    so the field is optional here. *)
Record t : Type := mk {
  user_id : string;
  sensitivity : option Q;
  monitored_sources : list string;
}.
End DetectionSettings.

(** ** detectors.py *)

Record SimpleAnomalyDetector : Type := mkDetector {
  global_sensitivity : Q;
}.

Definition set_global_sensitivity (sensitivity : Q)
    (self : SimpleAnomalyDetector) : SimpleAnomalyDetector :=
  {| global_sensitivity := sensitivity |}.

(** [l[0]] *)
Definition item0 (l : list Q) : result Q :=
  match l with
  | x :: _ => Ok x
  | [] => Raise IndexError
  end.

Definition severity_of (score : Q) : string :=
  if Qltb 150 score then "high" else "medium".

(** [s = settings.sensitivity if settings.sensitivity is not None
        else self.global_sensitivity] *)
Definition effective_sensitivity (self : SimpleAnomalyDetector)
    (settings : DetectionSettings.t) : Q :=
  match DetectionSettings.sensitivity settings with
  | Some s => s
  | None => global_sensitivity self
  end.

Section Detector.
Context `{PyRuntime}.

(** Lines 55-65: the score and description of a [transaction] record. *)
Definition transaction_score (time_val s : Q) : result (Q * string) :=
  let lower := (s * 8.0)%Q in
  let upper := (s * 22.0 + (1 - s * 2.0))%Q in
  if Qltb time_val lower then
    score ← (if Qltb 0 time_val
             then (ratio ← py_div lower time_val; Ok (ratio * 100)%Q)
             else Ok 200.0%Q);
    Ok (score, "transaction: Time " +:+ str_of_float time_val
               +:+ " below lower bound " +:+ str_of_float lower)
  else if Qltb upper time_val then
    ratio ← py_div time_val upper;
    Ok ((ratio * 100)%Q,
        "transaction: Time " +:+ str_of_float time_val
        +:+ " above upper bound " +:+ str_of_float upper)
  else Ok (0.0%Q, "").

Definition detect (uuid : string) (self : SimpleAnomalyDetector)
    (data : PreparedData.t) (settings : DetectionSettings.t)
    : result (option Anomaly.t) :=
  let s := effective_sensitivity self settings in
  if String.eqb (PreparedData.data_type data) "sensor" then
    temp ← item0 (PreparedData.features data);
    let threshold := ((1.1 - s) * 150)%Q in
    if Qltb threshold temp then
      ratio ← py_div temp threshold;
      let score := (ratio * 100)%Q in
      let desc := "sensor: Temperature " +:+ str_of_float temp
                  +:+ " exceeds threshold " +:+ str_of_float threshold in
      Ok (Some (Anomaly.mk uuid (PreparedData.id data)
                  (PreparedData.timestamp data) score desc (severity_of score)))
    else Ok None
  else if String.eqb (PreparedData.data_type data) "traffic" then
    volume ← item0 (PreparedData.features data);
    let threshold := ((1.1 - s) * 1000)%Q in
    if Qltb threshold volume then
      ratio ← py_div volume threshold;
      let score := (ratio * 100)%Q in
      let desc := "traffic: Volume " +:+ str_of_float volume
                  +:+ " exceeds threshold " +:+ str_of_float threshold in
      Ok (Some (Anomaly.mk uuid (PreparedData.id data)
                  (PreparedData.timestamp data) score desc (severity_of score)))
    else Ok None
  else if String.eqb (PreparedData.data_type data) "transaction" then
    time_val ← item0 (PreparedData.features data);
    '(score, desc) ← transaction_score time_val s;
    if Qltb 100 score then
      Ok (Some (Anomaly.mk uuid (PreparedData.id data)
                  (PreparedData.timestamp data) score desc (severity_of score)))
    else Ok None
  else Ok None.
End Detector.

(** [train_model]: the nested [count_anomalies] is a loop with a counter. *)
Section Training.
Context `{PyRuntime}.

Definition count_anomalies (uuid : string) (self : SimpleAnomalyDetector)
    (historical_data : list PreparedData.t) (s : Q) : result nat :=
  let settings := DetectionSettings.mk "default_user" (Some s) ["any"] in
  foldl (fun acc data =>
           count ← acc;
           r ← detect uuid self data settings;
           Ok (if r is Some _ then S count else count))
        (Ok O) historical_data.

(** One pass of the body of [for _ in range(20)] on [(low, high)]. *)
Definition search_step (uuid : string) (self : SimpleAnomalyDetector)
    (historical_data : list PreparedData.t) (target : nat)
    (bounds : Q * Q) : result (Q * Q) :=
  let '(low, high) := bounds in
  let mid := ((low + high) / 2)%Q in
  count ← count_anomalies uuid self historical_data mid;
  if (count <? target)%nat then Ok (low, mid) else Ok (mid, high).

Definition train_model (uuid : string) (self : SimpleAnomalyDetector)
    (historical_data : list PreparedData.t) : result SimpleAnomalyDetector :=
  match historical_data with
  | [] => Ok self
  | _ :: _ =>
      let target := (length historical_data / 2)%nat in
      bounds ← foldl (fun acc _ => b ← acc; search_step uuid self historical_data target b)
                     (Ok (0.0, 1.0)%Q) (seq 0 20);
      Ok (set_global_sensitivity (fst bounds) self)
  end.
End Training.

(** ** data_storage.py *)

Record InMemoryDataStorage : Type := mkStorage {
  raw_data : list RawData.t;
  prepared_data : list PreparedData.t;
  anomalies : list Anomaly.t;
}.

Definition empty_storage : InMemoryDataStorage := mkStorage [] [] [].

Definition store_raw_data (data : RawData.t) (self : InMemoryDataStorage) :=
  mkStorage (raw_data self ++ [data]) (prepared_data self) (anomalies self).

Definition store_prepared_data (data : PreparedData.t) (self : InMemoryDataStorage) :=
  mkStorage (raw_data self) (prepared_data self ++ [data]) (anomalies self).

Definition store_anomaly (anomaly : Anomaly.t) (self : InMemoryDataStorage) :=
  mkStorage (raw_data self) (prepared_data self) (anomalies self ++ [anomaly]).

(** [start_time <= t <= end_time] *)
Definition in_range (start_time end_time t : Z) : bool :=
  (start_time <=? t)%Z && (t <=? end_time)%Z.

Definition get_historical_data (start_time end_time : Z)
    (self : InMemoryDataStorage) : list PreparedData.t :=
  List.filter (fun d => in_range start_time end_time (PreparedData.timestamp d))
              (prepared_data self).

Definition role_map : gmap string string :=
  <["security" := "traffic"]>
    (<["equipment" := "sensor"]> (<["fraud" := "transaction"]> ∅)).

Definition get_anomalies (role : string) (start_time end_time : Z)
    (self : InMemoryDataStorage) : list Anomaly.t :=
  let allowed_type := default "" (role_map !! role) in
  List.filter (fun a =>
                 String.prefix (allowed_type +:+ ":") (Anomaly.description a)
                 && in_range start_time end_time (Anomaly.detection_time a))
              (anomalies self).

Definition get_anomaly (anomaly_id : string) (self : InMemoryDataStorage)
    : option Anomaly.t :=
  List.find (fun a => String.eqb (Anomaly.anomaly_id a) anomaly_id) (anomalies self).

(** ** repositories.py *)

Record SettingsEntry : Type := mkEntry {
  entry_sensitivity : option Q;
  entry_monitored_sources : list string;
}.

Record JsonSettingsRepository : Type := mkRepo {
  settings_dict : gmap string SettingsEntry;
}.

Definition load_settings (user_id : string) (self : JsonSettingsRepository)
    : DetectionSettings.t :=
  let data := default (mkEntry (Some 0.5%Q) ["any"]) (settings_dict self !! user_id) in
  DetectionSettings.mk user_id (entry_sensitivity data) (entry_monitored_sources data).

Definition save_settings (settings : DetectionSettings.t)
    (self : JsonSettingsRepository) : JsonSettingsRepository :=
  mkRepo (<[DetectionSettings.user_id settings :=
             mkEntry (DetectionSettings.sensitivity settings)
                     (DetectionSettings.monitored_sources settings)]>
            (settings_dict self)).

(** ** alert_service.py *)

(** Where an [auto_confirm] thread stands.  [Sleeping]: inside
    [time.sleep].  [Scheduled]: the test on line 48 succeeded and
    [do_confirm] has been handed to [app.after(0, ...)] (or is about to be
    called directly by the fallback); it has not run yet. *)
Inductive timer_pc : Type :=
  | Sleeping
  | Scheduled.

Global Instance timer_pc_eq_dec : EqDecision timer_pc.
Proof. solve_decision. Defined.

(** The GUI refresh requests of [send_alert] and [update_alert_status] are
    wrapped in [try/except] and touch no field below; they are left out. *)
Record GuiAlertService : Type := mkService {
  alerts : gmap string Alert.t;
  auto_confirm_timeout : option Z;
  confirmed_times : gmap string Z;
  (** the [auto_confirm] threads started and not yet finished *)
  timers : list (string * timer_pc);
}.

Definition new_service (auto_confirm_timeout : option Z) : GuiAlertService :=
  mkService ∅ auto_confirm_timeout ∅ [].

Section AlertService.
Context `{PyRuntime}.

Definition send_alert (alert_id : string) (now : Z)
    (anomaly : Anomaly.t) (user : User.t) (self : GuiAlertService)
    : GuiAlertService :=
  let message := "Alert for user " +:+ User.username user +:+ ": Anomaly "
                 +:+ Anomaly.description anomaly +:+ " Score: "
                 +:+ str_of_float (Anomaly.score anomaly) in
  let alert := Alert.mk alert_id (Anomaly.anomaly_id anomaly) now message "open" in
  let spawn := match auto_confirm_timeout self with
               | Some t => (0 <? t)%Z
               | None => false
               end in
  mkService (<[alert_id := alert]> (alerts self))
            (auto_confirm_timeout self)
            (confirmed_times self)
            (if spawn then timers self ++ [(alert_id, Sleeping)] else timers self).
End AlertService.

Definition set_status (new_status : string) (a : Alert.t) : Alert.t :=
  Alert.mk (Alert.alert_id a) (Alert.anomaly_id a) (Alert.time_raised a)
           (Alert.message a) new_status.

Definition update_alert_status (now : Z) (alert_id new_status : string)
    (self : GuiAlertService) : GuiAlertService :=
  match alerts self !! alert_id with
  | Some a =>
      mkService (<[alert_id := set_status new_status a]> (alerts self))
                (auto_confirm_timeout self)
                (if String.eqb new_status "confirmed"
                 then <[alert_id := now]> (confirmed_times self)
                 else delete alert_id (confirmed_times self))
                (timers self)
  | None => self
  end.

Definition get_alerts (self : GuiAlertService) : list Alert.t :=
  (map_to_list (alerts self)).*2.

Definition status_of (alert_id : string) (self : GuiAlertService) : option string :=
  Alert.status <$> alerts self !! alert_id.

(** Removes the first thread of [alert_id] that stands at [pc]. *)
Fixpoint take_timer (alert_id : string) (pc : timer_pc)
    (ts : list (string * timer_pc)) : option (list (string * timer_pc)) :=
  match ts with
  | [] => None
  | (i, p) :: ts' =>
      if String.eqb i alert_id && bool_decide (p = pc) then Some ts'
      else cons (i, p) <$> take_timer alert_id pc ts'
  end.

(** [auto_confirm], first half: the sleep ends and the thread tests
    [alert_id in self.alerts and self.alerts[alert_id].status == 'open']. *)
Definition auto_confirm_wake (alert_id : string) (self : GuiAlertService)
    : GuiAlertService :=
  match take_timer alert_id Sleeping (timers self) with
  | None => self
  | Some rest =>
      let still_open :=
        match alerts self !! alert_id with
        | Some a => String.eqb (Alert.status a) "open"
        | None => false
        end in
      mkService (alerts self) (auto_confirm_timeout self) (confirmed_times self)
                (if still_open then rest ++ [(alert_id, Scheduled)] else rest)
  end.

(** [auto_confirm], second half: [do_confirm] runs. *)
Definition do_confirm (now : Z) (alert_id : string) (self : GuiAlertService)
    : GuiAlertService :=
  match take_timer alert_id Scheduled (timers self) with
  | None => self
  | Some rest =>
      update_alert_status now alert_id "confirmed"
        (mkService (alerts self) (auto_confirm_timeout self)
                   (confirmed_times self) rest)
  end.

(** What can happen to the service, one atomic action at a time. *)
Inductive event : Type :=
  | SetStatus (now : Z) (alert_id new_status : string)
  | TimerWakes (alert_id : string)
  | TimerConfirms (now : Z) (alert_id : string).

Definition step (self : GuiAlertService) (e : event) : GuiAlertService :=
  match e with
  | SetStatus now i st => update_alert_status now i st self
  | TimerWakes i => auto_confirm_wake i self
  | TimerConfirms now i => do_confirm now i self
  end.

Definition run (self : GuiAlertService) (es : list event) : GuiAlertService :=
  foldl step self es.

(** The transitions of the alert state machine. *)
Definition edge (old new : string) : bool :=
  (String.eqb old "open" &&
     (String.eqb new "confirmed" || String.eqb new "false_positive"
      || String.eqb new "acknowledged"))
  || (String.eqb old "confirmed" && String.eqb new "acknowledged").

(** ** controllers.py *)

Record ConfigController : Type := mkConfig {
  settings_repo : JsonSettingsRepository;
}.

Definition get_settings_for_user (user_id : string) (self : ConfigController)
    : DetectionSettings.t :=
  load_settings user_id (settings_repo self).

Definition save_user_settings (settings : DetectionSettings.t)
    (self : ConfigController) : ConfigController :=
  mkConfig (save_settings settings (settings_repo self)).

Record AnomalyController : Type := mkController {
  storage : InMemoryDataStorage;
  detector : SimpleAnomalyDetector;
  alert_service : GuiAlertService;
  config_controller : ConfigController;
  user : User.t;
}.

Section Controller.
Context `{PyRuntime}.

(** [float(s)] *)
Definition py_float (s : string) : result Q :=
  match float_of_str s with
  | Some x => Ok x
  | None => Raise (ValueError ("could not convert string to float: '" +:+ s +:+ "'"))
  end.

Definition preprocess_data (raw_data : RawData.t) : result PreparedData.t :=
  let data_type := default "" (RawData.attributes raw_data !! "type") in
  '(type_str, features) ←
    (if String.eqb data_type "1" then
       temp ← py_float (default "0" (RawData.attributes raw_data !! "temperature"));
       Ok ("sensor", [temp])
     else if String.eqb data_type "2" then
       time_of_day ← py_float (default "0" (RawData.attributes raw_data !! "time_of_day"));
       Ok ("transaction", [time_of_day])
     else if String.eqb data_type "3" then
       volume ← py_float (default "0" (RawData.attributes raw_data !! "volume"));
       Ok ("traffic", [volume])
     else Raise (ValueError "Unknown data type"));
  Ok (PreparedData.mk (RawData.id raw_data) (RawData.timestamp raw_data)
                      type_str features).

(** The controller's objects are mutated in place: when a later step
    raises, the stores made before it remain.  The result is the state
    reached and the outcome of the call. *)
Definition process_new_raw_data (anomaly_uuid alert_uuid : string) (now : Z)
    (raw : RawData.t) (self : AnomalyController)
    : AnomalyController * result unit :=
  match preprocess_data raw with
  | Raise e => (self, Raise e)
  | Ok prepared =>
      let storage1 := store_prepared_data prepared (store_raw_data raw (storage self)) in
      let settings :=
        get_settings_for_user (User.user_id (user self)) (config_controller self) in
      match detect anomaly_uuid (detector self) prepared settings with
      | Raise e =>
          (mkController storage1 (detector self) (alert_service self)
                        (config_controller self) (user self), Raise e)
      | Ok None =>
          (mkController storage1 (detector self) (alert_service self)
                        (config_controller self) (user self), Ok tt)
      | Ok (Some anomaly) =>
          (mkController (store_anomaly anomaly storage1) (detector self)
                        (send_alert alert_uuid now anomaly (user self) (alert_service self))
                        (config_controller self) (user self), Ok tt)
      end
  end.
End Controller.

Definition update_global_sensitivity (new_sensitivity : Q)
    (self : AnomalyController) : AnomalyController :=
  mkController (storage self) (set_global_sensitivity new_sensitivity (detector self))
               (alert_service self) (config_controller self) (user self).

Definition get_anomalies_in_period (start_time end_time : Z) (role : string)
    (self : AnomalyController) : list Anomaly.t :=
  get_anomalies role start_time end_time (storage self).

Definition acknowledge_alert (now : Z) (alert_id : string)
    (self : AnomalyController) : AnomalyController :=
  mkController (storage self) (detector self)
               (update_alert_status now alert_id "acknowledged" (alert_service self))
               (config_controller self) (user self).

(** ** data_sources.py *)

(** The values the [random] and [uuid] modules hand out during one call of
    [generate_one_data]. *)
Record Draw : Type := mkDraw {
  draw_uuid : string;
  draw_source : Z;      (* random.randint(1, 10) *)
  draw_type : Z;        (* random.choice([1, 2, 3]) *)
  draw_uniform : Q;     (* random.uniform(0, hi) of the chosen branch *)
  draw_device : bool;   (* random.choice([True, False]) *)
  draw_ip3 : Z;         (* random.randint(0, 255) *)
  draw_ip4 : Z;
}.

(** Seconds in [datetime.timedelta(hours=1)]; [datetime(2025, 1, 1)] is
    the origin of the time axis. *)
Definition one_hour : Z := 3600.
Definition datetime_2025_01_01 : Z := 0.

Section DataSource.
Context `{PyRuntime}.
(** The state the listener works on. *)
Context {W : Type}.

Record SimulatedDataSource : Type := mkSource {
  listener : option (RawData.t -> W -> W * result unit);
  running : bool;
  current_timestamp : Z;
  generated_count : nat;
}.

Definition new_source : SimulatedDataSource :=
  mkSource None false datetime_2025_01_01 O.

Definition register_data_listener (callback : RawData.t -> W -> W * result unit)
    (self : SimulatedDataSource) : SimulatedDataSource :=
  mkSource (Some callback) (running self) (current_timestamp self)
           (generated_count self).

Definition generate_one_data (d : Draw) (self : SimulatedDataSource)
    : SimulatedDataSource * RawData.t :=
  let timestamp := current_timestamp self in
  let source := "source_" +:+ pretty (draw_source d) in
  let type_ := pretty (draw_type d) in
  let attributes : gmap string string := <["type" := type_]> ∅ in
  let attributes :=
    if String.eqb type_ "1" then
      <["temperature" := str_of_float (draw_uniform d)]> attributes
    else if String.eqb type_ "2" then
      <["used_device" := if draw_device d then "True" else "False"]>
        (<["time_of_day" := str_of_float (draw_uniform d)]> attributes)
    else if String.eqb type_ "3" then
      <["ip" := "192.168." +:+ pretty (draw_ip3 d) +:+ "." +:+ pretty (draw_ip4 d)]>
        (<["volume" := str_of_float (draw_uniform d)]> attributes)
    else attributes in
  (mkSource (listener self) (running self) (timestamp + one_hour)%Z
            (generated_count self),
   RawData.mk (draw_uuid d) timestamp source attributes).

(** [generate_loop].  [draws k] is what the random sources return during
    the [k]-th pass.  Each pass that completes adds one to
    [generated_count], which the guard bounds by 300, so [fuel] passes
    are enough once [fuel + generated_count >= 300]. *)
Fixpoint generate_loop_fuel (fuel : nat) (draws : nat -> Draw) (k : nat)
    (self : SimulatedDataSource) (w : W)
    : SimulatedDataSource * W * result unit :=
  match fuel with
  | O => (self, w, Ok tt)
  | S fuel' =>
      if running self && (generated_count self <? 300)%nat then
        let '(self1, raw) := generate_one_data (draws k) self in
        match listener self1 with
        | Some callback =>
            match callback raw w with
            | (w', Ok _) =>
                generate_loop_fuel fuel' draws (S k)
                  (mkSource (listener self1) (running self1)
                            (current_timestamp self1) (S (generated_count self1))) w'
            | (w', Raise e) => (self1, w', Raise e)
            end
        | None =>
            generate_loop_fuel fuel' draws (S k)
              (mkSource (listener self1) (running self1)
                        (current_timestamp self1) (S (generated_count self1))) w
        end
      else (self, w, Ok tt)
  end.

Definition generate_loop (draws : nat -> Draw) (self : SimulatedDataSource) (w : W)
    : SimulatedDataSource * W * result unit :=
  generate_loop_fuel (300 - generated_count self) draws O self w.

(** [connect] sets [running] and starts [generate_loop] in a thread. *)
Definition connect (self : SimulatedDataSource) : SimulatedDataSource * bool :=
  (mkSource (listener self) true (current_timestamp self) (generated_count self),
   true).
End DataSource.
Arguments SimulatedDataSource W : clear implicits.

(** ** A runtime to execute the model with

    [decimal_float] reads the plain decimal literals [[+-]digits[.digits]]
    (what [str] of a float of ordinary magnitude looks like) and rejects
    every other string; [decimal_str] prints a rational in that form, with
    at least one and at most 17 digits after the point. *)

Definition digit_of (c : ascii) : option Z :=
  let n := Z.of_N (N_of_ascii c) in
  if (48 <=? n)%Z && (n <=? 57)%Z then Some (n - 48)%Z else None.

Fixpoint read_decimal (s : string) (num : Z) (den : positive)
    (seen_dot seen_digit : bool) : option Q :=
  match s with
  | EmptyString => if seen_digit then Some (num # den) else None
  | String c s' =>
      if Ascii.eqb c "."%char then
        if seen_dot then None else read_decimal s' num den true seen_digit
      else
        match digit_of c with
        | Some d =>
            read_decimal s' (10 * num + d)%Z
                         (if seen_dot then (10 * den)%positive else den)
                         seen_dot true
        | None => None
        end
  end.

Definition decimal_float (s : string) : option Q :=
  match s with
  | String c s' =>
      if Ascii.eqb c "-"%char then Qopp <$> read_decimal s' 0 1 false false
      else if Ascii.eqb c "+"%char then read_decimal s' 0 1 false false
      else read_decimal s 0 1 false false
  | EmptyString => None
  end.

Fixpoint fraction_digits (fuel : nat) (r d : Z) : string :=
  match fuel with
  | O => ""
  | S fuel' =>
      let r10 := (10 * r)%Z in
      pretty (r10 / d)%Z
      +:+ (if (r10 mod d =? 0)%Z then "" else fraction_digits fuel' (r10 mod d)%Z d)
  end.

Definition decimal_str (x : Q) : string :=
  let d := Z.pos (Qden x) in
  let a := Z.abs (Qnum x) in
  (if (Qnum x <? 0)%Z then "-" else "")
  +:+ pretty (a / d)%Z +:+ "." +:+ fraction_digits 17 (a mod d)%Z d.

Definition reference_runtime : PyRuntime :=
  {| float_of_str := decimal_float; str_of_float := decimal_str |}.

(** ** Specification predicates *)

(** An anomaly has no category field: its category is that of the prepared
    record [detect] made it from. *)
Definition produced_from `{PyRuntime} (category : string) (a : Anomaly.t) : Prop :=
  exists uuid self data settings,
    PreparedData.data_type data = category
    /\ detect uuid self data settings = Ok (Some a).

Definition produced `{PyRuntime} (a : Anomaly.t) : Prop :=
  exists category, produced_from category a.

(** How [preprocess_data] treats the numeric attribute [key] of a raw
    event whose discriminant selects [category]: a present, malformed
    string fails the extraction; a present, well-formed one becomes the
    feature; an absent one is read as the string "0". *)
Definition numeric_attribute_rule `{PyRuntime} (raw : RawData.t)
    (key category : string) : Prop :=
  (forall t, RawData.attributes raw !! key = Some t -> float_of_str t = None ->
     exists msg, preprocess_data raw = Raise (ValueError msg))
  /\ (forall t x, RawData.attributes raw !! key = Some t -> float_of_str t = Some x ->
     preprocess_data raw =
       Ok (PreparedData.mk (RawData.id raw) (RawData.timestamp raw) category [x]))
  /\ (RawData.attributes raw !! key = None ->
     preprocess_data raw =
       Ok (PreparedData.mk (RawData.id raw) (RawData.timestamp raw) category [0%Q])).

(** Controller states reached from an empty store through the
    controller's own operations. *)
Inductive reachable `{PyRuntime} : AnomalyController -> Prop :=
  | reachable_init self :
      storage self = empty_storage -> reachable self
  | reachable_process anomaly_uuid alert_uuid now raw self :
      reachable self ->
      reachable (process_new_raw_data anomaly_uuid alert_uuid now raw self).1
  | reachable_sensitivity s self :
      reachable self -> reachable (update_global_sensitivity s self)
  | reachable_acknowledge now alert_id self :
      reachable self -> reachable (acknowledge_alert now alert_id self).

(** The calibration as the specification words it: a record is flagged at
    sensitivity [s] when [detect] reports an anomaly for it under the
    fresh settings [("default_user", s, ["any"])]; each of the 20 passes
    takes the midpoint, counts the flagged records, and moves [low] up to
    the midpoint when the count reaches the target, [high] down to it
    otherwise. *)
Definition flagged `{PyRuntime} (uuid : string) (self : SimpleAnomalyDetector)
    (s : Q) (data : PreparedData.t) : bool :=
  match detect uuid self data (DetectionSettings.mk "default_user" (Some s) ["any"]) with
  | Ok (Some _) => true
  | _ => false
  end.

Definition flagged_count `{PyRuntime} (uuid : string) (self : SimpleAnomalyDetector)
    (historical_data : list PreparedData.t) (s : Q) : nat :=
  length (List.filter (flagged uuid self s) historical_data).

Definition calibration_step (count : Q -> nat) (target : nat) (bounds : Q * Q) : Q * Q :=
  let mid := ((bounds.1 + bounds.2) / 2)%Q in
  if (target <=? count mid)%nat then (mid, bounds.2) else (bounds.1, mid).

Definition calibrate `{PyRuntime} (uuid : string) (self : SimpleAnomalyDetector)
    (historical_data : list PreparedData.t) : Q :=
  (Nat.iter 20 (calibration_step (flagged_count uuid self historical_data)
                                 (length historical_data / 2))
            (0.0, 1.0)%Q).1.

(** The search interval stays inside [0,1]. *)
Definition unit_bounds (bounds : Q * Q) : Prop :=
  (0 <= bounds.1)%Q /\ (bounds.1 <= bounds.2)%Q /\ (bounds.2 <= 1)%Q.

(** A request to put an alert back to "open". *)
Definition requests_open (e : event) : bool :=
  match e with
  | SetStatus _ _ new_status => String.eqb new_status "open"
  | _ => false
  end.

(** How a run of [generate_loop] that started in [self] can end in
    [self'] with outcome [r]; [n] is the number of events generated, read
    off the simulated clock.  A run that returns has filled the count up
    to the cap.  A run that raises stopped below the cap at the event the
    listener failed on, which was generated but is not counted. *)
Definition loop_outcome {W : Type} (self self' : SimulatedDataSource W)
    (r : result unit) : Prop :=
  exists n : nat,
    current_timestamp self' = (current_timestamp self + Z.of_nat n * one_hour)%Z
    /\ match r with
       | Ok _ =>
           generated_count self' = Nat.max (generated_count self) 300
           /\ n = (300 - generated_count self)%nat
       | Raise e =>
           (generated_count self' < 300)%nat
           /\ n = S (generated_count self' - generated_count self)
           /\ (generated_count self <= generated_count self')%nat
           /\ exists callback raw w,
                listener self = Some callback /\ (callback raw w).2 = Raise e
       end.

(** ** Concrete inputs

    The records, events and service states on which the properties below
    are run. *)

Definition settings_of (s : Q) : DetectionSettings.t :=
  DetectionSettings.mk "analyst" (Some s) ["any"].


Definition event_without_temperature : RawData.t :=
  RawData.mk "event-1" 0 "source_3" (<["type" := "1"]> ∅).

Definition event_with_temperature (t : string) : RawData.t :=
  RawData.mk "event-2" 3600 "source_3" (<["temperature" := t]> (<["type" := "1"]> ∅)).

Definition event_of_type (ty : string) : RawData.t :=
  RawData.mk "event-3" 7200 "source_7" (<["volume" := "10.5"]> (<["type" := ty]> ∅)).

Definition analyst : User.t :=
  User.mk "analyst" "analyst" "security" "analyst@example.com".

Definition fresh_controller : AnomalyController :=
  mkController empty_storage (mkDetector 0.5) (new_service (Some 120%Z))
               (mkConfig (mkRepo ∅)) analyst.

Definition sensor_anomaly : Anomaly.t :=
  Anomaly.mk "a-1" "event-1" 10 (1800000 # 9000)
             "sensor: Temperature 180.0 exceeds threshold 90.0" "high".

Definition traffic_anomaly : Anomaly.t :=
  Anomaly.mk "a-2" "event-2" 20 (5000000 # 20000)
             "traffic: Volume 500.0 exceeds threshold 200.0" "high".

Definition two_anomalies : InMemoryDataStorage :=
  mkStorage [] [] [sensor_anomaly; traffic_anomaly].

Definition two_sensor_records : list PreparedData.t :=
  [PreparedData.mk "event-1" 0 "sensor" [180%Q];
   PreparedData.mk "event-2" 3600 "sensor" [20%Q]].

(** Five temperatures above and five below the threshold 90 of
    sensitivity 0.5. *)
Definition ten_sensor_records : list PreparedData.t :=
  (fun v => PreparedData.mk "event" 0 "sensor" [v])
    <$> [100; 80; 100; 80; 100; 80; 100; 80; 100; 80]%Q.

Definition raised_alert : GuiAlertService :=
  send_alert (H:=reference_runtime) "al-1" 50 traffic_anomaly analyst
             (new_service (Some 120%Z)).

Definition constant_draws (k : nat) : Draw :=
  mkDraw "event" 3 1 (75 # 1) false 0 0.

(** A listener that counts its calls and fails on the third one. *)
Definition third_call_fails (raw : RawData.t) (calls : nat) : nat * result unit :=
  if (calls =? 2)%nat then (S calls, Raise (ValueError "listener failed"))
  else (S calls, Ok tt).

Definition counting_listener (raw : RawData.t) (calls : nat) : nat * result unit :=
  (S calls, Ok tt).

Definition connected_source (callback : RawData.t -> nat -> nat * result unit)
    : SimulatedDataSource nat :=
  (connect (register_data_listener callback new_source)).1.

(** The controller as the listener of the event source: the identifiers
    and the clock reading it needs are derived from the event. *)
Definition pipeline_listener (raw : RawData.t) (self : AnomalyController)
    : AnomalyController * result unit :=
  process_new_raw_data (H:=reference_runtime)
    ("anomaly-" +:+ RawData.id raw) ("alert-" +:+ RawData.id raw)
    (RawData.timestamp raw) raw self.

(** Events of the three types in turn, with values 0, 7, 14, ... *)
Definition sample_draws (k : nat) : Draw :=
  mkDraw ("event-" +:+ pretty k) 3 (1 + Z.of_nat (k mod 3)) (Z.of_nat (7 * k) # 1)
         false 10 20.

Definition pipeline_source : SimulatedDataSource AnomalyController :=
  (connect (register_data_listener pipeline_listener new_source)).1.

(** A controller whose stored sensitivity, 1.1, is outside [0,1]: the
    sensor and traffic thresholds are then 0. *)
Definition misconfigured_controller : AnomalyController :=
  mkController empty_storage (mkDetector 0.5) (new_service (Some 120%Z))
               (mkConfig (mkRepo (<["analyst" := mkEntry (Some 1.1%Q) ["any"]]> ∅)))
               analyst.

(** ** Further operations

    The remaining operations of the files above, and the two pieces of
    app.py and views.py that drive them without any widget. *)

(** [get_next_data_chunk] (data_sources.py) *)
Definition get_next_data_chunk `{PyRuntime} {W : Type} (d : Draw)
    (self : SimulatedDataSource W) : SimulatedDataSource W * RawData.t :=
  generate_one_data d self.

(** [datetime.datetime.min] and [datetime.datetime.max], in seconds from
    the origin: 0001-01-01 00:00:00 and the last second of 9999-12-31. *)
Definition datetime_min : Z := -63871286400.
Definition datetime_max : Z := 251666611199.

(** [AnomalyDetectionApp.filter_by_role] (app.py); its [role_map] is the
    dictionary of [get_anomalies], written out a second time. *)
Definition filter_by_role (role data_type : string) : bool :=
  String.eqb data_type (default "" (role_map !! role)).

(** [AnomalyDetectionApp.trigger_retraining] (app.py), on the role, the
    store and the detector of the application. *)
Definition trigger_retraining `{PyRuntime} (uuid role : string)
    (data_storage : InMemoryDataStorage) (detector : SimpleAnomalyDetector)
    : result SimpleAnomalyDetector :=
  let historical := get_historical_data datetime_min datetime_max data_storage in
  let filtered :=
    List.filter (fun d => filter_by_role role (PreparedData.data_type d)) historical in
  train_model uuid detector filtered.

(** [SettingsView.set_sensitivity] (views.py) for the slider value [s]:
    the user's settings are loaded, changed, saved, and the detector's
    global sensitivity is set. *)
Definition set_sensitivity (s : Q) (self : AnomalyController) : AnomalyController :=
  let settings :=
    get_settings_for_user (User.user_id (user self)) (config_controller self) in
  let settings :=
    DetectionSettings.mk (DetectionSettings.user_id settings) (Some s)
                         (DetectionSettings.monitored_sources settings) in
  update_global_sensitivity s
    (mkController (storage self) (detector self) (alert_service self)
                  (save_user_settings settings (config_controller self)) (user self)).

(** ** Further specification predicates *)

(** The [k]-th event of a run that starts in [self]: what
    [generate_one_data] returns once the clock has advanced [k] hours. *)
Definition event_at `{PyRuntime} {W : Type} (draws : nat -> Draw)
    (self : SimulatedDataSource W) (k : nat) : RawData.t :=
  (generate_one_data (draws k)
     (mkSource (listener self) (running self)
               (current_timestamp self + Z.of_nat k * one_hour)%Z
               (generated_count self))).2.

(** Service states reached from an empty service by raising alerts under
    identifiers not yet in use and by the actions of [step]. *)
Inductive service_reachable `{PyRuntime} : GuiAlertService -> Prop :=
  | service_new timeout : service_reachable (new_service timeout)
  | service_send alert_id now anomaly user self :
      service_reachable self ->
      alerts self !! alert_id = None ->
      service_reachable (send_alert alert_id now anomaly user self)
  | service_step self e :
      service_reachable self -> service_reachable (step self e).

(** An action of a timer thread. *)
Definition timer_event (e : event) : bool :=
  match e with
  | SetStatus _ _ _ => false
  | _ => true
  end.


(** A confirmation time is on record exactly for the confirmed alerts. *)
Definition confirmation_recorded (self : GuiAlertService) : Prop :=
  forall i, is_Some (confirmed_times self !! i) <-> status_of i self = Some "confirmed".

(** ** Further concrete inputs *)


Definition closed_alert : GuiAlertService :=
  run raised_alert [SetStatus 60%Z "al-1" "false_positive"].

Definition untimed_service : GuiAlertService := new_service None.

Definition traffic_event : RawData.t :=
  RawData.mk "event-4" 0 "source_1" (<["volume" := "5000"]> (<["type" := "3"]> ∅)).

(** A controller whose user has stored the sensitivity 0.9. *)
Definition tuned_controller : AnomalyController :=
  mkController empty_storage (mkDetector 0.5) (new_service (Some 120%Z))
               (mkConfig (mkRepo (<["analyst" := mkEntry (Some 0.9%Q) ["any"]]> ∅)))
               analyst.

Definition processed_controller : AnomalyController :=
  (process_new_raw_data (H:=reference_runtime) "a-1" "al-1" 50 traffic_event
     fresh_controller).1.

Definition sensor_storage : InMemoryDataStorage :=
  mkStorage [] two_sensor_records [].

(** ** detectors.py over binary64

    [detect] once more, on binary64 numbers.  Every operation is the IEEE
    754 one, rounded to nearest with ties to even, which is what CPython
    computes on a [float]: the literals [1.1], [8.0], [22.0], [2.0] are
    the nearest binary64 numbers, the integers [150], [1000], [100], [1]
    that meet a float convert to it exactly, comparisons are the IEEE
    ones (false on a NaN), and [/] raises on a divisor equal to zero of
    either sign.  [str_of_float], the text of a float inside an f-string,
    is a parameter. *)

#[local] Set Warnings "-inexact-float".

Module Binary64.

Module PreparedData.
Record t : Type := mk {
  id : string;
  timestamp : Z;
  data_type : string;
  features : list float;
}.
End PreparedData.

Module Anomaly.
Record t : Type := mk {
  anomaly_id : string;
  data_id : string;
  detection_time : Z;
  score : float;
  description : string;
  severity : string;
}.
End Anomaly.

Module DetectionSettings.
Record t : Type := mk {
  user_id : string;
  sensitivity : option float;
  monitored_sources : list string;
}.
End DetectionSettings.

Record SimpleAnomalyDetector : Type := mkDetector {
  global_sensitivity : float;
}.

(** [x / y], raising on a zero divisor. *)
Definition py_div (x y : float) : result float :=
  if (y =? 0)%float then Raise ZeroDivisionError else Ok (x / y)%float.

(** [l[0]] *)
Definition item0 (l : list float) : result float :=
  match l with
  | x :: _ => Ok x
  | [] => Raise IndexError
  end.

Definition severity_of (score : float) : string :=
  if (150 <? score)%float then "high" else "medium".

Definition effective_sensitivity (self : SimpleAnomalyDetector)
    (settings : DetectionSettings.t) : float :=
  match DetectionSettings.sensitivity settings with
  | Some s => s
  | None => global_sensitivity self
  end.

Section Detector.
Variable str_of_float : float -> string.

(** Lines 55-65: the score and description of a [transaction] record. *)
Definition transaction_score (time_val s : float) : result (float * string) :=
  let lower := (s * 8.0)%float in
  let upper := (s * 22.0 + (1 - s * 2.0))%float in
  if (time_val <? lower)%float then
    score ← (if (0 <? time_val)%float
             then (ratio ← py_div lower time_val; Ok (ratio * 100)%float)
             else Ok 200.0%float);
    Ok (score, "transaction: Time " +:+ str_of_float time_val
               +:+ " below lower bound " +:+ str_of_float lower)
  else if (upper <? time_val)%float then
    ratio ← py_div time_val upper;
    Ok ((ratio * 100)%float,
        "transaction: Time " +:+ str_of_float time_val
        +:+ " above upper bound " +:+ str_of_float upper)
  else Ok (0.0%float, "").

Definition detect (uuid : string) (self : SimpleAnomalyDetector)
    (data : PreparedData.t) (settings : DetectionSettings.t)
    : result (option Anomaly.t) :=
  let s := effective_sensitivity self settings in
  if String.eqb (PreparedData.data_type data) "sensor" then
    temp ← item0 (PreparedData.features data);
    let threshold := ((1.1 - s) * 150)%float in
    if (threshold <? temp)%float then
      ratio ← py_div temp threshold;
      let score := (ratio * 100)%float in
      let desc := "sensor: Temperature " +:+ str_of_float temp
                  +:+ " exceeds threshold " +:+ str_of_float threshold in
      Ok (Some (Anomaly.mk uuid (PreparedData.id data)
                  (PreparedData.timestamp data) score desc (severity_of score)))
    else Ok None
  else if String.eqb (PreparedData.data_type data) "traffic" then
    volume ← item0 (PreparedData.features data);
    let threshold := ((1.1 - s) * 1000)%float in
    if (threshold <? volume)%float then
      ratio ← py_div volume threshold;
      let score := (ratio * 100)%float in
      let desc := "traffic: Volume " +:+ str_of_float volume
                  +:+ " exceeds threshold " +:+ str_of_float threshold in
      Ok (Some (Anomaly.mk uuid (PreparedData.id data)
                  (PreparedData.timestamp data) score desc (severity_of score)))
    else Ok None
  else if String.eqb (PreparedData.data_type data) "transaction" then
    time_val ← item0 (PreparedData.features data);
    '(score, desc) ← transaction_score time_val s;
    if (100 <? score)%float then
      Ok (Some (Anomaly.mk uuid (PreparedData.id data)
                  (PreparedData.timestamp data) score desc (severity_of score)))
    else Ok None
  else Ok None.
End Detector.

(** The threshold rule, for a result [r] of [detect], a feature [v] and a
    threshold: [v > threshold] is the comparison of the two floats, and
    the score is the float [v / threshold * 100]. *)
Definition threshold_rule (r : result (option Anomaly.t)) (v threshold : float) : Prop :=
  ((exists a, r = Ok (Some a)) <-> (threshold <? v)%float = true)
  /\ ((threshold <? v)%float = false -> r = Ok None)
  /\ (forall a, r = Ok (Some a) ->
        Anomaly.score a = (v / threshold * 100)%float
        /\ (Anomaly.severity a = "high" <-> (150 <? Anomaly.score a)%float = true)
        /\ (Anomaly.severity a = "medium" <-> (150 <? Anomaly.score a)%float = false)).

Definition set_global_sensitivity (sensitivity : float)
    (self : SimpleAnomalyDetector) : SimpleAnomalyDetector :=
  {| global_sensitivity := sensitivity |}.

(** [train_model]: the nested [count_anomalies] is a loop with a counter;
    the divisor of the midpoint is the constant 2. *)
Section Training.
Variable str_of_float : float -> string.

Definition count_anomalies (uuid : string) (self : SimpleAnomalyDetector)
    (historical_data : list PreparedData.t) (s : float) : result nat :=
  let settings := DetectionSettings.mk "default_user" (Some s) ["any"] in
  foldl (fun acc data =>
           count ← acc;
           r ← detect str_of_float uuid self data settings;
           Ok (if r is Some _ then S count else count))
        (Ok O) historical_data.

(** One pass of the body of [for _ in range(20)] on [(low, high)]. *)
Definition search_step (uuid : string) (self : SimpleAnomalyDetector)
    (historical_data : list PreparedData.t) (target : nat)
    (bounds : float * float) : result (float * float) :=
  let '(low, high) := bounds in
  let mid := ((low + high) / 2)%float in
  count ← count_anomalies uuid self historical_data mid;
  if (count <? target)%nat then Ok (low, mid) else Ok (mid, high).

Definition train_model (uuid : string) (self : SimpleAnomalyDetector)
    (historical_data : list PreparedData.t) : result SimpleAnomalyDetector :=
  match historical_data with
  | [] => Ok self
  | _ :: _ =>
      let target := (length historical_data / 2)%nat in
      bounds ← foldl (fun acc _ => b ← acc; search_step uuid self historical_data target b)
                     (Ok (0.0, 1.0)%float) (seq 0 20);
      Ok (set_global_sensitivity (fst bounds) self)
  end.

(** The calibration as the specification words it: a record is flagged at
    sensitivity [s] when [detect] reports an anomaly for it under the
    fresh settings [("default_user", s, ["any"])]; each of the 20 passes
    takes the midpoint, counts the flagged records, and moves [low] up to
    the midpoint when the count reaches the target, [high] down to it
    otherwise; the result is the [low] left at the end. *)
Definition flagged (uuid : string) (self : SimpleAnomalyDetector)
    (s : float) (data : PreparedData.t) : bool :=
  match detect str_of_float uuid self data
          (DetectionSettings.mk "default_user" (Some s) ["any"]) with
  | Ok (Some _) => true
  | _ => false
  end.

Definition flagged_count (uuid : string) (self : SimpleAnomalyDetector)
    (historical_data : list PreparedData.t) (s : float) : nat :=
  length (List.filter (flagged uuid self s) historical_data).

Definition calibration_step (count : float -> nat) (target : nat)
    (bounds : float * float) : float * float :=
  let mid := ((bounds.1 + bounds.2) / 2)%float in
  if (target <=? count mid)%nat then (mid, bounds.2) else (bounds.1, mid).

Definition calibrate (uuid : string) (self : SimpleAnomalyDetector)
    (historical_data : list PreparedData.t) : float :=
  (Nat.iter 20 (calibration_step (flagged_count uuid self historical_data)
                                 (length historical_data / 2))
            (0.0, 1.0)%float).1.
End Training.

End Binary64.

(** ** The value of a binary64 number

    [Prim2SF] gives the sign, mantissa and exponent of a float; a finite
    float [(s, m, e)] is the rational [(-1)^s * m * 2^e]. *)

Definition pow2 (e : Z) : Q := Qpower 2 e.

Definition SF2Q (x : spec_float) : Q :=
  match x with
  | S754_finite s m e => inject_Z (cond_Zopp s (Zpos m)) * pow2 e
  | _ => 0
  end.

(** Zero or finite: neither an infinity nor a NaN. *)
Definition SFfinite (x : spec_float) : bool :=
  match x with
  | S754_zero _ | S754_finite _ _ _ => true
  | _ => false
  end.

Definition F2Q (x : float) : Q := SF2Q (Prim2SF x).

Definition finite (x : float) : bool := SFfinite (Prim2SF x).

(** Rounding shifts the mantissa right bit by bit; [inexact] tells that a
    nonzero bit has been shifted out, and [shifted M k mrs] that [mrs] is
    what [k] shifts make of the mantissa [M]. *)
Definition inexact (mrs : shr_record) : bool := shr_r mrs || shr_s mrs.

Definition shifted (M : Z) (k : nat) (mrs : shr_record) : Prop :=
  shr_m mrs = (M / 2 ^ Z.of_nat k)%Z
  /\ (inexact mrs = true -> ~ (2 ^ Z.of_nat k | M)%Z).

(** [r] lies between the sixteenths [ka / 16] and [kb / 16]. *)
Definition anchored (ka kb : Z) (r : Q) : Prop :=
  (inject_Z ka * pow2 (-4) <= r /\ r <= inject_Z kb * pow2 (-4))%Q.

(** Every midpoint that [n] passes of the search can reach from
    [(low, high)], whatever the counts, is a float between 0 and 1. *)
Fixpoint midpoints_in_unit (n : nat) (low high : float) : bool :=
  match n with
  | O => true
  | S n =>
      let mid := ((low + high) / 2)%float in
      (0 <=? mid)%float && (mid <=? 1)%float
      && midpoints_in_unit n low mid && midpoints_in_unit n mid high
  end.

(** ** Concrete binary64 inputs *)

(** A text for a float: the decimal expansion of its value. *)
Definition format_float (x : float) : string :=
  match Prim2SF x with
  | S754_nan => "nan"
  | S754_infinity s => if s then "-inf" else "inf"
  | _ => decimal_str (F2Q x)
  end.

Definition settings64_of (s : float) : Binary64.DetectionSettings.t :=
  Binary64.DetectionSettings.mk "analyst" (Some s) ["any"].

Definition record64_of (category : string) (v : float) : Binary64.PreparedData.t :=
  Binary64.PreparedData.mk "event-1" 0 category [v].

Definition detector64 : Binary64.SimpleAnomalyDetector :=
  Binary64.mkDetector 0.5.

(** Two temperatures equal to the threshold of sensitivity 0.5. *)
Definition threshold_records64 : list Binary64.PreparedData.t :=
  [Binary64.PreparedData.mk "event-1" 0 "sensor" [90.00000000000001%float];
   Binary64.PreparedData.mk "event-2" 3600 "sensor" [90.00000000000001%float]].

(** One temperature above that threshold and one below it. *)
Definition two_sensor_records64 : list Binary64.PreparedData.t :=
  [Binary64.PreparedData.mk "event-1" 0 "sensor" [180%float];
   Binary64.PreparedData.mk "event-2" 3600 "sensor" [20%float]].
(** * Properties *)

(** ** Arithmetic helpers *)

(** Comparisons between rational numerals. *)
Ltac q_numerals := unfold Qle, Qlt; simpl; lia.

Lemma Qltb_lt (x y : Q) : Qltb x y = true <-> (x < y)%Q.
Proof. unfold Qltb, Qlt. apply Z.ltb_lt. Qed.

Lemma Qltb_ge (x y : Q) : Qltb x y = false <-> (y <= x)%Q.
Proof. unfold Qltb, Qle. rewrite Z.ltb_ge. reflexivity. Qed.

Lemma py_div_nonzero (x y : Q) : ~ (y == 0)%Q -> py_div x y = Ok (x / y)%Q.
Proof.
  intros Hy. unfold py_div.
  destruct (Qeq_bool y 0) eqn:E; [|reflexivity].
  apply Qeq_bool_iff in E. contradiction.
Qed.

Lemma py_div_zero (x y : Q) : (y == 0)%Q -> py_div x y = Raise ZeroDivisionError.
Proof.
  intros Hy. unfold py_div. apply Qeq_bool_iff in Hy. rewrite Hy. reflexivity.
Qed.


Lemma severity_of_high (score : Q) : severity_of score = "high" <-> (150 < score)%Q.
Proof.
  unfold severity_of. destruct (Qltb 150 score) eqn:E.
  - apply Qltb_lt in E. tauto.
  - apply Qltb_ge in E. split; [discriminate | lra].
Qed.

Lemma severity_of_medium (score : Q) : severity_of score = "medium" <-> ~ (150 < score)%Q.
Proof.
  unfold severity_of. destruct (Qltb 150 score) eqn:E.
  - apply Qltb_lt in E. split; [discriminate | tauto].
  - apply Qltb_ge in E. split; [lra | reflexivity].
Qed.


(** ** Binary64 arithmetic

    The results of the IEEE 754 operations, from their specification in
    [SpecFloat]: a comparison of finite floats compares their values, and
    an addition, subtraction or multiplication never crosses a sixteenth
    that the exact result does not cross. *)

Section Binary64Rounding.
Local Open Scope Z_scope.

Lemma pow2_pos e : (0 < pow2 e)%Q.
Proof. unfold pow2. apply Qpower_0_lt. reflexivity. Qed.

Lemma pow2_add a b : (pow2 (a + b) == pow2 a * pow2 b)%Q.
Proof. unfold pow2. apply Qpower_plus. discriminate. Qed.

Lemma pow2_Z a : (0 <= a)%Z -> (pow2 a == inject_Z (2 ^ a))%Q.
Proof.
  intros Ha. unfold pow2. rewrite Zpower_Qpower by exact Ha. reflexivity.
Qed.

Lemma pow2_le a b : (a <= b)%Z -> (pow2 a <= pow2 b)%Q.
Proof.
  intros Hab. replace b with (a + (b - a))%Z by lia.
  rewrite pow2_add. rewrite (pow2_Z (b - a)) by lia.
  assert (1 <= 2 ^ (b - a))%Z by (apply Z.lt_pred_le; simpl; apply Z.pow_pos_nonneg; lia).
  assert (H1 : (inject_Z 1 <= inject_Z (2 ^ (b - a)))%Q) by (rewrite <- Zle_Qle; lia).
  pose proof (pow2_pos a). change (inject_Z 1) with 1%Q in H1. nra.
Qed.

Lemma digits2_pos_size p : digits2_pos p = Pos.size p.
Proof. induction p; simpl; congruence. Qed.

Lemma digits2_log2 p : Zpos (digits2_pos p) = (Z.log2 (Zpos p) + 1)%Z.
Proof.
  rewrite digits2_pos_size. destruct p; simpl; lia.
Qed.

Lemma digits2_bounds p :
  (2 ^ (Zpos (digits2_pos p) - 1) <= Zpos p < 2 ^ Zpos (digits2_pos p))%Z.
Proof.
  rewrite digits2_log2. replace (Z.log2 (Zpos p) + 1 - 1)%Z with (Z.log2 (Zpos p)) by lia.
  pose proof (Z.log2_spec (Zpos p) ltac:(lia)) as H.
  replace (Z.log2 (Zpos p) + 1)%Z with (Z.succ (Z.log2 (Zpos p))) by lia. exact H.
Qed.

Lemma digits2_unique p d :
  (2 ^ (d - 1) <= Zpos p < 2 ^ d)%Z -> Zpos (digits2_pos p) = d.
Proof.
  intros H. rewrite digits2_log2.
  assert (0 < d)%Z.
  { destruct (Z.lt_ge_cases 0 d) as [|Hd]; [assumption|].
    assert (2 ^ d <= 2 ^ 0)%Z by (apply Z.pow_le_mono_r; lia).
    simpl in *. lia. }
  assert (Z.log2 (Zpos p) = d - 1)%Z; [|lia].
  apply Z.log2_unique; [lia|]. replace (Z.succ (d - 1)) with d by lia. exact H.
Qed.

Lemma iter_pos_invariant {A} (f : A -> A) (P : nat -> A -> Prop) :
  (forall k x, P k x -> P (S k) (f x)) ->
  forall p k x, P k x -> P (k + Pos.to_nat p)%nat (SpecFloat.iter_pos f p x).
Proof.
  intros Hf. induction p as [p IH | p IH |]; intros k x Hx; simpl.
  - rewrite Pos2Nat.inj_xI.
    replace (k + S (2 * Pos.to_nat p))%nat
      with ((S k + Pos.to_nat p) + Pos.to_nat p)%nat by lia.
    apply IH, IH, Hf, Hx.
  - rewrite Pos2Nat.inj_xO.
    replace (k + 2 * Pos.to_nat p)%nat
      with ((k + Pos.to_nat p) + Pos.to_nat p)%nat by lia.
    apply IH, IH, Hx.
  - replace (k + Pos.to_nat 1)%nat with (S k) by lia. apply Hf, Hx.
Qed.

Lemma divide_pow2_succ M k : 0 <= k -> (2 ^ (k + 1) | M) -> (2 ^ k | M) /\ Z.even (M / 2 ^ k) = true.
Proof.
  intros Hk [c Hc]. rewrite Z.pow_add_r, Z.pow_1_r in Hc by lia.
  assert (0 < 2 ^ k) by (apply Z.pow_pos_nonneg; lia).
  split.
  - exists (c * 2). lia.
  - replace M with ((2 * c) * 2 ^ k) by lia. rewrite Z.div_mul by lia.
    rewrite Z.even_mul. reflexivity.
Qed.

Lemma shr_1_shifted M k mrs :
  0 <= M -> shifted M k mrs -> shifted M (S k) (shr_1 mrs).
Proof.
  intros HM [Hm Hi]. unfold shifted.
  assert (Hpow : 0 < 2 ^ Z.of_nat k) by (apply Z.pow_pos_nonneg; lia).
  assert (Hdiv : M / 2 ^ Z.of_nat (S k) = (M / 2 ^ Z.of_nat k) / 2).
  { rewrite Nat2Z.inj_succ, Z.pow_succ_r by lia.
    rewrite Z.div_div by lia. f_equal. lia. }
  assert (Hge : 0 <= shr_m mrs) by (rewrite Hm; apply Z.div_pos; lia).
  rewrite Hdiv, <- Hm.
  assert (Hold : inexact mrs = true -> ~ (2 ^ Z.of_nat (S k) | M)).
  { intros Hin Hd. apply (Hi Hin).
    rewrite Nat2Z.inj_succ in Hd. replace (Z.succ (Z.of_nat k)) with (Z.of_nat k + 1) in Hd by lia.
    apply divide_pow2_succ in Hd; [tauto | lia]. }
  assert (Hodd : Z.even (shr_m mrs) = false -> ~ (2 ^ Z.of_nat (S k) | M)).
  { intros Hev Hd.
    rewrite Nat2Z.inj_succ in Hd. replace (Z.succ (Z.of_nat k)) with (Z.of_nat k + 1) in Hd by lia.
    apply divide_pow2_succ in Hd; [| lia]. rewrite Hm in Hev. destruct Hd; congruence. }
  destruct mrs as [m r s]. unfold inexact in *. simpl in *.
  destruct m as [| [p | p |] | p]; simpl in *; try lia.
  - split; [reflexivity| exact Hold].
  - split; [rewrite Pos2Z.inj_xI; apply Z.div_unique with 1; lia |].
    intros _. apply Hodd. reflexivity.
  - split; [rewrite Pos2Z.inj_xO; apply Z.div_unique with 0; lia |].
    exact Hold.
  - split; [reflexivity|]. intros _. apply Hodd. reflexivity.
Qed.

Lemma shr_shifted M p :
  0 <= M ->
  shifted M (Pos.to_nat p) (SpecFloat.iter_pos shr_1 p (Build_shr_record M false false)).
Proof.
  intros HM.
  apply (iter_pos_invariant shr_1 (shifted M) (fun k x => shr_1_shifted M k x HM) p 0%nat).
  split; simpl.
  - rewrite Z.div_1_r. reflexivity.
  - discriminate.
Qed.

Lemma round_nearest_even_bounds mrs :
  let M1 := round_nearest_even (shr_m mrs) (loc_of_shr_record mrs) in
  shr_m mrs <= M1 <= shr_m mrs + 1
  /\ (inexact mrs = false -> M1 = shr_m mrs).
Proof.
  destruct mrs as [m [|] [|]]; unfold inexact; simpl;
    try destruct (Z.even m); split; (lia || congruence).
Qed.

Lemma fexp_eq L : fexp prec emax L = Z.max (L - 53) (-1074).
Proof. reflexivity. Qed.

Lemma shr_fexp_noshift M e :
  fexp prec emax (Zdigits2 M + e) - e <= 0 ->
  shr_fexp prec emax M e loc_Exact = (Build_shr_record M false false, e).
Proof.
  intros Hn. unfold shr_fexp, shr. simpl shr_record_of_loc.
  destruct (fexp prec emax (Zdigits2 M + e) - e); (reflexivity || lia).
Qed.

Lemma shr_fexp_shift M e p :
  fexp prec emax (Zdigits2 M + e) - e = Zpos p ->
  shr_fexp prec emax M e loc_Exact
  = (SpecFloat.iter_pos shr_1 p (Build_shr_record M false false), e + Zpos p).
Proof.
  intros Hn. unfold shr_fexp, shr. simpl shr_record_of_loc. rewrite Hn. reflexivity.
Qed.

Lemma Zdigits2_bounds M : 0 < M -> 2 ^ (Zdigits2 M - 1) <= M < 2 ^ Zdigits2 M.
Proof. destruct M; try lia. intros _. apply digits2_bounds. Qed.

Lemma Zdigits2_le M d : 0 < M -> M < 2 ^ d -> Zdigits2 M <= d.
Proof.
  intros HM Hlt. pose proof (Zdigits2_bounds M HM) as [Hlo _].
  destruct (Z.le_gt_cases (Zdigits2 M) d) as [|Hgt]; [assumption|].
  assert (2 ^ d <= 2 ^ (Zdigits2 M - 1)) by (apply Z.pow_le_mono_r; lia). lia.
Qed.

(** The result of rounding a positive integer mantissa: case analysis on the
    rounded mantissa [M1] at exponent [E]. *)
Lemma round_tail sx M1 E :
  -1074 <= E <= 969 -> 0 <= M1 <= 2 ^ 53 ->
  let '(mrs, e2) := shr_fexp prec emax M1 E loc_Exact in
  let z := match shr_m mrs with
           | Z0 => S754_zero sx
           | Zpos m => if e2 <=? emax - prec then S754_finite sx m e2 else S754_infinity sx
           | Zneg _ => S754_nan
           end in
  SFfinite z = true /\ (SF2Q z == inject_Z (cond_Zopp sx M1) * pow2 E)%Q.
Proof.
  intros HE HM.
  destruct (Z.eq_dec M1 (2 ^ 53)) as [-> | Hne].
  - assert (Hn : fexp prec emax (Zdigits2 (2 ^ 53) + E) - E = 1).
    { change (Zdigits2 (2 ^ 53)) with 54. rewrite fexp_eq. lia. }
    rewrite (shr_fexp_shift _ _ _ Hn).
    change (SpecFloat.iter_pos shr_1 1 (Build_shr_record (2 ^ 53) false false))
      with (Build_shr_record 4503599627370496 false false).
    cbv beta iota delta [shr_m].
    assert (Hle : (E + 1 <=? emax - prec) = true) by (apply Z.leb_le; unfold emax, prec; lia).
    rewrite Hle. split; [reflexivity|]. unfold SF2Q.
    rewrite pow2_add. change (pow2 1) with 2%Q.
    assert (Hm : (inject_Z (cond_Zopp sx (2 ^ 53))
                  == inject_Z (cond_Zopp sx (Zpos 4503599627370496)) * 2)%Q)
      by (destruct sx; reflexivity).
    rewrite Hm. ring.
  - assert (Hn : fexp prec emax (Zdigits2 M1 + E) - E <= 0).
    { rewrite fexp_eq. destruct (Z.eq_dec M1 0) as [-> | H0]; [simpl; lia|].
      pose proof (Zdigits2_le M1 53 ltac:(lia) ltac:(lia)). lia. }
    rewrite (shr_fexp_noshift _ _ Hn). simpl shr_m.
    destruct M1 as [| m | m]; try lia.
    + split; [reflexivity|].
      assert (Hz : (inject_Z (cond_Zopp sx 0) == 0)%Q) by (destruct sx; reflexivity).
      rewrite Hz. unfold SF2Q. ring.
    + assert (Hle : (E <=? emax - prec) = true) by (apply Z.leb_le; unfold emax, prec; lia).
      rewrite Hle. split; reflexivity.
Qed.

Lemma binary_round_aux_faithful sx m e :
  Zpos (digits2_pos m) + e <= 900 ->
  let g := Z.max e (fexp prec emax (Zpos (digits2_pos m) + e)) in
  let z := binary_round_aux prec emax sx (Zpos m) e loc_Exact in
  exists N,
    0 <= N
    /\ Z.abs (N * 2 ^ (g - e) - Zpos m) < 2 ^ (g - e)
    /\ SFfinite z = true
    /\ (SF2Q z == inject_Z (cond_Zopp sx N) * pow2 g)%Q.
Proof.
  intros HL g z. subst z.
  pose proof (digits2_bounds m) as Hd.
  assert (Hd1 : 1 <= Zpos (digits2_pos m)) by lia.
  unfold binary_round_aux.
  destruct (Z_le_gt_dec (fexp prec emax (Zdigits2 (Zpos m) + e) - e) 0) as [Hn | Hn].
  - rewrite (shr_fexp_noshift _ _ Hn).
    cbv beta iota delta [shr_m loc_of_shr_record round_nearest_even].
    rewrite (shr_fexp_noshift _ _ Hn).
    cbv beta iota delta [shr_m].
    simpl Zdigits2 in Hn.
    assert (Hg : g = e) by (subst g; lia).
    assert (Hle : (e <=? emax - prec) = true) by (apply Z.leb_le; unfold emax, prec; lia).
    rewrite Hle, Hg. exists (Zpos m). rewrite Z.sub_diag.
    repeat split; try reflexivity; simpl; lia.
  - destruct (fexp prec emax (Zdigits2 (Zpos m) + e) - e) as [| p | p] eqn:Hp; try lia.
    rewrite (shr_fexp_shift _ _ _ Hp).
    simpl Zdigits2 in Hp. rewrite fexp_eq in Hp.
    assert (Hg : g = e + Zpos p) by (subst g; rewrite fexp_eq; lia).
    pose proof (shr_shifted (Zpos m) p ltac:(lia)) as [Hq Hex].
    rewrite positive_nat_Z in Hq, Hex.
    set (mrs := SpecFloat.iter_pos shr_1 p (Build_shr_record (Zpos m) false false)) in *.
    pose proof (round_nearest_even_bounds mrs) as [Hb Hexact].
    set (M1 := round_nearest_even (shr_m mrs) (loc_of_shr_record mrs)) in *.
    assert (Hpow : 0 < 2 ^ Zpos p) by (apply Z.pow_pos_nonneg; lia).
    pose proof (Z.div_mod (Zpos m) (2 ^ Zpos p) ltac:(lia)) as Hdm.
    pose proof (Z.mod_pos_bound (Zpos m) (2 ^ Zpos p) Hpow) as Hmod.
    rewrite <- Hq in Hdm.
    assert (Hq0 : 0 <= shr_m mrs) by (rewrite Hq; apply Z.div_pos; lia).
    assert (Hq53 : shr_m mrs < 2 ^ 53).
    { rewrite Hq. apply Z.div_lt_upper_bound; [lia|].
      rewrite <- Z.pow_add_r by lia.
      apply Z.lt_le_trans with (2 ^ Zpos (digits2_pos m)); [lia|].
      apply Z.pow_le_mono_r; lia. }
    pose proof (round_tail sx M1 (e + Zpos p) ltac:(lia) ltac:(lia)) as Htail.
    destruct (shr_fexp prec emax M1 (e + Zpos p) loc_Exact) as [mrs2 e2].
    destruct Htail as [Hfin Hval].
    exists M1. rewrite Hg.
    replace (e + Zpos p - e) with (Zpos p) by lia.
    split; [lia|]. split; [|split; assumption].
    destruct (Z.eq_dec M1 (shr_m mrs)) as [-> | Hne]; [nia|].
    assert (Hin : inexact mrs = true).
    { destruct (inexact mrs); [reflexivity|]. exfalso. apply Hne, Hexact. reflexivity. }
    assert (Hnz : Zpos m mod 2 ^ Zpos p <> 0).
    { intros Hz. apply (Hex Hin). apply Z.mod_divide; [lia | exact Hz]. }
    assert (M1 = shr_m mrs + 1) by lia. nia.
Qed.

Lemma scaled_le x y e : (inject_Z x * pow2 e <= inject_Z y * pow2 e)%Q <-> x <= y.
Proof.
  pose proof (pow2_pos e) as Hp. rewrite Zle_Qle. split; intros Hle.
  - apply Qmult_le_r with (pow2 e); assumption.
  - apply Qmult_le_r; assumption.
Qed.

Lemma pow2_shift e g : e <= g -> (pow2 g == inject_Z (2 ^ (g - e)) * pow2 e)%Q.
Proof.
  intros Hle. rewrite <- (pow2_Z (g - e)) by lia. rewrite <- pow2_add.
  replace (g - e + e) with g by lia. reflexivity.
Qed.

Lemma scaled_shift x e g :
  e <= g -> (inject_Z x * pow2 g == inject_Z (x * 2 ^ (g - e)) * pow2 e)%Q.
Proof.
  intros Hle. rewrite (pow2_shift e g Hle), inject_Z_mult. ring.
Qed.

(** Rounding is faithful: it never crosses a number of the grid [2 ^ g]
    when the result's exponent is at most [g]. *)
Lemma binary_round_aux_anchor sx m e g k :
  Zpos (digits2_pos m) + e <= 900 ->
  fexp prec emax (Zpos (digits2_pos m) + e) <= g ->
  let z := binary_round_aux prec emax sx (Zpos m) e loc_Exact in
  let r := (inject_Z (cond_Zopp sx (Zpos m)) * pow2 e)%Q in
  SFfinite z = true
  /\ ((inject_Z k * pow2 g <= r)%Q -> (inject_Z k * pow2 g <= SF2Q z)%Q)
  /\ ((r <= inject_Z k * pow2 g)%Q -> (SF2Q z <= inject_Z k * pow2 g)%Q).
Proof.
  intros HL Hg z r.
  destruct (binary_round_aux_faithful sx m e HL) as (N & HN & Habs & Hfin & Hval).
  fold z in Hfin, Hval. split; [exact Hfin|].
  set (g0 := Z.max e (fexp prec emax (Zpos (digits2_pos m) + e))) in *.
  set (ms := cond_Zopp sx (Zpos m)) in *.
  set (Ns := cond_Zopp sx N) in *.
  assert (Hpow : 0 < 2 ^ (g0 - e)) by (apply Z.pow_pos_nonneg; lia).
  assert (Hs : Z.abs (Ns * 2 ^ (g0 - e) - ms) < 2 ^ (g0 - e)).
  { subst Ns ms. destruct sx; simpl; lia. }
  destruct (Z.eq_dec g0 e) as [He | He].
  - assert (Ns = ms) by (rewrite He, Z.sub_diag in Hs; lia).
    assert (Hzr : (SF2Q z == r)%Q) by (rewrite Hval, He; subst r; congruence).
    rewrite Hzr. tauto.
  - assert (Hg0 : e < g0 <= g) by lia.
    rewrite Hval. subst r.
    rewrite (scaled_shift k e g) by lia.
    rewrite (scaled_shift Ns e g0) by lia.
    rewrite !scaled_le.
    replace (g - e) with ((g - g0) + (g0 - e)) by lia.
    rewrite Z.pow_add_r by lia.
    set (P := 2 ^ (g0 - e)) in *. set (K := k * 2 ^ (g - g0)).
    rewrite Z.mul_assoc. fold K.
    split; intros Hle.
    + assert (Hlt : K * P < (Ns + 1) * P) by lia.
      apply Z.mul_lt_mono_pos_r in Hlt; [|exact Hpow].
      apply Z.mul_le_mono_nonneg_r; lia.
    + assert (Hlt : (Ns - 1) * P < K * P) by lia.
      apply Z.mul_lt_mono_pos_r in Hlt; [|exact Hpow].
      apply Z.mul_le_mono_nonneg_r; lia.
Qed.

Lemma pow2_lt_inv a b : (pow2 a < pow2 b)%Q -> a < b.
Proof.
  intros Hlt. destruct (Z.lt_ge_cases a b) as [|Hge]; [assumption|].
  apply pow2_le in Hge. lra.
Qed.

Lemma digits_of_bound m e b :
  (inject_Z (Zpos m) * pow2 e < pow2 b)%Q -> Zpos (digits2_pos m) + e <= b.
Proof.
  intros Hlt. pose proof (digits2_bounds m) as [Hlo _].
  assert (Hd : 1 <= Zpos (digits2_pos m)) by lia.
  assert (H1 : (pow2 (Zpos (digits2_pos m) - 1 + e) <= inject_Z (Zpos m) * pow2 e)%Q).
  { rewrite pow2_add, (pow2_Z (Zpos (digits2_pos m) - 1)) by lia.
    apply Qmult_le_r; [apply pow2_pos|]. rewrite <- Zle_Qle. exact Hlo. }
  assert (H2 : Zpos (digits2_pos m) - 1 + e < b) by (apply pow2_lt_inv; lra).
  lia.
Qed.

Lemma cond_Zopp_value s m e :
  (inject_Z (cond_Zopp s (Zpos m)) * pow2 e
   == (if s then -1 else 1) * (inject_Z (Zpos m) * pow2 e))%Q.
Proof. destruct s; simpl cond_Zopp; [rewrite inject_Z_opp|]; ring. Qed.

Lemma binary_round_aux_between sx m e ka kb :
  - 2 ^ 52 <= ka -> kb <= 2 ^ 52 ->
  anchored ka kb (inject_Z (cond_Zopp sx (Zpos m)) * pow2 e) ->
  SFfinite (binary_round_aux prec emax sx (Zpos m) e loc_Exact) = true
  /\ anchored ka kb (SF2Q (binary_round_aux prec emax sx (Zpos m) e loc_Exact)).
Proof.
  intros Hka Hkb [Hlo Hhi].
  assert (Hmag : (inject_Z (Zpos m) * pow2 e < pow2 49)%Q).
  { rewrite cond_Zopp_value in Hlo, Hhi.
    assert (Ha : (inject_Z (- 2 ^ 52) <= inject_Z ka)%Q) by (rewrite <- Zle_Qle; exact Hka).
    assert (Hb : (inject_Z kb <= inject_Z (2 ^ 52))%Q) by (rewrite <- Zle_Qle; exact Hkb).
    change (pow2 (-4)) with (1 # 16)%Q in Hlo, Hhi.
    change (pow2 49) with (inject_Z (2 ^ 49)).
    change (inject_Z (- 2 ^ 52)) with (- inject_Z (2 ^ 52))%Q in Ha.
    change (inject_Z (2 ^ 52)) with (8 * inject_Z (2 ^ 49))%Q in Ha, Hb.
    assert (0 < inject_Z (2 ^ 49))%Q by reflexivity.
    destruct sx; lra. }
  apply digits_of_bound in Hmag.
  assert (Hg : fexp prec emax (Zpos (digits2_pos m) + e) <= -4) by (rewrite fexp_eq; lia).
  pose proof (binary_round_aux_anchor sx m e (-4) ka ltac:(lia) Hg) as (Hfin & Ha & _).
  pose proof (binary_round_aux_anchor sx m e (-4) kb ltac:(lia) Hg) as (_ & _ & Hb).
  split; [exact Hfin|]. split; [apply Ha, Hlo | apply Hb, Hhi].
Qed.

Lemma iter_xO_value m d : Zpos (Pos.iter xO m d) = Zpos m * 2 ^ Zpos d.
Proof.
  induction d as [|d IH] using Pos.peano_ind.
  - simpl. lia.
  - rewrite Pos.iter_succ, Pos2Z.inj_xO, IH, Pos2Z.inj_succ, Z.pow_succ_r by lia. lia.
Qed.

Lemma shl_align_value m e e0 :
  (inject_Z (Zpos (fst (shl_align m e e0))) * pow2 (snd (shl_align m e e0))
   == inject_Z (Zpos m) * pow2 e)%Q
  /\ (e0 <= e -> snd (shl_align m e e0) = e0).
Proof.
  unfold shl_align. destruct (e0 - e) as [| d | d] eqn:Hd; simpl fst; simpl snd.
  - split; [reflexivity | lia].
  - split; [reflexivity | lia].
  - split; [|reflexivity].
    rewrite iter_xO_value, inject_Z_mult.
    rewrite (pow2_shift e0 e) by lia. replace (e - e0) with (Zpos d) by lia. ring.
Qed.

Lemma binary_round_between sx m e ka kb :
  - 2 ^ 52 <= ka -> kb <= 2 ^ 52 ->
  anchored ka kb (inject_Z (cond_Zopp sx (Zpos m)) * pow2 e) ->
  SFfinite (binary_round prec emax sx m e) = true
  /\ anchored ka kb (SF2Q (binary_round prec emax sx m e)).
Proof.
  intros Hka Hkb Hr. unfold binary_round.
  pose proof (shl_align_value m e (fexp prec emax (Zpos (digits2_pos m) + e))) as [Hv _].
  destruct (shl_align m e (fexp prec emax (Zpos (digits2_pos m) + e))) as [mz ez].
  simpl fst in Hv; simpl snd in Hv.
  apply binary_round_aux_between; try assumption.
  unfold anchored in *. rewrite cond_Zopp_value in *. rewrite Hv. exact Hr.
Qed.

Ltac zero_operand :=
  unfold anchored in *; simpl SF2Q in *;
  change (inject_Z 0) with 0%Q in *; lra.

Lemma binary_normalize_between M e ka kb :
  - 2 ^ 52 <= ka -> kb <= 2 ^ 52 ->
  anchored ka kb (inject_Z M * pow2 e) ->
  SFfinite (binary_normalize prec emax M e false) = true
  /\ anchored ka kb (SF2Q (binary_normalize prec emax M e false)).
Proof.
  intros Hka Hkb Hr. destruct M as [| m | m]; simpl binary_normalize.
  - split; [reflexivity|]. zero_operand.
  - apply (binary_round_between false); assumption.
  - apply (binary_round_between true); assumption.
Qed.

(** Values and finiteness of the operands of an operation. *)
Lemma SF2Q_finite s m e :
  (SF2Q (S754_finite s m e) == inject_Z (cond_Zopp s (Zpos m)) * pow2 e)%Q.
Proof. reflexivity. Qed.

Lemma SFmul_between x y ka kb :
  SFfinite x = true -> SFfinite y = true ->
  - 2 ^ 52 <= ka -> kb <= 2 ^ 52 ->
  anchored ka kb (SF2Q x * SF2Q y) ->
  SFfinite (SF64mul x y) = true /\ anchored ka kb (SF2Q (SF64mul x y)).
Proof.
  intros Hx Hy Hka Hkb Hr.
  destruct x as [sx | sx | | sx mx ex]; try discriminate;
    destruct y as [sy | sy | | sy my ey]; try discriminate;
    unfold SF64mul, SFmul.
  1-3: split; [reflexivity | zero_operand].
  apply binary_round_aux_between; try assumption.
  unfold anchored in *. simpl SF2Q in Hr.
  assert (Hv : (inject_Z (cond_Zopp (xorb sx sy) (Zpos (mx * my))) * pow2 (ex + ey)
                == inject_Z (cond_Zopp sx (Zpos mx)) * pow2 ex
                   * (inject_Z (cond_Zopp sy (Zpos my)) * pow2 ey))%Q).
  { rewrite !cond_Zopp_value, pow2_add, Pos2Z.inj_mul, inject_Z_mult.
    destruct sx, sy; cbn [xorb]; ring. }
  rewrite Hv. exact Hr.
Qed.

Lemma aligned_value s m e ez :
  ez <= e ->
  (inject_Z (cond_Zopp s (Zpos (fst (shl_align m e ez)))) * pow2 ez
   == inject_Z (cond_Zopp s (Zpos m)) * pow2 e)%Q.
Proof.
  intros Hle. pose proof (shl_align_value m e ez) as [Hv He].
  rewrite (He Hle) in Hv. rewrite !cond_Zopp_value, Hv. reflexivity.
Qed.

Lemma SFadd_between x y ka kb :
  SFfinite x = true -> SFfinite y = true ->
  - 2 ^ 52 <= ka -> kb <= 2 ^ 52 ->
  anchored ka kb (SF2Q x + SF2Q y) ->
  SFfinite (SF64add x y) = true /\ anchored ka kb (SF2Q (SF64add x y)).
Proof.
  intros Hx Hy Hka Hkb Hr.
  destruct x as [sx | sx | | sx mx ex]; try discriminate;
    destruct y as [sy | sy | | sy my ey]; try discriminate;
    unfold SF64add, SFadd.
  - split; [destruct sx, sy; reflexivity|]. destruct sx, sy; zero_operand.
  - split; [reflexivity | zero_operand].
  - split; [reflexivity | zero_operand].
  - cbv zeta. apply binary_normalize_between; try assumption.
    unfold anchored in *. rewrite inject_Z_plus, Qmult_plus_distr_l.
    rewrite (aligned_value sx mx ex) by lia. rewrite (aligned_value sy my ey) by lia.
    exact Hr.
Qed.

Lemma SFsub_between x y ka kb :
  SFfinite x = true -> SFfinite y = true ->
  - 2 ^ 52 <= ka -> kb <= 2 ^ 52 ->
  anchored ka kb (SF2Q x - SF2Q y) ->
  SFfinite (SF64sub x y) = true /\ anchored ka kb (SF2Q (SF64sub x y)).
Proof.
  intros Hx Hy Hka Hkb Hr.
  destruct x as [sx | sx | | sx mx ex]; try discriminate;
    destruct y as [sy | sy | | sy my ey]; try discriminate;
    unfold SF64sub, SFsub.
  - split; [destruct sx, sy; reflexivity|]. destruct sx, sy; zero_operand.
  - split; [reflexivity|]. unfold anchored in *.
    rewrite !SF2Q_finite, !cond_Zopp_value in *. simpl SF2Q in Hr.
    destruct sy; cbn [negb] in *; cbv iota in *; lra.
  - split; [reflexivity | zero_operand].
  - cbv zeta. apply binary_normalize_between; try assumption.
    unfold anchored in *.
    assert (Hv : (inject_Z (cond_Zopp sx (Zpos (fst (shl_align mx ex (Z.min ex ey))))
                            - cond_Zopp sy (Zpos (fst (shl_align my ey (Z.min ex ey)))))
                  * pow2 (Z.min ex ey)
                  == SF2Q (S754_finite sx mx ex) - SF2Q (S754_finite sy my ey))%Q).
    { unfold Z.sub at 1. rewrite inject_Z_plus, inject_Z_opp.
      rewrite !SF2Q_finite.
      rewrite <- (aligned_value sx mx ex (Z.min ex ey)) by lia.
      rewrite <- (aligned_value sy my ey (Z.min ex ey)) by lia. ring. }
    rewrite Hv. exact Hr.
Qed.

Lemma bounded_digits m e :
  bounded prec emax m e = true ->
  Zpos (digits2_pos m) <= 53 /\ (-1074 < e -> Zpos (digits2_pos m) = 53).
Proof.
  unfold bounded, canonical_mantissa. rewrite fexp_eq.
  intros [Hc _]%andb_prop. apply Z.eqb_eq in Hc. lia.
Qed.

Lemma scaled_lt x y e : (inject_Z x * pow2 e < inject_Z y * pow2 e)%Q <-> x < y.
Proof.
  pose proof (pow2_pos e) as Hp. rewrite Zlt_Qlt. split; intros Hlt.
  - apply Qmult_lt_r with (pow2 e); assumption.
  - apply Qmult_lt_r; assumption.
Qed.

(** Canonical representations are ordered by exponent first. *)
Lemma canonical_lt m1 e1 m2 e2 :
  bounded prec emax m1 e1 = true -> bounded prec emax m2 e2 = true ->
  e1 < e2 ->
  (inject_Z (Zpos m1) * pow2 e1 < inject_Z (Zpos m2) * pow2 e2)%Q.
Proof.
  intros H1 H2 Hlt.
  assert (He1 : -1074 <= e1).
  { unfold bounded, canonical_mantissa in H1. rewrite fexp_eq in H1.
    apply andb_prop in H1 as [Hc _]. apply Z.eqb_eq in Hc. lia. }
  apply bounded_digits in H1 as [Hd1 _]. apply bounded_digits in H2 as [_ Hd2].
  specialize (Hd2 ltac:(lia)).
  pose proof (digits2_bounds m1) as [_ Hm1]. pose proof (digits2_bounds m2) as [Hm2 _].
  rewrite Hd2 in Hm2.
  assert (Hm1' : Zpos m1 < 2 ^ 53).
  { apply Z.lt_le_trans with (2 ^ Zpos (digits2_pos m1)); [assumption|].
    apply Z.pow_le_mono_r; lia. }
  rewrite (scaled_shift (Zpos m2) e1 e2) by lia. apply scaled_lt.
  assert (2 ^ 1 <= 2 ^ (e2 - e1)) by (apply Z.pow_le_mono_r; lia).
  change (2 ^ (53 - 1)) with 4503599627370496 in Hm2.
  change (2 ^ 53) with 9007199254740992 in Hm1'. change (2 ^ 1) with 2 in *. nia.
Qed.

Lemma Qcompare_Lt x y : (x < y)%Q -> (x ?= y)%Q = Lt.
Proof. intros. apply Qlt_alt. assumption. Qed.

Lemma Qcompare_Gt x y : (y < x)%Q -> (x ?= y)%Q = Gt.
Proof. intros. apply Qgt_alt. assumption. Qed.

Lemma Qcompare_scaled x y e :
  (inject_Z x * pow2 e ?= inject_Z y * pow2 e)%Q = (x ?= y).
Proof.
  destruct (Z.compare_spec x y) as [-> | Hlt | Hgt].
  - apply Qeq_alt. reflexivity.
  - apply Qcompare_Lt, scaled_lt, Hlt.
  - apply Qcompare_Gt, scaled_lt, Hgt.
Qed.

Lemma positive_value m e : (0 < inject_Z (Zpos m) * pow2 e)%Q.
Proof.
  pose proof (pow2_pos e). assert (0 < inject_Z (Zpos m))%Q by reflexivity. nra.
Qed.

Lemma Qcompare_neg x y : (-1 * x ?= -1 * y)%Q = CompOpp (x ?= y)%Q.
Proof.
  destruct (Qcompare_spec x y) as [Heq | Hlt | Hgt].
  - apply Qeq_alt. rewrite Heq. reflexivity.
  - apply Qcompare_Gt. lra.
  - apply Qcompare_Lt. lra.
Qed.

Lemma Qcompare_pos x y : (1 * x ?= 1 * y)%Q = (x ?= y)%Q.
Proof.
  destruct (Qcompare_spec x y) as [Heq | Hlt | Hgt].
  - apply Qeq_alt. rewrite Heq. reflexivity.
  - apply Qcompare_Lt. lra.
  - apply Qcompare_Gt. lra.
Qed.

Lemma SFcompare_positive m1 e1 m2 e2 :
  bounded prec emax m1 e1 = true -> bounded prec emax m2 e2 = true ->
  match e1 ?= e2 with
  | Lt => Lt
  | Gt => Gt
  | Eq => Pos.compare_cont Eq m1 m2
  end = (inject_Z (Zpos m1) * pow2 e1 ?= inject_Z (Zpos m2) * pow2 e2)%Q.
Proof.
  intros H1 H2. destruct (Z.compare_spec e1 e2) as [-> | Hlt | Hgt].
  - rewrite Qcompare_scaled. reflexivity.
  - symmetry. apply Qcompare_Lt, canonical_lt; assumption.
  - symmetry. apply Qcompare_Gt, canonical_lt; assumption.
Qed.

Lemma SFcompare_value x y :
  valid_binary x = true -> valid_binary y = true ->
  SFfinite x = true -> SFfinite y = true ->
  SFcompare x y = Some (SF2Q x ?= SF2Q y)%Q.
Proof.
  intros Vx Vy Hx Hy.
  destruct x as [sx | sx | | sx mx ex]; try discriminate;
    destruct y as [sy | sy | | sy my ey]; try discriminate;
    simpl SFcompare; f_equal; rewrite ?SF2Q_finite, ?cond_Zopp_value.
  - pose proof (positive_value my ey). simpl SF2Q.
    destruct sy; symmetry; [apply Qcompare_Gt | apply Qcompare_Lt]; lra.
  - pose proof (positive_value mx ex). simpl SF2Q.
    destruct sx; symmetry; [apply Qcompare_Lt | apply Qcompare_Gt]; lra.
  - simpl in Vx, Vy.
    pose proof (positive_value mx ex). pose proof (positive_value my ey).
    pose proof (SFcompare_positive mx ex my ey Vx Vy) as Hc.
    destruct sx, sy.
    + rewrite Qcompare_neg, <- Hc. destruct (ex ?= ey); reflexivity.
    + symmetry. apply Qcompare_Lt. lra.
    + symmetry. apply Qcompare_Gt. lra.
    + rewrite Qcompare_pos, <- Hc. reflexivity.
Qed.

End Binary64Rounding.

Lemma mul_between (x y : float) (ka kb : Z) :
  finite x = true -> finite y = true ->
  (- 2 ^ 52 <= ka)%Z -> (kb <= 2 ^ 52)%Z ->
  anchored ka kb (F2Q x * F2Q y) ->
  finite (x * y) = true /\ anchored ka kb (F2Q (x * y)).
Proof. unfold finite, F2Q. rewrite FloatAxioms.mul_spec. apply SFmul_between. Qed.

Lemma add_between (x y : float) (ka kb : Z) :
  finite x = true -> finite y = true ->
  (- 2 ^ 52 <= ka)%Z -> (kb <= 2 ^ 52)%Z ->
  anchored ka kb (F2Q x + F2Q y) ->
  finite (x + y) = true /\ anchored ka kb (F2Q (x + y)).
Proof. unfold finite, F2Q. rewrite FloatAxioms.add_spec. apply SFadd_between. Qed.

Lemma sub_between (x y : float) (ka kb : Z) :
  finite x = true -> finite y = true ->
  (- 2 ^ 52 <= ka)%Z -> (kb <= 2 ^ 52)%Z ->
  anchored ka kb (F2Q x - F2Q y) ->
  finite (x - y) = true /\ anchored ka kb (F2Q (x - y)).
Proof. unfold finite, F2Q. rewrite FloatAxioms.sub_spec. apply SFsub_between. Qed.

Lemma compare_value (x y : float) :
  finite x = true -> finite y = true ->
  SFcompare (Prim2SF x) (Prim2SF y) = Some (F2Q x ?= F2Q y)%Q.
Proof. intros Hx Hy. apply SFcompare_value; auto using Prim2SF_valid. Qed.

Lemma ltb_value (x y : float) :
  finite x = true -> finite y = true ->
  (x <? y)%float = true <-> (F2Q x < F2Q y)%Q.
Proof.
  intros Hx Hy. rewrite FloatAxioms.ltb_spec. unfold SFltb. rewrite (compare_value x y Hx Hy).
  pose proof (Qlt_alt (F2Q x) (F2Q y)) as Halt.
  destruct (F2Q x ?= F2Q y)%Q; split; intros Hc; try congruence;
    try (apply Halt in Hc; congruence); apply Halt; reflexivity.
Qed.

Lemma eqb_value (x y : float) :
  finite x = true -> finite y = true ->
  (x =? y)%float = true <-> (F2Q x == F2Q y)%Q.
Proof.
  intros Hx Hy. rewrite FloatAxioms.eqb_spec. unfold SFeqb. rewrite (compare_value x y Hx Hy).
  pose proof (Qeq_alt (F2Q x) (F2Q y)) as Halt.
  destruct (F2Q x ?= F2Q y)%Q; split; intros Hc; try congruence;
    try (apply Halt in Hc; congruence); apply Halt; reflexivity.
Qed.

Lemma leb_value (x y : float) :
  finite x = true -> finite y = true ->
  (x <=? y)%float = true <-> (F2Q x <= F2Q y)%Q.
Proof.
  intros Hx Hy. rewrite FloatAxioms.leb_spec. unfold SFleb. rewrite (compare_value x y Hx Hy).
  pose proof (Qle_alt (F2Q x) (F2Q y)) as Halt.
  destruct (F2Q x ?= F2Q y)%Q; split; intros Hc; try congruence;
    try (apply Halt in Hc; congruence); apply Halt; discriminate.
Qed.

(** A number between 0.0 and 1.0 is finite. *)
Lemma unit_interval (s : float) :
  (0 <=? s)%float = true -> (s <=? 1)%float = true ->
  finite s = true /\ (0 <= F2Q s <= 1)%Q.
Proof.
  intros H0 H1.
  assert (Hfin : finite s = true).
  { rewrite FloatAxioms.leb_spec in H0, H1. unfold finite.
    change (Prim2SF 0) with (S754_zero false) in H0.
    change (Prim2SF 1) with (S754_finite false 4503599627370496 (-52)) in H1.
    destruct (Prim2SF s) as [| [|] | |]; try reflexivity; discriminate. }
  split; [exact Hfin|].
  apply leb_value in H0; [|reflexivity|exact Hfin].
  apply leb_value in H1; [|exact Hfin|reflexivity].
  change (F2Q 0) with 0%Q in H0.
  assert (F2Q 1 == 1)%Q by reflexivity.
  split; lra.
Qed.

Lemma positive_nonzero (t : float) :
  finite t = true -> (0 < F2Q t)%Q -> (t =? 0)%float = false.
Proof.
  intros Hfin Hpos. destruct (t =? 0)%float eqn:E; [|reflexivity].
  apply eqb_value in E; [|exact Hfin|reflexivity].
  change (F2Q 0) with 0%Q in E. lra.
Qed.

Section Binary64Bounds.
Local Open Scope Q_scope.

Lemma F2Q_1_1 : F2Q 1.1 == 4953959590107546 # 4503599627370496.
Proof. reflexivity. Qed.

Ltac q_anchors :=
  unfold anchored, Z.sub in *; change (pow2 (-4)) with (1 # 16) in *;
  repeat (progress rewrite ?inject_Z_plus, ?inject_Z_mult, ?inject_Z_opp in * );
  repeat match goal with
         | |- context [inject_Z (Zpos ?p)] =>
             change (inject_Z (Zpos p)) with (Zpos p # 1)
         | H : context [inject_Z (Zpos ?p)] |- _ =>
             change (inject_Z (Zpos p)) with (Zpos p # 1) in H
         end.

(** For a sensitivity between 0 and 1 the threshold is a positive
    number, so the division by it is defined. *)
Lemma threshold_nonzero (s scale : float) (k : Z) :
  (0 <=? s)%float = true -> (s <=? 1)%float = true ->
  finite scale = true -> F2Q scale == inject_Z k -> (16 <= k <= 2 ^ 40)%Z ->
  (((1.1 - s) * scale) =? 0)%float = false.
Proof.
  intros H0 H1 Hscale Hk Hrange.
  destruct (unit_interval s H0 H1) as [Hfin [Hs0 Hs1]].
  destruct (sub_between 1.1 s 1 32) as [Hd Hdv]; try assumption; try reflexivity; try lia.
  { q_anchors. rewrite F2Q_1_1. split; lra. }
  destruct (mul_between (1.1 - s) scale k (32 * k)) as [Ht Htv]; try assumption; try lia.
  { q_anchors. rewrite Hk.
    assert (16 <= inject_Z k) by (change 16 with (inject_Z 16); rewrite <- Zle_Qle; lia).
    split; nra. }
  apply positive_nonzero; [exact Ht|].
  q_anchors. assert (16 <= inject_Z k) by (change 16 with (inject_Z 16); rewrite <- Zle_Qle; lia).
  lra.
Qed.

Lemma SFcompare_antisym (x y : spec_float) :
  SFcompare y x = option_map CompOpp (SFcompare x y).
Proof.
  destruct x as [sx | sx | | sx mx ex], y as [sy | sy | | sy my ey];
    try destruct sx; try destruct sy; try reflexivity; simpl.
  - rewrite (Z.compare_antisym ex ey).
    destruct (ex ?= ey)%Z; simpl; try reflexivity.
    rewrite (Pos.compare_cont_antisym mx my Eq). reflexivity.
  - rewrite (Z.compare_antisym ex ey).
    destruct (ex ?= ey)%Z; simpl; try reflexivity.
    rewrite (Pos.compare_cont_antisym mx my Eq). reflexivity.
Qed.

Lemma leb_not_ltb (x y : float) : (x <=? y)%float = true -> (y <? x)%float = false.
Proof.
  rewrite FloatAxioms.leb_spec, FloatAxioms.ltb_spec. unfold SFleb, SFltb.
  rewrite (SFcompare_antisym (Prim2SF x) (Prim2SF y)).
  destruct (SFcompare (Prim2SF x) (Prim2SF y)) as [[| |]|]; simpl; congruence.
Qed.

Lemma ltb_not_eqb (x y : float) : (x <? y)%float = true -> (y =? x)%float = false.
Proof.
  rewrite FloatAxioms.eqb_spec, FloatAxioms.ltb_spec. unfold SFeqb, SFltb.
  rewrite (SFcompare_antisym (Prim2SF x) (Prim2SF y)).
  destruct (SFcompare (Prim2SF x) (Prim2SF y)) as [[| |]|]; simpl; congruence.
Qed.

Lemma eqb_not_ltb (x y : float) : (x =? y)%float = true -> (y <? x)%float = false.
Proof.
  rewrite FloatAxioms.eqb_spec, FloatAxioms.ltb_spec. unfold SFeqb, SFltb.
  rewrite (SFcompare_antisym (Prim2SF x) (Prim2SF y)).
  destruct (SFcompare (Prim2SF x) (Prim2SF y)) as [[| |]|]; simpl; congruence.
Qed.

(** A number above [u] is not below a finite [l <= u]. *)
Lemma above_not_below (l u v : float) :
  finite l = true -> finite u = true -> (F2Q l <= F2Q u)%Q ->
  (u <? v)%float = true -> (v <? l)%float = false.
Proof.
  intros Hl Hu Hlu Huv.
  destruct (finite v) eqn:Hv.
  - apply ltb_value in Huv; [|assumption..].
    destruct (v <? l)%float eqn:E; [|reflexivity].
    apply ltb_value in E; [|assumption..]. lra.
  - rewrite FloatAxioms.ltb_spec in *. unfold finite in *.
    destruct (Prim2SF v) as [| [|] | |]; try discriminate;
      destruct (Prim2SF u) as [| | | [|]]; try discriminate;
      destruct (Prim2SF l) as [| | | [|]]; try discriminate; reflexivity.
Qed.


(** The band of the transaction rule for a sensitivity between 0 and 1:
    both bounds are finite, the lower one is not above the upper one, and
    the upper one is positive. *)
Lemma band_ordered (s : float) :
  (0 <=? s)%float = true -> (s <=? 1)%float = true ->
  let lower := (s * 8.0)%float in
  let upper := (s * 22.0 + (1 - s * 2.0))%float in
  finite lower = true /\ finite upper = true
  /\ F2Q lower <= F2Q upper /\ 0 < F2Q upper.
Proof.
  intros H0 H1 lower upper.
  destruct (unit_interval s H0 H1) as [Hfin [Hs0 Hs1]].
  set (i := Qfloor (16 * F2Q s)).
  assert (Hi0 : (0 <= i)%Z).
  { change 0%Z with (Qfloor 0). apply Qfloor_resp_le. lra. }
  assert (Hi16 : (i <= 16)%Z).
  { change 16%Z with (Qfloor 16). apply Qfloor_resp_le. lra. }
  pose proof (Qfloor_le (16 * F2Q s)) as Hlo. pose proof (Qlt_floor (16 * F2Q s)) as Hhi.
  fold i in Hlo, Hhi. rewrite inject_Z_plus in Hhi. change (inject_Z 1) with 1 in Hhi.
  assert (Hq0 : 0 <= inject_Z i) by (change 0 with (inject_Z 0); rewrite <- Zle_Qle; lia).
  assert (Hq16 : inject_Z i <= 16) by (change 16 with (inject_Z 16); rewrite <- Zle_Qle; lia).
  assert (H8 : F2Q 8.0 == 8) by reflexivity.
  assert (H22 : F2Q 22.0 == 22) by reflexivity.
  assert (H2 : F2Q 2.0 == 2) by reflexivity.
  assert (H1' : F2Q 1 == 1) by reflexivity.
  destruct (mul_between s 8.0 (8 * i) (8 * i + 8)) as [Hlf Hlv];
    try assumption; try reflexivity; try lia.
  { q_anchors. rewrite H8. change (inject_Z 8) with 8. split; lra. }
  destruct (mul_between s 22.0 (22 * i) (22 * i + 22)) as [Haf Hav];
    try assumption; try reflexivity; try lia.
  { q_anchors. rewrite H22. change (inject_Z 22) with 22. split; lra. }
  destruct (mul_between s 2.0 (2 * i) (2 * i + 2)) as [Hcf Hcv];
    try assumption; try reflexivity; try lia.
  { q_anchors. rewrite H2. change (inject_Z 2) with 2. split; lra. }
  destruct (sub_between 1 (s * 2.0) (14 - 2 * i) (16 - 2 * i)) as [Hbf Hbv];
    try assumption; try reflexivity; try lia.
  { q_anchors. rewrite H1'.
    split; lra. }
  destruct (add_between (s * 22.0) (1 - s * 2.0) (20 * i + 14) (20 * i + 38)) as [Huf Huv];
    try assumption; try lia.
  { q_anchors.
    split; lra. }
  fold lower in Hlf, Hlv. fold upper in Huf, Huv.
  split; [exact Hlf|]. split; [exact Huf|].
  q_anchors.
  split; lra.
Qed.

End Binary64Bounds.

(** ** The detector over binary64 *)

Section Binary64Detector.
Variable str_of_float : float -> string.

Lemma binary64_div_nonzero (x y : float) :
  (y =? 0)%float = false -> Binary64.py_div x y = Ok (x / y)%float.
Proof. intros Hy. unfold Binary64.py_div. rewrite Hy. reflexivity. Qed.

Lemma binary64_severity_high (score : float) :
  Binary64.severity_of score = "high" <-> (150 <? score)%float = true.
Proof.
  unfold Binary64.severity_of. destruct (150 <? score)%float; split; congruence.
Qed.

Lemma binary64_severity_medium (score : float) :
  Binary64.severity_of score = "medium" <-> (150 <? score)%float = false.
Proof.
  unfold Binary64.severity_of. destruct (150 <? score)%float; split; congruence.
Qed.

Lemma binary64_threshold_rule_intro uuid i t v threshold desc :
  Binary64.threshold_rule
    (if (threshold <? v)%float then
       Ok (Some (Binary64.Anomaly.mk uuid i t (v / threshold * 100)%float desc
                   (Binary64.severity_of (v / threshold * 100)%float)))
     else Ok None) v threshold.
Proof.
  unfold Binary64.threshold_rule. destruct (threshold <? v)%float.
  - split; [|split].
    + split; [reflexivity | intros _; eexists; reflexivity].
    + discriminate.
    + intros a [= <-]. cbn. split; [reflexivity|].
      split; [apply binary64_severity_high | apply binary64_severity_medium].
  - split; [|split].
    + split; [intros [a Ha]; discriminate | discriminate].
    + reflexivity.
    + intros a Ha. discriminate.
Qed.

(** What [detect] returns on a [sensor] or [traffic] record whose
    threshold is not zero. *)
Lemma binary64_detect_sensor uuid self data settings (v : float) rest :
  Binary64.PreparedData.data_type data = "sensor" ->
  Binary64.PreparedData.features data = v :: rest ->
  let threshold := ((1.1 - Binary64.effective_sensitivity self settings) * 150)%float in
  (threshold =? 0)%float = false ->
  Binary64.detect str_of_float uuid self data settings =
    if (threshold <? v)%float then
      Ok (Some (Binary64.Anomaly.mk uuid (Binary64.PreparedData.id data)
                  (Binary64.PreparedData.timestamp data)
                  (v / threshold * 100)%float
                  ("sensor: Temperature " +:+ str_of_float v
                   +:+ " exceeds threshold " +:+ str_of_float threshold)
                  (Binary64.severity_of (v / threshold * 100)%float)))
    else Ok None.
Proof.
  intros Hty Hf threshold Hnz. unfold Binary64.detect. rewrite Hty, Hf. cbn.
  fold threshold. destruct (threshold <? v)%float; [|reflexivity].
  rewrite (binary64_div_nonzero _ _ Hnz). reflexivity.
Qed.

Lemma binary64_detect_traffic uuid self data settings (v : float) rest :
  Binary64.PreparedData.data_type data = "traffic" ->
  Binary64.PreparedData.features data = v :: rest ->
  let threshold := ((1.1 - Binary64.effective_sensitivity self settings) * 1000)%float in
  (threshold =? 0)%float = false ->
  Binary64.detect str_of_float uuid self data settings =
    if (threshold <? v)%float then
      Ok (Some (Binary64.Anomaly.mk uuid (Binary64.PreparedData.id data)
                  (Binary64.PreparedData.timestamp data)
                  (v / threshold * 100)%float
                  ("traffic: Volume " +:+ str_of_float v
                   +:+ " exceeds threshold " +:+ str_of_float threshold)
                  (Binary64.severity_of (v / threshold * 100)%float)))
    else Ok None.
Proof.
  intros Hty Hf threshold Hnz. unfold Binary64.detect. rewrite Hty, Hf. cbn.
  fold threshold. destruct (threshold <? v)%float; [|reflexivity].
  rewrite (binary64_div_nonzero _ _ Hnz). reflexivity.
Qed.

(** C1. For every sensitivity s in [0,1] and every prepared record of
    category sensor with feature value v, [detect] returns an anomaly if
    and only if v > (1.1 - s) * 150; the anomaly's score is
    v / threshold * 100 and its severity is "high" exactly when the score
    exceeds 150 and "medium" otherwise.  The same holds for category
    traffic with threshold (1.1 - s) * 1000.  The threshold, the score
    and the comparisons are those of binary64 arithmetic, as the code
    computes them. *)
Theorem detect_threshold_rule uuid self data settings (s v : float) rest :
  Binary64.effective_sensitivity self settings = s ->
  (0 <=? s)%float = true -> (s <=? 1)%float = true ->
  Binary64.PreparedData.features data = v :: rest ->
  (Binary64.PreparedData.data_type data = "sensor" ->
     Binary64.threshold_rule (Binary64.detect str_of_float uuid self data settings)
       v ((1.1 - s) * 150)%float)
  /\ (Binary64.PreparedData.data_type data = "traffic" ->
     Binary64.threshold_rule (Binary64.detect str_of_float uuid self data settings)
       v ((1.1 - s) * 1000)%float).
Proof.
  intros Hs H0 H1 Hf. split; intros Hty.
  - pose proof (threshold_nonzero s 150 150 H0 H1 eq_refl ltac:(reflexivity) ltac:(lia))
      as Hnz.
    rewrite <- Hs in Hnz.
    rewrite (binary64_detect_sensor uuid self data settings v rest Hty Hf Hnz), Hs.
    apply binary64_threshold_rule_intro.
  - pose proof (threshold_nonzero s 1000 1000 H0 H1 eq_refl ltac:(reflexivity) ltac:(lia))
      as Hnz.
    rewrite <- Hs in Hnz.
    rewrite (binary64_detect_traffic uuid self data settings v rest Hty Hf Hnz), Hs.
    apply binary64_threshold_rule_intro.
Qed.

(** C2. For every prepared record of category transaction with feature
    value v, with lower = s * 8.0 and upper = s * 22.0 + (1 - s * 2.0):
    [detect] returns no anomaly (the score is 0) whenever
    lower <= v <= upper; inside the branch v < lower the score is
    lower / v * 100 when 0 < v and 200.0 when v == 0; for a sensitivity s
    in [0,1] the score is v / upper * 100 when v > upper; an anomaly is
    emitted exactly when the score exceeds 100, and it carries that
    score.  Bounds, scores and comparisons are those of binary64
    arithmetic, as the code computes them. *)
Theorem transaction_rule uuid self data settings (s v : float) rest :
  Binary64.effective_sensitivity self settings = s ->
  Binary64.PreparedData.data_type data = "transaction" ->
  Binary64.PreparedData.features data = v :: rest ->
  let lower := (s * 8.0)%float in
  let upper := (s * 22.0 + (1 - s * 2.0))%float in
  let below := "transaction: Time " +:+ str_of_float v
               +:+ " below lower bound " +:+ str_of_float lower in
  let above := "transaction: Time " +:+ str_of_float v
               +:+ " above upper bound " +:+ str_of_float upper in
  ((lower <=? v)%float = true -> (v <=? upper)%float = true ->
     Binary64.transaction_score str_of_float v s = Ok (0.0%float, "")
     /\ Binary64.detect str_of_float uuid self data settings = Ok None)
  /\ ((0 <? v)%float = true -> (v <? lower)%float = true ->
     Binary64.transaction_score str_of_float v s = Ok ((lower / v * 100)%float, below))
  /\ ((v =? 0)%float = true -> (v <? lower)%float = true ->
     Binary64.transaction_score str_of_float v s = Ok (200.0%float, below))
  /\ ((0 <=? s)%float = true -> (s <=? 1)%float = true -> (upper <? v)%float = true ->
     Binary64.transaction_score str_of_float v s = Ok ((v / upper * 100)%float, above))
  /\ (forall score desc,
        Binary64.transaction_score str_of_float v s = Ok (score, desc) ->
        Binary64.detect str_of_float uuid self data settings =
          if (100 <? score)%float then
            Ok (Some (Binary64.Anomaly.mk uuid (Binary64.PreparedData.id data)
                        (Binary64.PreparedData.timestamp data) score desc
                        (Binary64.severity_of score)))
          else Ok None).
Proof.
  intros Hs Hty Hf lower upper below above.
  assert (Hgate : forall score desc,
             Binary64.transaction_score str_of_float v s = Ok (score, desc) ->
             Binary64.detect str_of_float uuid self data settings =
               if (100 <? score)%float then
                 Ok (Some (Binary64.Anomaly.mk uuid (Binary64.PreparedData.id data)
                             (Binary64.PreparedData.timestamp data) score desc
                             (Binary64.severity_of score)))
               else Ok None).
  { intros score desc Hscore. unfold Binary64.detect. rewrite Hty, Hf, Hs. cbn.
    rewrite Hscore. reflexivity. }
  split; [|split; [|split; [|split]]].
  - intros Hlo Hhi.
    assert (Hscore : Binary64.transaction_score str_of_float v s = Ok (0.0%float, "")).
    { unfold Binary64.transaction_score. fold lower upper.
      rewrite (leb_not_ltb _ _ Hlo), (leb_not_ltb _ _ Hhi). reflexivity. }
    split; [exact Hscore|]. rewrite (Hgate _ _ Hscore). reflexivity.
  - intros Hpos Hlt. unfold Binary64.transaction_score. fold lower upper.
    rewrite Hlt, Hpos. rewrite (binary64_div_nonzero _ _ (ltb_not_eqb _ _ Hpos)).
    reflexivity.
  - intros Hz Hlt. unfold Binary64.transaction_score. fold lower upper.
    rewrite Hlt, (eqb_not_ltb _ _ Hz). reflexivity.
  - intros H0 H1 Hgt.
    destruct (band_ordered s H0 H1) as (Hlf & Huf & Hle & Hupos).
    fold lower upper in Hlf, Huf, Hle, Hupos.
    unfold Binary64.transaction_score. fold lower upper.
    rewrite (above_not_below lower upper v Hlf Huf Hle Hgt), Hgt.
    rewrite (binary64_div_nonzero _ _ (positive_nonzero upper Huf Hupos)). reflexivity.
  - exact Hgate.
Qed.
(** *** Calibration over binary64 *)

(** For a sensitivity in [0,1], [detect] returns on every record that has
    a feature. *)
Lemma binary64_detect_returns uuid self data settings (s : float) :
  Binary64.effective_sensitivity self settings = s ->
  (0 <=? s)%float = true -> (s <=? 1)%float = true ->
  Binary64.PreparedData.features data <> [] ->
  exists r, Binary64.detect str_of_float uuid self data settings = Ok r.
Proof.
  intros Hs H0 H1 Hne.
  destruct (Binary64.PreparedData.features data) as [|v rest] eqn:Hf; [contradiction|].
  unfold Binary64.detect. rewrite Hf, Hs. cbn [Binary64.item0 mbind result_bind].
  destruct (String.eqb _ "sensor").
  { pose proof (threshold_nonzero s 150 150 H0 H1 eq_refl ltac:(reflexivity) ltac:(lia))
      as Hnz.
    destruct (_ <? v)%float; [|eexists; reflexivity].
    rewrite (binary64_div_nonzero _ _ Hnz). eexists. reflexivity. }
  destruct (String.eqb _ "traffic").
  { pose proof (threshold_nonzero s 1000 1000 H0 H1 eq_refl ltac:(reflexivity) ltac:(lia))
      as Hnz.
    destruct (_ <? v)%float; [|eexists; reflexivity].
    rewrite (binary64_div_nonzero _ _ Hnz). eexists. reflexivity. }
  destruct (String.eqb _ "transaction"); [|eexists; reflexivity].
  assert (Hscore : exists score desc,
             Binary64.transaction_score str_of_float v s = Ok (score, desc)).
  { unfold Binary64.transaction_score.
    destruct (v <? s * 8.0)%float.
    - destruct (0 <? v)%float eqn:Hpos; [|eexists; eexists; reflexivity].
      rewrite (binary64_div_nonzero _ _ (ltb_not_eqb _ _ Hpos)).
      eexists. eexists. reflexivity.
    - destruct (_ <? v)%float; [|eexists; eexists; reflexivity].
      destruct (band_ordered s H0 H1) as (_ & Huf & _ & Hupos).
      rewrite (binary64_div_nonzero _ _ (positive_nonzero _ Huf Hupos)).
      eexists. eexists. reflexivity. }
  destruct Hscore as (score & desc & ->). cbn.
  destruct (100 <? score)%float; eexists; reflexivity.
Qed.

(** The counting loop returns the number of flagged records. *)
Lemma binary64_count_anomalies_eq uuid self historical_data (s : float) :
  (0 <=? s)%float = true -> (s <=? 1)%float = true ->
  Forall (fun d => Binary64.PreparedData.features d <> []) historical_data ->
  Binary64.count_anomalies str_of_float uuid self historical_data s
  = Ok (Binary64.flagged_count str_of_float uuid self historical_data s).
Proof.
  intros H0 H1 Hall. unfold Binary64.count_anomalies, Binary64.flagged_count.
  set (settings := Binary64.DetectionSettings.mk "default_user" (Some s) ["any"]).
  assert (Hgen : forall n,
    foldl (fun acc data =>
             count ← acc;
             r ← Binary64.detect str_of_float uuid self data settings;
             Ok (if r is Some _ then S count else count))
          (Ok n) historical_data
    = Ok (n + length (List.filter (Binary64.flagged str_of_float uuid self s)
                        historical_data))%nat).
  { induction Hall as [|d l Hd Hl IH]; intros n.
    - cbn. rewrite Nat.add_0_r. reflexivity.
    - cbn [foldl List.filter mbind result_bind]. unfold Binary64.flagged at 1. fold settings.
      destruct (binary64_detect_returns uuid self d settings s eq_refl H0 H1 Hd)
        as [r ->].
      cbn [mbind result_bind]. destruct r as [a|]; rewrite IH; cbn [length]; f_equal; lia. }
  apply (Hgen O).
Qed.

(** One pass of the loop is one step of the calibration, as long as the
    midpoint is in [0,1]. *)
Lemma binary64_search_step_eq uuid self historical_data target (bounds : float * float) :
  Forall (fun d => Binary64.PreparedData.features d <> []) historical_data ->
  (0 <=? (bounds.1 + bounds.2) / 2)%float = true ->
  ((bounds.1 + bounds.2) / 2 <=? 1)%float = true ->
  Binary64.search_step str_of_float uuid self historical_data target bounds
  = Ok (Binary64.calibration_step
          (Binary64.flagged_count str_of_float uuid self historical_data) target bounds).
Proof.
  intros Hall H0 H1. destruct bounds as [low high]. cbn [fst snd] in *.
  unfold Binary64.search_step, Binary64.calibration_step. cbn [fst snd].
  rewrite (binary64_count_anomalies_eq _ _ _ _ H0 H1 Hall). cbn [mbind result_bind].
  destruct (Nat.ltb_spec
              (Binary64.flagged_count str_of_float uuid self historical_data
                 ((low + high) / 2)%float) target) as [Hlt|Hge].
  - destruct (Nat.leb_spec target
                (Binary64.flagged_count str_of_float uuid self historical_data
                   ((low + high) / 2)%float)); [lia | reflexivity].
  - destruct (Nat.leb_spec target
                (Binary64.flagged_count str_of_float uuid self historical_data
                   ((low + high) / 2)%float)); [reflexivity | lia].
Qed.

(** The 20 midpoints of a search from [(0, 1)] are floats in [0,1]: all
    the branches of the bisection are evaluated. *)
Lemma midpoints_in_unit_20 : midpoints_in_unit 20 0 1 = true.
Proof. vm_compute. reflexivity. Qed.

(** The loop of [train_model] is the iterated calibration step. *)
Lemma binary64_search_loop_eq uuid self historical_data target :
  Forall (fun d => Binary64.PreparedData.features d <> []) historical_data ->
  forall (n k : nat) (low high : float),
    midpoints_in_unit n low high = true ->
    foldl (fun acc _ =>
             b ← acc;
             Binary64.search_step str_of_float uuid self historical_data target b)
          (Ok (low, high)) (seq k n)
    = Ok (Nat.iter n
            (Binary64.calibration_step
               (Binary64.flagged_count str_of_float uuid self historical_data) target)
            (low, high)).
Proof.
  intros Hall. induction n as [|n IH]; intros k low high Hmid; [reflexivity|].
  cbn [midpoints_in_unit] in Hmid.
  apply andb_prop in Hmid as [Hmid Hright].
  apply andb_prop in Hmid as [Hmid Hleft].
  apply andb_prop in Hmid as [H0 H1].
  rewrite Nat.iter_succ_r. cbn [seq foldl mbind result_bind].
  rewrite (binary64_search_step_eq uuid self historical_data target (low, high) Hall H0 H1).
  set (step := Binary64.calibration_step
                 (Binary64.flagged_count str_of_float uuid self historical_data) target).
  assert (Hcase : step (low, high) = (((low + high) / 2)%float, high)
                  \/ step (low, high) = (low, ((low + high) / 2)%float)).
  { unfold step, Binary64.calibration_step. cbn [fst snd].
    destruct (target <=? _)%nat; [left | right]; reflexivity. }
  destruct Hcase as [-> | ->]; apply IH; assumption.
Qed.

(** C4. [train_model] on an empty list returns with the detector, and so
    the global sensitivity, unchanged.  On a non-empty list of n prepared
    records it performs exactly 20 bisection passes over the sensitivity
    interval [0,1]: at each midpoint [(low + high) / 2] it counts the
    records that [detect] flags under the fresh settings
    ("default_user", midpoint, ["any"]), compares the count with the
    target floor(n/2), sets low to the midpoint when the count is at
    least the target and high to the midpoint otherwise; the global
    sensitivity of the detector it returns is the low bound left after
    the 20 passes.  Midpoints, thresholds and comparisons are those of
    binary64 arithmetic, as the code computes them. *)
Theorem train_model_calibrates uuid (self : Binary64.SimpleAnomalyDetector)
    (historical_data : list Binary64.PreparedData.t) :
  (Binary64.train_model str_of_float uuid self [] = Ok self
   /\ forall detector', Binary64.train_model str_of_float uuid self [] = Ok detector' ->
        Binary64.global_sensitivity detector' = Binary64.global_sensitivity self)
  /\ (historical_data <> [] ->
      Forall (fun d => Binary64.PreparedData.features d <> []) historical_data ->
      exists detector',
        Binary64.train_model str_of_float uuid self historical_data = Ok detector'
        /\ Binary64.global_sensitivity detector'
           = (Nat.iter 20
                (Binary64.calibration_step
                   (Binary64.flagged_count str_of_float uuid self historical_data)
                   (length historical_data / 2))
                (0.0, 1.0)%float).1
        /\ Binary64.global_sensitivity detector'
           = Binary64.calibrate str_of_float uuid self historical_data).
Proof.
  split; [split; [reflexivity | intros detector' [= <-]; reflexivity]|].
  intros Hne Hall. unfold Binary64.train_model, Binary64.calibrate.
  destruct historical_data as [|d l] eqn:E; [contradiction|].
  rewrite <- E in *.
  rewrite (binary64_search_loop_eq uuid self historical_data _ Hall 20 0 0 1
             midpoints_in_unit_20).
  eexists. split; [reflexivity|]. split; reflexivity.
Qed.
End Binary64Detector.

(** *** Concrete runs of the binary64 detector *)

(** A temperature of 180 at sensitivity 0.5. *)
Lemma detect_threshold_rule_witness :
  Binary64.threshold_rule
    (Binary64.detect format_float "a-1" detector64 (record64_of "sensor" 180)
       (settings64_of 0.5))
    180 ((1.1 - 0.5) * 150)%float.
Proof.
  exact (proj1 (detect_threshold_rule format_float "a-1" detector64
                  (record64_of "sensor" 180) (settings64_of 0.5) 0.5 180 []
                  eq_refl eq_refl eq_refl eq_refl) eq_refl).
Defined.

(** At sensitivity 0.5 the sensor threshold is the float next above 90:
    a temperature equal to it is not reported, and 180 scores just below
    200. *)
Example detect_sensor_at_threshold :
  ((1.1 - 0.5) * 150)%float = 90.00000000000001%float
  /\ Binary64.detect format_float "a-1" detector64
       (record64_of "sensor" 90.00000000000001) (settings64_of 0.5) = Ok None
  /\ Binary64.Anomaly.score <$>
       (match Binary64.detect format_float "a-1" detector64
                (record64_of "sensor" 180) (settings64_of 0.5) with
        | Ok r => r
        | Raise _ => None
        end) = Some 199.99999999999997%float.
Proof. repeat split. Qed.

Example detect_traffic_500 :
  Binary64.Anomaly.severity <$>
    (match Binary64.detect format_float "a-2" detector64
             (record64_of "traffic" 500) (settings64_of 0.9) with
     | Ok r => r
     | Raise _ => None
     end) = Some "high".
Proof. reflexivity. Qed.

(** At sensitivity 0.3 the upper bound is the float 7.0: a time of 7.0 is
    inside the band and not reported; a time of 8.0 is above it. *)
Lemma transaction_rule_witness :
  Binary64.detect format_float "a-1" detector64
    (record64_of "transaction" 7.0) (settings64_of 0.3) = Ok None
  /\ Binary64.transaction_score format_float 8.0 0.3
     = Ok ((8.0 / 7.0 * 100)%float,
           "transaction: Time " +:+ format_float 8.0
           +:+ " above upper bound " +:+ format_float 7.0).
Proof.
  split.
  - exact (proj2 (proj1 (transaction_rule format_float "a-1" detector64
                           (record64_of "transaction" 7.0) (settings64_of 0.3)
                           0.3 7.0 [] eq_refl eq_refl eq_refl) eq_refl eq_refl)).
  - exact (proj1 (proj2 (proj2 (proj2
             (transaction_rule format_float "a-1" detector64
                (record64_of "transaction" 8.0) (settings64_of 0.3)
                0.3 8.0 [] eq_refl eq_refl eq_refl)))) eq_refl eq_refl eq_refl).
Defined.

(** The regions at sensitivity 0.5, where the band is [4, 11]. *)
Example transaction_regions :
  (0.5 * 8.0)%float = 4%float
  /\ (0.5 * 22.0 + (1 - 0.5 * 2.0))%float = 11%float
  /\ (exists desc, Binary64.transaction_score format_float 2 0.5 = Ok (200%float, desc))
  /\ (exists desc, Binary64.transaction_score format_float 0 0.5 = Ok (200%float, desc))
  /\ Binary64.transaction_score format_float 4 0.5 = Ok (0%float, "")
  /\ Binary64.transaction_score format_float 11 0.5 = Ok (0%float, "")
  /\ (exists desc, Binary64.transaction_score format_float 22 0.5 = Ok (200%float, desc)).
Proof. repeat split; eexists; reflexivity. Qed.

(** ** The detector over rationals: sensor and traffic *)

Section DetectorFacts.
Context `{PyRuntime}.

Lemma threshold_positive (s scale : Q) :
  (s <= 1)%Q -> (0 < scale)%Q -> (0 < (1.1 - s) * scale)%Q.
Proof.
  intros Hs Hscale.
  assert (H0 : (0 < 1.1 - s)%Q) by lra.
  apply Qmult_lt_0_compat; assumption.
Qed.



(** ** The detector over rationals: transaction *)

Lemma upper_positive (s : Q) : (0 <= s)%Q -> (0 < s * 22.0 + (1 - s * 2.0))%Q.
Proof. intros Hs. lra. Qed.

(** ** Every anomaly of the detector *)

(** How an anomaly returned by [detect] was made. *)
Lemma detect_some_inv uuid self data settings a :
  detect uuid self data settings = Ok (Some a) ->
  let s := effective_sensitivity self settings in
  exists v rest, PreparedData.features data = v :: rest /\
    ((PreparedData.data_type data = "sensor"
      /\ ((1.1 - s) * 150 < v)%Q /\ ~ ((1.1 - s) * 150 == 0)%Q
      /\ a = Anomaly.mk uuid (PreparedData.id data) (PreparedData.timestamp data)
               (v / ((1.1 - s) * 150) * 100)%Q
               ("sensor: Temperature " +:+ str_of_float v
                +:+ " exceeds threshold " +:+ str_of_float ((1.1 - s) * 150)%Q)
               (severity_of (v / ((1.1 - s) * 150) * 100)%Q))
     \/ (PreparedData.data_type data = "traffic"
      /\ ((1.1 - s) * 1000 < v)%Q /\ ~ ((1.1 - s) * 1000 == 0)%Q
      /\ a = Anomaly.mk uuid (PreparedData.id data) (PreparedData.timestamp data)
               (v / ((1.1 - s) * 1000) * 100)%Q
               ("traffic: Volume " +:+ str_of_float v
                +:+ " exceeds threshold " +:+ str_of_float ((1.1 - s) * 1000)%Q)
               (severity_of (v / ((1.1 - s) * 1000) * 100)%Q))
     \/ (PreparedData.data_type data = "transaction"
      /\ exists score desc,
           transaction_score v s = Ok (score, desc) /\ (100 < score)%Q
           /\ a = Anomaly.mk uuid (PreparedData.id data) (PreparedData.timestamp data)
                    score desc (severity_of score))).
Proof.
  intros Hd s. unfold detect in Hd. fold s in Hd.
  destruct (PreparedData.features data) as [|v rest] eqn:Hf.
  { repeat destruct (String.eqb _ _); discriminate. }
  exists v, rest. split; [reflexivity|].
  destruct (String.eqb_spec (PreparedData.data_type data) "sensor") as [Hty|_].
  { left. cbn in Hd. destruct (Qltb _ v) eqn:E; [|discriminate].
    unfold py_div in Hd. destruct (Qeq_bool _ 0) eqn:Ez; [discriminate|].
    cbn in Hd. injection Hd as <-. apply Qltb_lt in E.
    repeat split; try assumption.
    intros Hz. apply Qeq_bool_iff in Hz. congruence. }
  destruct (String.eqb_spec (PreparedData.data_type data) "traffic") as [Hty|_].
  { right; left. cbn in Hd. destruct (Qltb _ v) eqn:E; [|discriminate].
    unfold py_div in Hd. destruct (Qeq_bool _ 0) eqn:Ez; [discriminate|].
    cbn in Hd. injection Hd as <-. apply Qltb_lt in E.
    repeat split; try assumption.
    intros Hz. apply Qeq_bool_iff in Hz. congruence. }
  destruct (String.eqb_spec (PreparedData.data_type data) "transaction") as [Hty|_];
    [|discriminate].
  right; right. split; [exact Hty|]. cbn in Hd.
  destruct (transaction_score v s) as [[score desc]|e]; [|discriminate].
  cbn in Hd. destruct (Qltb 100 score) eqn:E; [|discriminate].
  injection Hd as <-. apply Qltb_lt in E. exists score, desc. auto.
Qed.

End DetectorFacts.

(** *** Concrete runs of the detector *)


(** ** Role-scoped queries *)

Lemma role_map_security : role_map !! "security" = Some "traffic".
Proof. reflexivity. Qed.

Lemma role_map_equipment : role_map !! "equipment" = Some "sensor".
Proof. reflexivity. Qed.

Lemma role_map_fraud : role_map !! "fraud" = Some "transaction".
Proof. reflexivity. Qed.

Lemma role_map_other (role : string) :
  role <> "security" -> role <> "equipment" -> role <> "fraud" ->
  role_map !! role = None.
Proof.
  intros H1 H2 H3. unfold role_map.
  rewrite !lookup_insert_ne by congruence. apply lookup_empty.
Qed.

Lemma in_range_spec (start_time end_time t : Z) :
  in_range start_time end_time t = true <-> (start_time <= t <= end_time)%Z.
Proof. unfold in_range. rewrite andb_true_iff, !Z.leb_le. reflexivity. Qed.

Lemma get_anomalies_In role start_time end_time self a :
  In a (get_anomalies role start_time end_time self) <->
  In a (anomalies self)
  /\ String.prefix (default "" (role_map !! role) +:+ ":") (Anomaly.description a) = true
  /\ (start_time <= Anomaly.detection_time a <= end_time)%Z.
Proof.
  unfold get_anomalies. rewrite filter_In, andb_true_iff, in_range_spec. reflexivity.
Qed.

Section RoleIsolation.
Context `{PyRuntime}.

Lemma transaction_score_desc (v s score : Q) (desc : string) :
  transaction_score v s = Ok (score, desc) -> (100 < score)%Q ->
  exists rest, desc = "transaction: Time " +:+ rest.
Proof.
  unfold transaction_score. intros Hsc Hgt.
  destruct (Qltb v (s * 8.0)).
  - destruct (Qltb 0 v).
    + destruct (py_div _ _); [|discriminate]. cbn in Hsc. injection Hsc as _ <-.
      eexists. reflexivity.
    + cbn in Hsc. injection Hsc as _ <-. eexists. reflexivity.
  - destruct (Qltb _ v).
    + destruct (py_div _ _); [|discriminate]. cbn in Hsc. injection Hsc as _ <-.
      eexists. reflexivity.
    + injection Hsc as <- _. exfalso. revert Hgt. apply Qle_not_lt. discriminate.
Qed.

(** The description of an anomaly names the category of its record. *)
Lemma produced_from_prefix (category : string) (a : Anomaly.t) :
  produced_from category a ->
  (category = "sensor" /\ exists rest, Anomaly.description a = "sensor: " +:+ rest)
  \/ (category = "traffic" /\ exists rest, Anomaly.description a = "traffic: " +:+ rest)
  \/ (category = "transaction"
      /\ exists rest, Anomaly.description a = "transaction: " +:+ rest).
Proof.
  intros (uuid & self & data & settings & Hcat & Hd).
  apply detect_some_inv in Hd. destruct Hd as (v & rest & _ & Hd).
  destruct Hd as [(Hty & _ & _ & ->)|[(Hty & _ & _ & ->)|(Hty & score & desc & Hsc & Hgt & ->)]];
    rewrite Hty in Hcat; subst category.
  - left. split; [reflexivity|]. eexists. reflexivity.
  - right; left. split; [reflexivity|]. eexists. reflexivity.
  - right; right. split; [reflexivity|].
    destruct (transaction_score_desc _ _ _ _ Hsc Hgt) as [rest' ->].
    eexists. reflexivity.
Qed.

(** A description selected by a category prefix was produced from that
    category and from no other. *)
Lemma prefix_selects_category (allowed : string) (a : Anomaly.t) :
  allowed = "sensor" \/ allowed = "traffic" \/ allowed = "transaction" ->
  produced a ->
  String.prefix (allowed +:+ ":") (Anomaly.description a) = true ->
  produced_from allowed a
  /\ forall other, produced_from other a -> other = allowed.
Proof.
  intros Hallowed [category Hp] Hpre.
  assert (Hsame : forall c, produced_from c a -> c = allowed).
  { intros c Hc. apply produced_from_prefix in Hc.
    destruct Hc as [(-> & rest & Hdesc)|[(-> & rest & Hdesc)|(-> & rest & Hdesc)]];
      rewrite Hdesc in Hpre;
      destruct Hallowed as [-> | [-> | ->]]; try reflexivity; cbn in Hpre; discriminate. }
  split; [|exact Hsame].
  rewrite <- (Hsame category Hp). exact Hp.
Qed.

(** C7. For every store whose anomalies were produced by the detector and
    every time range, [get_anomalies "security"] returns only anomalies
    made from traffic records, never one made from a sensor or transaction
    record; "equipment" returns only sensor anomalies and "fraud" only
    transaction anomalies; every anomaly returned is stored and has its
    detection time inside the inclusive range. *)
Theorem get_anomalies_role_isolation (self : InMemoryDataStorage)
    (start_time end_time : Z) (a : Anomaly.t) :
  Forall produced (anomalies self) ->
  (In a (get_anomalies "security" start_time end_time self) ->
     produced_from "traffic" a
     /\ ~ produced_from "sensor" a /\ ~ produced_from "transaction" a
     /\ In a (anomalies self)
     /\ (start_time <= Anomaly.detection_time a <= end_time)%Z)
  /\ (In a (get_anomalies "equipment" start_time end_time self) ->
     produced_from "sensor" a
     /\ ~ produced_from "traffic" a /\ ~ produced_from "transaction" a
     /\ In a (anomalies self)
     /\ (start_time <= Anomaly.detection_time a <= end_time)%Z)
  /\ (In a (get_anomalies "fraud" start_time end_time self) ->
     produced_from "transaction" a
     /\ ~ produced_from "sensor" a /\ ~ produced_from "traffic" a
     /\ In a (anomalies self)
     /\ (start_time <= Anomaly.detection_time a <= end_time)%Z).
Proof.
  intros Hall. rewrite List.Forall_forall in Hall.
  split; [|split]; intros Hin; apply get_anomalies_In in Hin;
    destruct Hin as (Hin & Hpre & Hrange).
  - rewrite role_map_security in Hpre. cbn [default] in Hpre.
    destruct (prefix_selects_category "traffic" a) as [Hp Huniq];
      [tauto | apply Hall; exact Hin | exact Hpre |].
    split; [exact Hp|].
    split; [intros Hother; apply Huniq in Hother; discriminate|].
    split; [intros Hother; apply Huniq in Hother; discriminate|].
    split; assumption.
  - rewrite role_map_equipment in Hpre. cbn [default] in Hpre.
    destruct (prefix_selects_category "sensor" a) as [Hp Huniq];
      [tauto | apply Hall; exact Hin | exact Hpre |].
    split; [exact Hp|].
    split; [intros Hother; apply Huniq in Hother; discriminate|].
    split; [intros Hother; apply Huniq in Hother; discriminate|].
    split; assumption.
  - rewrite role_map_fraud in Hpre. cbn [default] in Hpre.
    destruct (prefix_selects_category "transaction" a) as [Hp Huniq];
      [tauto | apply Hall; exact Hin | exact Hpre |].
    split; [exact Hp|].
    split; [intros Hother; apply Huniq in Hother; discriminate|].
    split; [intros Hother; apply Huniq in Hother; discriminate|].
    split; assumption.
Qed.

(** Conversely, a stored anomaly of the role's category inside the range
    is returned. *)
Lemma get_anomalies_complete (self : InMemoryDataStorage)
    (start_time end_time : Z) (role category : string) (a : Anomaly.t) :
  role_map !! role = Some category ->
  In a (anomalies self) ->
  produced_from category a ->
  (start_time <= Anomaly.detection_time a <= end_time)%Z ->
  In a (get_anomalies role start_time end_time self).
Proof.
  intros Hrole Hin Hp Hrange. apply get_anomalies_In. rewrite Hrole. cbn [default].
  split; [exact Hin|]. split; [|exact Hrange].
  apply produced_from_prefix in Hp.
  destruct Hp as [(-> & rest & ->)|[(-> & rest & ->)|(-> & rest & ->)]]; reflexivity.
Qed.

(** A role outside the map selects nothing. *)
Lemma get_anomalies_unknown_role (self : InMemoryDataStorage)
    (start_time end_time : Z) (role : string) :
  role_map !! role = None ->
  Forall produced (anomalies self) ->
  get_anomalies role start_time end_time self = [].
Proof.
  intros Hrole Hall. unfold get_anomalies. rewrite Hrole. cbn [default].
  induction (anomalies self) as [|a l IH]; [reflexivity|].
  inversion Hall as [|? ? [c Ha] Hl]; subst. cbn [List.filter].
  rewrite (IH Hl).
  apply produced_from_prefix in Ha.
  destruct Ha as [(_ & rest & ->)|[(_ & rest & ->)|(_ & rest & ->)]]; reflexivity.
Qed.
End RoleIsolation.

(** ** Feature extraction and the pipeline *)

Section ControllerFacts.
Context `{PyRuntime}.

Lemma py_float_parsed (t : string) (x : Q) :
  float_of_str t = Some x -> py_float t = Ok x.
Proof. intros E. unfold py_float. rewrite E. reflexivity. Qed.

Lemma py_float_malformed (t : string) :
  float_of_str t = None -> exists msg, py_float t = Raise (ValueError msg).
Proof. intros E. unfold py_float. rewrite E. eexists. reflexivity. Qed.

(** An unrecognised or absent discriminant fails the extraction. *)
Lemma preprocess_unknown_type (raw : RawData.t) :
  let data_type := default "" (RawData.attributes raw !! "type") in
  data_type <> "1" -> data_type <> "2" -> data_type <> "3" ->
  preprocess_data raw = Raise (ValueError "Unknown data type").
Proof.
  intros data_type H1 H2 H3. unfold preprocess_data. fold data_type.
  destruct (String.eqb_spec data_type "1"); [contradiction|].
  destruct (String.eqb_spec data_type "2"); [contradiction|].
  destruct (String.eqb_spec data_type "3"); [contradiction|].
  reflexivity.
Qed.

(** C5, amended. For every raw event with discriminant type "1",
    extraction fails (with a ValueError) when the temperature attribute is
    present and is a malformed numeric string, and yields the parsed value
    when it is well formed; when the attribute is missing the extractor
    reads the default string "0" and the feature is 0.  Likewise for
    time_of_day under type "2" and volume under type "3". *)
Theorem preprocess_numeric_attribute (raw : RawData.t) :
  float_of_str "0" = Some 0%Q ->
  (RawData.attributes raw !! "type" = Some "1" ->
     numeric_attribute_rule raw "temperature" "sensor")
  /\ (RawData.attributes raw !! "type" = Some "2" ->
     numeric_attribute_rule raw "time_of_day" "transaction")
  /\ (RawData.attributes raw !! "type" = Some "3" ->
     numeric_attribute_rule raw "volume" "traffic").
Proof.
  intros Hzero.
  split; [|split]; intros Hty; unfold numeric_attribute_rule, preprocess_data;
    rewrite Hty; cbn [default from_option id String.eqb Ascii.eqb Bool.eqb]; cbn match.
  all: split; [|split].
  all: try (intros t Ht Hbad; rewrite Ht; cbn [default from_option id];
            destruct (py_float_malformed t Hbad) as [msg ->]; eexists; reflexivity).
  all: try (intros t x Ht Hgood; rewrite Ht; cbn [default from_option id];
            rewrite (py_float_parsed t x Hgood); reflexivity).
  all: intros Hnone; rewrite Hnone; cbn [default from_option id];
       rewrite (py_float_parsed "0" 0%Q Hzero); reflexivity.
Qed.

(** One call of the pipeline: either no anomaly is added, or the store is
    the one the three stores of the call make, in their order. *)
Lemma process_new_raw_data_step (anomaly_uuid alert_uuid : string) (now : Z)
    (raw : RawData.t) (self : AnomalyController) :
  let self' := (process_new_raw_data anomaly_uuid alert_uuid now raw self).1 in
  anomalies (storage self') = anomalies (storage self)
  \/ exists prepared a,
       preprocess_data raw = Ok prepared
       /\ storage self' =
            store_anomaly a
              (store_prepared_data prepared (store_raw_data raw (storage self)))
       /\ PreparedData.id prepared = RawData.id raw
       /\ Anomaly.data_id a = RawData.id raw.
Proof.
  cbn zeta. unfold process_new_raw_data.
  destruct (preprocess_data raw) as [prepared|e] eqn:Hpre; [|left; reflexivity].
  assert (Hid : PreparedData.id prepared = RawData.id raw).
  { unfold preprocess_data in Hpre.
    destruct (if String.eqb _ "1" then _ else _) as [[ty fs]|e]; [|discriminate].
    cbn in Hpre. injection Hpre as <-. reflexivity. }
  destruct (detect _ _ _ _) as [[a|]|e] eqn:Hd; cbn.
  - right. exists prepared, a. repeat split; try assumption.
    apply detect_some_inv in Hd. destruct Hd as (v & rest & _ & Hd).
    destruct Hd as [(_ & _ & _ & ->)|[(_ & _ & _ & ->)|(_ & sc & de & _ & _ & ->)]];
      exact Hid.
  - left. reflexivity.
  - left. reflexivity.
Qed.

(** C6. For every incoming raw event: if feature extraction fails, the
    pipeline stores nothing (the controller, and with it each of the
    three stores, is left as it was) and the failure is the outcome; and
    whenever the call adds an anomaly to the store, the store [before]
    that [store_anomaly] is applied to already holds the raw and the
    prepared record of the same event, which the call has appended to the
    raw and to the prepared records. *)
Theorem process_new_raw_data_stores (anomaly_uuid alert_uuid : string) (now : Z)
    (raw : RawData.t) (self : AnomalyController) :
  let self' := (process_new_raw_data anomaly_uuid alert_uuid now raw self).1 in
  let outcome := (process_new_raw_data anomaly_uuid alert_uuid now raw self).2 in
  (forall e, preprocess_data raw = Raise e ->
     self' = self /\ outcome = Raise e
     /\ raw_data (storage self') = raw_data (storage self)
     /\ prepared_data (storage self') = prepared_data (storage self)
     /\ anomalies (storage self') = anomalies (storage self))
  /\ (anomalies (storage self') = anomalies (storage self)
      \/ exists prepared a before,
           preprocess_data raw = Ok prepared
           /\ storage self' = store_anomaly a before
           /\ anomalies (storage self') = (anomalies (storage self) ++ [a])%list
           /\ In raw (raw_data before)
           /\ In prepared (prepared_data before)
           /\ raw_data before = (raw_data (storage self) ++ [raw])%list
           /\ prepared_data before = (prepared_data (storage self) ++ [prepared])%list
           /\ raw_data (storage self') = raw_data before
           /\ prepared_data (storage self') = prepared_data before
           /\ PreparedData.id prepared = RawData.id raw
           /\ Anomaly.data_id a = RawData.id raw).
Proof.
  cbn zeta. split.
  - intros e Hpre. unfold process_new_raw_data. rewrite Hpre. cbn. auto.
  - destruct (process_new_raw_data_step anomaly_uuid alert_uuid now raw self)
      as [Hsame | (prepared & a & Hpre & Hst & Hid & Hdata)]; [left; exact Hsame|].
    right.
    exists prepared, a, (store_prepared_data prepared (store_raw_data raw (storage self))).
    rewrite Hst. cbn [store_anomaly store_prepared_data store_raw_data
                      raw_data prepared_data anomalies].
    repeat split; try assumption; try reflexivity;
      apply in_or_app; right; left; reflexivity.
Qed.

(** Every stored anomaly of a reachable controller has its raw and
    prepared records in the store. *)
Lemma stored_anomaly_has_source (self : AnomalyController) :
  reachable self ->
  forall a, In a (anomalies (storage self)) ->
    exists raw prepared,
      In raw (raw_data (storage self))
      /\ In prepared (prepared_data (storage self))
      /\ preprocess_data raw = Ok prepared
      /\ Anomaly.data_id a = RawData.id raw.
Proof.
  induction 1 as [self Hempty|u1 u2 now raw self Hr IH|s self Hr IH|now i self Hr IH];
    intros a Hin.
  - rewrite Hempty in Hin. destruct Hin.
  - pose proof (process_new_raw_data_step u1 u2 now raw self) as Hstep.
    cbn zeta in Hstep.
    destruct Hstep as [Hsame|(prepared & a' & Hpre & Hst & Hid & Hdata)].
    + rewrite Hsame in Hin. destruct (IH a Hin) as (raw0 & p0 & Hr0 & Hp0 & Hpp & Hd0).
      exists raw0, p0. repeat split; try assumption.
      * unfold process_new_raw_data.
        destruct (preprocess_data raw); [|exact Hr0].
        destruct (detect _ _ _ _) as [[?|]|?]; cbn; apply in_or_app; left; exact Hr0.
      * unfold process_new_raw_data.
        destruct (preprocess_data raw); [|exact Hp0].
        destruct (detect _ _ _ _) as [[?|]|?]; cbn; apply in_or_app; left; exact Hp0.
    + rewrite Hst in Hin |- *. cbn in Hin |- *. apply in_app_or in Hin.
      destruct Hin as [Hin|[<-|[]]].
      * destruct (IH a Hin) as (raw0 & p0 & Hr0 & Hp0 & Hpp & Hd0).
        exists raw0, p0. repeat split; try assumption; apply in_or_app; left; assumption.
      * exists raw, prepared.
        repeat split; try assumption; apply in_or_app; right; left; reflexivity.
  - exact (IH a Hin).
  - exact (IH a Hin).
Qed.
End ControllerFacts.

(** *** Concrete events *)

Lemma preprocess_numeric_attribute_witness :
  float_of_str (PyRuntime:=reference_runtime) "0" = Some 0%Q
  /\ RawData.attributes (event_with_temperature "12,5") !! "type" = Some "1"
  /\ numeric_attribute_rule (H:=reference_runtime)
       (event_with_temperature "12,5") "temperature" "sensor".
Proof.
  split; [reflexivity|]. split; [reflexivity|].
  exact (proj1 (preprocess_numeric_attribute (H:=reference_runtime)
                  (event_with_temperature "12,5") eq_refl) eq_refl).
Defined.

Example preprocess_malformed_temperature :
  preprocess_data (H:=reference_runtime) (event_with_temperature "12,5")
  = Raise (ValueError "could not convert string to float: '12,5'").
Proof. reflexivity. Qed.

Example preprocess_wellformed_temperature :
  preprocess_data (H:=reference_runtime) (event_with_temperature "180.25")
  = Ok (PreparedData.mk "event-2" 3600 "sensor" [18025 # 100]).
Proof. reflexivity. Qed.

(** C5 as stated fails on an event of type "1" that carries no temperature
    attribute: the extraction succeeds and the feature is 0. *)
Lemma preprocess_missing_attribute_counterexample :
  RawData.attributes event_without_temperature !! "type" = Some "1"
  /\ RawData.attributes event_without_temperature !! "temperature" = None
  /\ preprocess_data (H:=reference_runtime) event_without_temperature
     = Ok (PreparedData.mk "event-1" 0 "sensor" [0%Q]).
Proof. repeat split. Qed.

(** An event with discriminant "9" is rejected and leaves the controller
    untouched; a traffic volume of 5000 is reported, and its raw and
    prepared records are in the store with the anomaly. *)
Lemma process_new_raw_data_stores_witness :
  preprocess_data (H:=reference_runtime) (event_of_type "9")
    = Raise (ValueError "Unknown data type")
  /\ (process_new_raw_data (H:=reference_runtime) "a-1" "al-1" 50
        (event_of_type "9") fresh_controller).1 = fresh_controller
  /\ (process_new_raw_data (H:=reference_runtime) "a-1" "al-1" 50
        (event_of_type "9") fresh_controller).2 = Raise (ValueError "Unknown data type")
  /\ exists prepared a,
       anomalies (storage processed_controller) = [a]
       /\ In traffic_event (raw_data (storage processed_controller))
       /\ In prepared (prepared_data (storage processed_controller))
       /\ PreparedData.id prepared = "event-4"
       /\ Anomaly.data_id a = "event-4".
Proof.
  split; [reflexivity|].
  destruct (proj1 (process_new_raw_data_stores (H:=reference_runtime) "a-1" "al-1" 50
                     (event_of_type "9") fresh_controller)
                  (ValueError "Unknown data type") eq_refl) as (Hself & Hout & _).
  split; [exact Hself|]. split; [exact Hout|].
  destruct (proj2 (process_new_raw_data_stores (H:=reference_runtime) "a-1" "al-1" 50
                     traffic_event fresh_controller))
    as [Hsame | (prepared & a & before & _ & _ & Ha & Hraw & Hprep & _ & _ & Hr & Hp
                 & Hid & Hdata)].
  - discriminate Hsame.
  - exists prepared, a. fold processed_controller in Ha, Hr, Hp.
    rewrite Hr, Hp. repeat split; assumption.
Defined.

(** A traffic volume of 5000 at the default sensitivity 0.5 is stored with
    its raw and prepared records, and an alert is raised. *)
Example process_traffic_event :
  let self' := (process_new_raw_data (H:=reference_runtime) "a-1" "al-1" 50
                  (RawData.mk "event-4" 0 "source_1"
                     (<["volume" := "5000"]> (<["type" := "3"]> ∅)))
                  fresh_controller).1 in
  length (raw_data (storage self')) = 1%nat
  /\ length (prepared_data (storage self')) = 1%nat
  /\ Anomaly.description <$> anomalies (storage self')
     = ["traffic: Volume 5000.0 exceeds threshold 600.0"]
  /\ status_of "al-1" (alert_service self') = Some "open"
  /\ timers (alert_service self') = [("al-1", Sleeping)].
Proof. repeat split. Qed.

Lemma sensor_anomaly_produced : produced_from (H:=reference_runtime) "sensor" sensor_anomaly.
Proof.
  exists "a-1", (mkDetector 0.5), (PreparedData.mk "event-1" 10 "sensor" [180%Q]),
         (settings_of 0.5).
  split; reflexivity.
Defined.

Lemma traffic_anomaly_produced : produced_from (H:=reference_runtime) "traffic" traffic_anomaly.
Proof.
  exists "a-2", (mkDetector 0.5), (PreparedData.mk "event-2" 20 "traffic" [500%Q]),
         (settings_of 0.9).
  split; reflexivity.
Defined.

(** The security role sees the traffic anomaly and not the sensor one. *)
Lemma get_anomalies_role_isolation_witness :
  Forall (produced (H:=reference_runtime)) (anomalies two_anomalies)
  /\ get_anomalies "security" 0 100 two_anomalies = [traffic_anomaly]
  /\ produced_from (H:=reference_runtime) "traffic" traffic_anomaly
  /\ ~ produced_from (H:=reference_runtime) "sensor" traffic_anomaly.
Proof.
  assert (Hall : Forall (produced (H:=reference_runtime)) (anomalies two_anomalies)).
  { repeat constructor.
    - exists "sensor". exact sensor_anomaly_produced.
    - exists "traffic". exact traffic_anomaly_produced. }
  split; [exact Hall|]. split; [reflexivity|].
  destruct (proj1 (get_anomalies_role_isolation (H:=reference_runtime)
                     two_anomalies 0 100 traffic_anomaly Hall))
    as (Hp & Hns & _).
  - change (In traffic_anomaly [traffic_anomaly]). left. reflexivity.
  - split; assumption.
Defined.

(** ** Calibration *)

Section TrainingFacts.
Context `{PyRuntime}.

(** Inside [0,1] no divisor of [detect] is zero: a record with a feature
    never makes it raise. *)
Lemma detect_total uuid self data settings :
  PreparedData.features data <> [] ->
  (0 <= effective_sensitivity self settings <= 1)%Q ->
  exists r, detect uuid self data settings = Ok r.
Proof.
  intros Hf [Hs0 Hs1]. unfold detect.
  set (s := effective_sensitivity self settings) in *.
  destruct (PreparedData.features data) as [|v rest]; [contradiction|].
  destruct (String.eqb _ "sensor").
  { cbn. destruct (Qltb _ v); [|eexists; reflexivity].
    rewrite py_div_nonzero; [eexists; reflexivity|].
    pose proof (threshold_positive s 150 Hs1). lra. }
  destruct (String.eqb _ "traffic").
  { cbn. destruct (Qltb _ v); [|eexists; reflexivity].
    rewrite py_div_nonzero; [eexists; reflexivity|].
    pose proof (threshold_positive s 1000 Hs1). lra. }
  destruct (String.eqb _ "transaction"); [|eexists; reflexivity].
  cbn. unfold transaction_score.
  destruct (Qltb v (s * 8.0)).
  - destruct (Qltb 0 v) eqn:Epos.
    + apply Qltb_lt in Epos. rewrite py_div_nonzero by lra. cbn.
      destruct (Qltb 100 _); eexists; reflexivity.
    + cbn. destruct (Qltb 100 _); eexists; reflexivity.
  - destruct (Qltb _ v).
    + rewrite py_div_nonzero by (pose proof (upper_positive s Hs0); lra). cbn.
      destruct (Qltb 100 _); eexists; reflexivity.
    + cbn. eexists; reflexivity.
Qed.



Lemma calibration_step_bounds (count : Q -> nat) (target : nat) (bounds : Q * Q) :
  unit_bounds bounds -> unit_bounds (calibration_step count target bounds).
Proof.
  destruct bounds as [low high]. unfold unit_bounds, calibration_step. cbn [fst snd].
  intros (H0 & Hle & H1).
  assert (Hmid : (low <= (low + high) / 2 <= high)%Q).
  { split.
    - apply Qle_shift_div_l; lra.
    - apply Qle_shift_div_r; lra. }
  destruct (target <=? count _)%nat; cbn [fst snd]; lra.
Qed.



(** The sensitivity that calibration installs lies in [0,1]. *)
Lemma calibrate_in_unit_interval uuid self (historical_data : list PreparedData.t) :
  (0 <= calibrate uuid self historical_data <= 1)%Q.
Proof.
  unfold calibrate.
  assert (Hb : forall n, unit_bounds
            (Nat.iter n (calibration_step (flagged_count uuid self historical_data)
                                          (length historical_data / 2)) (0.0, 1.0)%Q)).
  { induction n as [|n IH].
    - unfold unit_bounds. cbn. lra.
    - cbn [Nat.iter nat_rect]. apply calibration_step_bounds. exact IH. }
  destruct (Hb 20%nat) as (H0 & Hle & H1). lra.
Qed.


End TrainingFacts.

(** One temperature above and one below the threshold of 0.5. *)
Lemma train_model_calibrates_witness :
  two_sensor_records64 <> []
  /\ Forall (fun d => Binary64.PreparedData.features d <> []) two_sensor_records64
  /\ exists detector',
       Binary64.train_model format_float "a-1" detector64 two_sensor_records64
         = Ok detector'
       /\ Binary64.global_sensitivity detector'
          = Binary64.calibrate format_float "a-1" detector64 two_sensor_records64.
Proof.
  assert (Hne : two_sensor_records64 <> []) by discriminate.
  assert (Hall : Forall (fun d => Binary64.PreparedData.features d <> [])
                   two_sensor_records64).
  { repeat constructor; discriminate. }
  split; [exact Hne|]. split; [exact Hall|].
  destruct (proj2 (train_model_calibrates format_float "a-1" detector64
                     two_sensor_records64) Hne Hall) as (detector' & Htrain & _ & Hlow).
  exists detector'. split; [exact Htrain | exact Hlow].
Defined.

(** Two temperatures equal to the threshold 90.00000000000001 of
    sensitivity 0.5 are flagged at no midpoint: the search ends with
    [low] at 0.0.  With one temperature of 180 and one of 20 the first is
    flagged at every midpoint, and [low] ends one step below 1. *)
Example train_model_threshold_records :
  Binary64.train_model format_float "a-1" detector64 threshold_records64
    = Ok (Binary64.mkDetector 0)
  /\ Binary64.train_model format_float "a-1" detector64 two_sensor_records64
    = Ok (Binary64.mkDetector 0.99999904632568359375).
Proof. split; vm_compute; reflexivity. Qed.

(** With one of two records flagged at every midpoint the count always
    reaches the target 1, so each pass raises [low]: the result is
    1 - 2^-20. *)
Example train_two_sensor_records :
  (calibrate (H:=reference_runtime) "a-1" (mkDetector 0.5) two_sensor_records
   == 1048575 # 1048576)%Q.
Proof. vm_compute. reflexivity. Qed.

(** Ten records of which five are flagged at 0.5: the count reaches the
    target 5 at 0.5 and at every larger midpoint, so [low] rises at each
    of the 20 passes. *)
Example train_ten_sensor_records :
  flagged_count (H:=reference_runtime) "a-1" (mkDetector 0.5) ten_sensor_records 0.5 = 5%nat
  /\ (calibrate (H:=reference_runtime) "a-1" (mkDetector 0.5) ten_sensor_records
      == 1048575 # 1048576)%Q.
Proof. split; [reflexivity | vm_compute; reflexivity]. Qed.

(** ** Alert statuses *)

Lemma status_of_update (now : Z) (i j new_status : string) (self : GuiAlertService) :
  status_of i (update_alert_status now j new_status self)
  = if decide (j = i)
    then (if alerts self !! j is Some _ then Some new_status else None)
    else status_of i self.
Proof.
  unfold status_of, update_alert_status.
  destruct (alerts self !! j) as [a|] eqn:Hj; cbn [alerts].
  - rewrite lookup_insert. destruct (decide (j = i)); reflexivity.
  - destruct (decide (j = i)) as [<-|]; [rewrite Hj|]; reflexivity.
Qed.

Lemma status_of_wake (i j : string) (self : GuiAlertService) :
  status_of i (auto_confirm_wake j self) = status_of i self.
Proof.
  unfold auto_confirm_wake. destruct (take_timer j Sleeping (timers self)); reflexivity.
Qed.

Lemma status_of_do_confirm (now : Z) (i j : string) (self : GuiAlertService) :
  status_of i (do_confirm now j self) = status_of i self
  \/ status_of i (do_confirm now j self) = Some "confirmed".
Proof.
  unfold do_confirm. destruct (take_timer j Scheduled (timers self)) as [rest|];
    [|left; reflexivity].
  rewrite status_of_update. cbn [alerts].
  destruct (decide (j = i)) as [<-|]; [|left; reflexivity].
  unfold status_of. destruct (alerts self !! j); [right|left]; reflexivity.
Qed.

(** A step that does not request "open" never produces it. *)
Lemma step_keeps_closed (i : string) (e : event) (self : GuiAlertService) :
  requests_open e = false ->
  status_of i self <> Some "open" ->
  status_of i (step self e) <> Some "open".
Proof.
  intros Hreq Hclosed. destruct e as [now j st|j|now j]; cbn [step].
  - rewrite status_of_update. cbn in Hreq.
    destruct (decide (j = i)); [|exact Hclosed].
    destruct (alerts self !! j); [|discriminate].
    intros [= ->]. discriminate.
  - rewrite status_of_wake. exact Hclosed.
  - destruct (status_of_do_confirm now i j self) as [-> | ->];
      [exact Hclosed | discriminate].
Qed.

Lemma run_app (self : GuiAlertService) (es1 es2 : list event) :
  run self (es1 ++ es2) = run (run self es1) es2.
Proof. unfold run. apply foldl_app. Qed.

(** C9, amended. [update_alert_status] checks no transition: for every
    existing alert and every requested status, the alert's status after
    the call is the requested one, whatever it was before, and other
    alerts keep theirs.  The forward-only state machine is therefore only
    as good as the requests callers make.  What holds for every sequence
    of setStatus calls and timer actions in which nobody requests "open"
    is that an alert that is not open never becomes open again. *)
Theorem update_alert_status_unchecked (self : GuiAlertService) (i : string) :
  (forall now new_status a,
     alerts self !! i = Some a ->
     status_of i (update_alert_status now i new_status self) = Some new_status)
  /\ (forall now j new_status,
     j <> i ->
     status_of i (update_alert_status now j new_status self) = status_of i self)
  /\ (forall es,
     Forall (fun e => requests_open e = false) es ->
     status_of i self <> Some "open" ->
     status_of i (run self es) <> Some "open").
Proof.
  split; [|split].
  - intros now new_status a Ha. rewrite status_of_update.
    rewrite decide_True by reflexivity. rewrite Ha. reflexivity.
  - intros now j new_status Hne. rewrite status_of_update.
    rewrite decide_False by exact Hne. reflexivity.
  - intros es Hes. revert self.
    induction Hes as [|e es He Hes IH]; intros self Hclosed; [exact Hclosed|].
    change (run self (e :: es)) with (run (step self e) es).
    apply IH. apply step_keeps_closed; assumption.
Qed.

(** ** The auto-confirm timer *)

(** The guarantee the guard gives: when the alert is no longer open at the
    moment the timer wakes, the thread ends without scheduling anything,
    and with no confirmation pending for that alert a later
    [TimerConfirms] changes nothing. *)
Lemma timer_after_manual_is_noop (now : Z) (i : string) (self : GuiAlertService) :
  status_of i self <> Some "open" ->
  take_timer i Scheduled (timers self) = None ->
  let self' := run self [TimerWakes i; TimerConfirms now i] in
  alerts self' = alerts self /\ confirmed_times self' = confirmed_times self.
Proof.
  intros Hclosed Hnone. cbn [run foldl step].
  assert (Hwake : alerts (auto_confirm_wake i self) = alerts self
                  /\ confirmed_times (auto_confirm_wake i self) = confirmed_times self
                  /\ take_timer i Scheduled (timers (auto_confirm_wake i self)) = None).
  { unfold auto_confirm_wake.
    destruct (take_timer i Sleeping (timers self)) as [rest|] eqn:Htake;
      [|repeat split; exact Hnone].
    cbn [alerts confirmed_times timers].
    assert (Hrest : take_timer i Scheduled rest = None).
    { clear Hclosed. revert rest Htake Hnone.
      induction (timers self) as [|[j p] ts IH]; intros rest Htake Hnone; [discriminate|].
      cbn [take_timer] in Htake, Hnone.
      destruct (String.eqb j i) eqn:Eji; cbn [andb] in Htake, Hnone.
      - destruct p; cbn in Htake, Hnone.
        + injection Htake as <-. destruct (take_timer i Scheduled ts); [discriminate|reflexivity].
        + discriminate.
      - destruct (take_timer i Sleeping ts) as [r|]; [|discriminate].
        injection Htake as <-. cbn [take_timer]. rewrite Eji. cbn [andb].
        destruct (take_timer i Scheduled ts); [discriminate|].
        rewrite (IH r eq_refl eq_refl). reflexivity. }
    unfold status_of in Hclosed.
    destruct (alerts self !! i) as [a|]; [|repeat split; exact Hrest].
    cbn in Hclosed. destruct (String.eqb_spec (Alert.status a) "open") as [E|_].
    - rewrite E in Hclosed. contradiction.
    - repeat split; exact Hrest. }
  destruct Hwake as (Ha & Hc & Ht).
  unfold do_confirm. rewrite Ht. split; assumption.
Qed.

(** The guard and the update are two separate actions: when a manual
    transition falls between them, the update still runs. *)
Lemma stale_check_overwrites (now1 now2 : Z) (i manual : string)
    (self : GuiAlertService) (a : Alert.t) :
  alerts self !! i = Some a ->
  Alert.status a = "open" ->
  timers self = [(i, Sleeping)] ->
  status_of i (run self [TimerWakes i; SetStatus now1 i manual]) = Some manual
  /\ status_of i (run self [TimerWakes i; SetStatus now1 i manual; TimerConfirms now2 i])
     = Some "confirmed".
Proof.
  intros Ha Hopen Htimers.
  assert (Hwake : auto_confirm_wake i self
                  = mkService (alerts self) (auto_confirm_timeout self)
                              (confirmed_times self) [(i, Scheduled)]).
  { unfold auto_confirm_wake. rewrite Htimers. cbn [take_timer].
    rewrite String.eqb_refl. cbn. rewrite Ha, Hopen. reflexivity. }
  cbn [run foldl step]. rewrite Hwake. split.
  - rewrite status_of_update. rewrite decide_True by reflexivity.
    cbn [alerts]. rewrite Ha. reflexivity.
  - unfold do_confirm at 1.
    assert (Ht : timers (update_alert_status now1 i manual
                           (mkService (alerts self) (auto_confirm_timeout self)
                                      (confirmed_times self) [(i, Scheduled)]))
                 = [(i, Scheduled)]).
    { unfold update_alert_status. cbn [alerts]. rewrite Ha. reflexivity. }
    rewrite Ht. cbn [take_timer]. rewrite String.eqb_refl. cbn [andb bool_decide].
    rewrite bool_decide_eq_true_2 by reflexivity.
    rewrite status_of_update. rewrite decide_True by reflexivity.
    cbn [alerts]. unfold update_alert_status at 1. cbn [alerts]. rewrite Ha.
    cbn [alerts]. rewrite lookup_insert_eq. reflexivity.
Qed.

(** *** Concrete alert histories *)

Example raised_alert_is_open :
  status_of "al-1" raised_alert = Some "open"
  /\ timers raised_alert = [("al-1", Sleeping)].
Proof. split; reflexivity. Qed.

(** Without a timeout no timer is started and the alert stays open. *)
Example no_timer_without_timeout :
  let self := send_alert (H:=reference_runtime) "al-1" 50 traffic_anomaly analyst
                         (new_service (Some 0%Z)) in
  timers self = []
  /\ status_of "al-1" (run self [TimerWakes "al-1"; TimerConfirms 200%Z "al-1"]) = Some "open".
Proof. split; reflexivity. Qed.

(** C3, which the code does not satisfy.  The claim: a manual transition
    applied while the auto-confirm timer is pending is never overwritten
    by the timer, under any interleaving.  The run below is an
    interleaving the code allows: the timer thread wakes and finds the
    alert open, the operator then marks it false_positive, and the
    confirmation the thread had already scheduled runs afterwards and sets
    the status to confirmed. *)
Theorem auto_confirm_overwrites_manual_transition :
  status_of "al-1" raised_alert = Some "open"
  /\ status_of "al-1"
       (run raised_alert [TimerWakes "al-1"; SetStatus 60%Z "al-1" "false_positive"])
     = Some "false_positive"
  /\ status_of "al-1"
       (run raised_alert [TimerWakes "al-1"; SetStatus 60%Z "al-1" "false_positive";
                          TimerConfirms 61%Z "al-1"])
     = Some "confirmed"
  /\ confirmed_times
       (run raised_alert [TimerWakes "al-1"; SetStatus 60%Z "al-1" "false_positive";
                          TimerConfirms 61%Z "al-1"]) !! "al-1"
     = Some 61%Z.
Proof. repeat split. Qed.

(** The same three actions with the manual transition first: the guard
    holds and the timer changes nothing. *)
Example manual_transition_before_wake :
  status_of "al-1"
    (run raised_alert [SetStatus 60%Z "al-1" "false_positive"; TimerWakes "al-1";
                       TimerConfirms 61%Z "al-1"])
  = Some "false_positive".
Proof. reflexivity. Qed.

Lemma update_alert_status_unchecked_witness :
  alerts raised_alert !! "al-1"
    = Some (Alert.mk "al-1" "a-2" 50
              "Alert for user analyst: Anomaly traffic: Volume 500.0 exceeds threshold 200.0 Score: 250.0"
              "open")
  /\ status_of "al-1" (update_alert_status 60 "al-1" "acknowledged" raised_alert)
     = Some "acknowledged".
Proof.
  split; [reflexivity|].
  exact (proj1 (update_alert_status_unchecked raised_alert "al-1") 60%Z "acknowledged" _ eq_refl).
Defined.

(** C9 as stated fails: a confirmed alert is put back to open by a plain
    setStatus call, and a false_positive alert is moved to confirmed;
    neither is an edge of the state machine. *)
Lemma update_alert_status_counterexample :
  status_of "al-1" (run raised_alert [SetStatus 60%Z "al-1" "confirmed"]) = Some "confirmed"
  /\ status_of "al-1"
       (run raised_alert [SetStatus 60%Z "al-1" "confirmed"; SetStatus 70%Z "al-1" "open"])
     = Some "open"
  /\ edge "confirmed" "open" = false
  /\ status_of "al-1"
       (run raised_alert [SetStatus 60%Z "al-1" "false_positive";
                          SetStatus 70%Z "al-1" "confirmed"])
     = Some "confirmed"
  /\ edge "false_positive" "confirmed" = false.
Proof. repeat split. Qed.

(** ** The generation loop *)

Section DataSourceFacts.
Context `{PyRuntime} {W : Type}.

Lemma generate_one_data_source (d : Draw) (self : SimulatedDataSource W) :
  (generate_one_data d self).1
  = mkSource (listener self) (running self) (current_timestamp self + one_hour)%Z
             (generated_count self).
Proof. reflexivity. Qed.

Lemma generate_loop_fuel_outcome (fuel : nat) :
  forall (draws : nat -> Draw) (k : nat) (self : SimulatedDataSource W) (w : W)
         self' w' r,
    running self = true ->
    (300 - generated_count self <= fuel)%nat ->
    generate_loop_fuel fuel draws k self w = (self', w', r) ->
    loop_outcome self self' r.
Proof.
  induction fuel as [|fuel IH]; intros draws k self w self' w' r Hrun Hfuel Hloop.
  - cbn in Hloop. injection Hloop as <- <- <-.
    exists O. split; [unfold one_hour in *; lia|]. split; lia.
  - cbn [generate_loop_fuel] in Hloop. rewrite Hrun in Hloop. cbn [andb] in Hloop.
    destruct (Nat.ltb_spec (generated_count self) 300) as [Hlt|Hge].
    + destruct (generate_one_data (draws k) self) as [self1 raw] eqn:Hgen.
      pose proof (generate_one_data_source (draws k) self) as Hsrc.
      rewrite Hgen in Hsrc. cbn [fst] in Hsrc. subst self1.
      cbn [listener running current_timestamp generated_count] in Hloop.
      destruct (listener self) as [callback|] eqn:Hl.
      * destruct (callback raw w) as [w1 [u|e]] eqn:Hcb.
        -- apply IH in Hloop; [|exact Hrun|cbn; lia].
           destruct Hloop as (n & Hts & Hr). cbn [generated_count current_timestamp listener] in Hts, Hr.
           exists (S n). split; [unfold one_hour in *; lia|].
           destruct r as [u'|e].
           ++ split; lia.
           ++ destruct Hr as (Hc & Hn & Hle & cb & raw0 & w0 & Hcb0 & Hraise).
              split; [exact Hc|]. split; [unfold one_hour in *; lia|]. split; [unfold one_hour in *; lia|].
              exists cb, raw0, w0. split; [congruence|exact Hraise].
        -- injection Hloop as <- <- <-.
           exists 1%nat. cbn [current_timestamp generated_count listener]. split; [unfold one_hour in *; lia|]. split; [exact Hlt|]. split; [unfold one_hour in *; lia|]. split; [unfold one_hour in *; lia|].
           exists callback, raw, w. rewrite Hcb. split; [exact Hl|reflexivity].
      * apply IH in Hloop; [|exact Hrun|cbn; lia].
        destruct Hloop as (n & Hts & Hr). cbn [generated_count current_timestamp listener] in Hts, Hr.
        exists (S n). split; [unfold one_hour in *; lia|].
        destruct r as [u'|e].
        -- split; lia.
        -- destruct Hr as (_ & _ & _ & cb & raw0 & w0 & Hcb0 & _). discriminate.
    + injection Hloop as <- <- <-.
      exists O. split; [unfold one_hour in *; lia|]. split; lia.
Qed.

(** The event made from a draw depends on the source only through its
    clock. *)
Lemma generated_event_clock (d : Draw) (s1 s2 : SimulatedDataSource W) :
  current_timestamp s1 = current_timestamp s2 ->
  (generate_one_data d s1).2 = (generate_one_data d s2).2.
Proof. intros Hts. unfold generate_one_data. cbn [snd]. rewrite Hts. reflexivity. Qed.

(** The first failure of the listener ends the run: when the listener
    accepts the next [j] events and raises on the one after them, the loop
    returns that exception with [j] more events counted, the clock one
    event further, and the state the failing call left. *)
Lemma generate_loop_fuel_stops (callback : RawData.t -> W -> W * result unit)
    (draws : nat -> Draw) (origin : SimulatedDataSource W) (e : exn) (j : nat) :
  forall (fuel k : nat) (self : SimulatedDataSource W) (w wj' : W),
    running self = true ->
    listener self = Some callback ->
    current_timestamp self = (current_timestamp origin + Z.of_nat k * one_hour)%Z ->
    (generated_count self + j < 300)%nat ->
    (j < fuel)%nat ->
    (forall i, (i < j)%nat ->
       is_ok (callback (event_at draws origin (k + i))
                (foldl (fun w raw => (callback raw w).1) w
                       (event_at draws origin <$> seq k i))).2 = true) ->
    callback (event_at draws origin (k + j))
      (foldl (fun w raw => (callback raw w).1) w (event_at draws origin <$> seq k j))
    = (wj', Raise e) ->
    generate_loop_fuel fuel draws k self w
    = (mkSource (Some callback) true
         (current_timestamp self + Z.of_nat (S j) * one_hour)%Z
         (generated_count self + j),
       wj', Raise e).
Proof.
  induction j as [|j IH]; intros fuel k self w wj' Hrun Hl Hts Hcount Hfuel Hok Hfail.
  - destruct fuel as [|fuel]; [lia|].
    cbn [generate_loop_fuel]. rewrite Hrun. cbn [andb].
    destruct (Nat.ltb_spec (generated_count self) 300) as [Hlt|Hge]; [|lia].
    destruct (generate_one_data (draws k) self) as [self1 raw] eqn:Hgen.
    pose proof (generate_one_data_source (draws k) self) as Hsrc.
    assert (Hraw : raw = event_at draws origin k).
    { pose proof (f_equal snd Hgen) as Hsnd. cbn [snd] in Hsnd. rewrite <- Hsnd.
      unfold event_at. apply generated_event_clock. exact Hts. }
    rewrite Hgen in Hsrc. cbn [fst] in Hsrc. subst self1.
    cbn [listener running current_timestamp generated_count]. rewrite Hl.
    rewrite Nat.add_0_r in Hfail. cbn [seq fmap list_fmap foldl] in Hfail.
    rewrite Hraw, Hfail, Hrun, Nat.add_0_r. reflexivity.
  - destruct fuel as [|fuel]; [lia|].
    cbn [generate_loop_fuel]. rewrite Hrun. cbn [andb].
    destruct (Nat.ltb_spec (generated_count self) 300) as [Hlt|Hge]; [|lia].
    destruct (generate_one_data (draws k) self) as [self1 raw] eqn:Hgen.
    pose proof (generate_one_data_source (draws k) self) as Hsrc.
    assert (Hraw : raw = event_at draws origin k).
    { pose proof (f_equal snd Hgen) as Hsnd. cbn [snd] in Hsnd. rewrite <- Hsnd.
      unfold event_at. apply generated_event_clock. exact Hts. }
    rewrite Hgen in Hsrc. cbn [fst] in Hsrc. subst self1.
    cbn [listener running current_timestamp generated_count]. rewrite Hl.
    pose proof (Hok O ltac:(lia)) as Hfirst.
    rewrite Nat.add_0_r in Hfirst. cbn [seq fmap list_fmap foldl] in Hfirst.
    rewrite <- Hraw in Hfirst.
    destruct (callback raw w) as [w1 [[]|e1]] eqn:Hcb; [|discriminate].
    rewrite (IH fuel (S k) _ w1 wj');
      cbn [listener running current_timestamp generated_count].
    + f_equal. f_equal. f_equal; [rewrite !Nat2Z.inj_succ; unfold one_hour; lia | lia].
    + first [reflexivity | assumption].
    + first [reflexivity | assumption].
    + rewrite Hts, Nat2Z.inj_succ. unfold one_hour. lia.
    + lia.
    + lia.
    + intros i Hi. pose proof (Hok (S i) ltac:(lia)) as Hnext.
      cbn [seq fmap list_fmap foldl] in Hnext.
      rewrite <- Hraw, Hcb in Hnext. cbn [fst] in Hnext.
      rewrite Nat.add_succ_r in Hnext. exact Hnext.
    + cbn [seq fmap list_fmap foldl] in Hfail.
      rewrite <- Hraw, Hcb in Hfail. cbn [fst] in Hfail.
      rewrite Nat.add_succ_r in Hfail. exact Hfail.
Qed.

(** C8, amended. A failure of the registered listener is not swallowed:
    it propagates out of [generate_loop] and ends the run at the failing
    event, which has been generated but is not counted; no later event is
    generated and the count stays below the cap of 300.  Precisely: when
    the listener accepts the events 0 .. j-1 of the run and raises on
    event j, the run ends with that exception, in the state the failing
    call left, with j events counted and the clock j+1 events further.  A
    run of a connected source returns normally only when the listener has
    not failed, and then the count has been filled up to the cap; this is
    always the case when the listener cannot fail or none is registered. *)
Theorem generate_loop_run (draws : nat -> Draw) (self : SimulatedDataSource W) (w : W)
    self' w' r :
  running self = true ->
  generate_loop draws self w = (self', w', r) ->
  loop_outcome self self' r
  /\ ((forall callback raw w0,
         listener self = Some callback -> is_ok (callback raw w0).2 = true) ->
      is_ok r = true
      /\ generated_count self' = Nat.max (generated_count self) 300)
  /\ (forall callback (j : nat) (e : exn) (wj' : W),
        listener self = Some callback ->
        (generated_count self + j < 300)%nat ->
        (forall i, (i < j)%nat ->
           is_ok (callback (event_at draws self i)
                    (foldl (fun w raw => (callback raw w).1) w
                           (event_at draws self <$> seq 0 i))).2 = true) ->
        callback (event_at draws self j)
          (foldl (fun w raw => (callback raw w).1) w (event_at draws self <$> seq 0 j))
        = (wj', Raise e) ->
        r = Raise e
        /\ w' = wj'
        /\ generated_count self' = (generated_count self + j)%nat
        /\ current_timestamp self'
           = (current_timestamp self + Z.of_nat (S j) * one_hour)%Z).
Proof.
  intros Hrun Hloop. unfold generate_loop in Hloop.
  pose proof (generate_loop_fuel_outcome _ _ _ _ _ _ _ _ Hrun (Nat.le_refl _) Hloop)
    as Hout.
  split; [exact Hout|]. split.
  - intros Hsafe. destruct Hout as (n & _ & Hr). destruct r as [u|e].
    + split; [reflexivity|]. apply Hr.
    + destruct Hr as (_ & _ & _ & cb & raw & w0 & Hcb & Hraise).
      specialize (Hsafe cb raw w0 Hcb). rewrite Hraise in Hsafe. discriminate.
  - intros callback j e wj' Hl Hcount Hok Hfail.
    rewrite (generate_loop_fuel_stops callback draws self e j
               (300 - generated_count self) O self w wj' Hrun Hl) in Hloop;
      try assumption; [| unfold one_hour; lia | lia].
    injection Hloop as <- <- <-. cbn [generated_count current_timestamp]. auto.
Qed.
End DataSourceFacts.

(** *** Concrete runs of the loop *)

(** With a listener that cannot fail the run fills the count up to 300;
    with one that fails on its third call the run ends with that
    exception and two events counted. *)
Lemma generate_loop_run_witness :
  running (connected_source counting_listener) = true
  /\ generated_count
       (generate_loop (H:=reference_runtime) constant_draws
          (connected_source counting_listener) O).1.1 = 300%nat
  /\ (generate_loop (H:=reference_runtime) constant_draws
        (connected_source counting_listener) O).1.2 = 300%nat
  /\ (generate_loop (H:=reference_runtime) constant_draws
        (connected_source third_call_fails) O).2 = Raise (ValueError "listener failed")
  /\ generated_count
       (generate_loop (H:=reference_runtime) constant_draws
          (connected_source third_call_fails) O).1.1 = 2%nat.
Proof.
  split; [reflexivity|].
  destruct (generate_loop (H:=reference_runtime) constant_draws
              (connected_source counting_listener) O) as [[self' w'] r] eqn:Hloop.
  destruct (generate_loop_run (H:=reference_runtime) constant_draws
              (connected_source counting_listener) O self' w' r eq_refl Hloop)
    as (_ & Hsafe & _).
  split.
  { cbn [fst]. destruct Hsafe as [_ Hcount]; [|exact Hcount].
    intros callback raw w0 [= <-]. reflexivity. }
  split.
  { revert Hloop. vm_compute. intros [= _ <- _]. reflexivity. }
  destruct (generate_loop (H:=reference_runtime) constant_draws
              (connected_source third_call_fails) O) as [[self2 w2] r2] eqn:Hloop2.
  destruct (generate_loop_run (H:=reference_runtime) constant_draws
              (connected_source third_call_fails) O self2 w2 r2 eq_refl Hloop2)
    as (_ & _ & Hstop).
  destruct (Hstop third_call_fails 2%nat (ValueError "listener failed") 3%nat eq_refl)
    as (Hr & _ & Hcount & _).
  - cbn. lia.
  - intros [|[|i]] Hi; [reflexivity | reflexivity | lia].
  - reflexivity.
  - cbn [fst snd]. split; [exact Hr | exact Hcount].
Defined.

(** C8 as stated fails: the listener raises on the third event, the loop
    ends with that exception, two events are counted instead of 300 and
    the listener is never called a fourth time. *)
Lemma generate_loop_listener_failure_counterexample :
  generate_loop (H:=reference_runtime) constant_draws
    (connected_source third_call_fails) O
  = (mkSource (Some third_call_fails) true (3 * one_hour)%Z 2, 3%nat,
     Raise (ValueError "listener failed")).
Proof. reflexivity. Qed.

(** The controller as listener: 300 events of the three types in turn go
    through the pipeline, each is stored, and every anomaly has an alert
    with a sleeping timer. *)
Example pipeline_run :
  let '(source, controller, outcome) :=
    generate_loop (H:=reference_runtime) sample_draws pipeline_source fresh_controller in
  outcome = Ok tt
  /\ generated_count source = 300%nat
  /\ length (raw_data (storage controller)) = 300%nat
  /\ length (prepared_data (storage controller)) = 300%nat
  /\ length (anomalies (storage controller)) = 266%nat
  /\ length (timers (alert_service controller)) = 266%nat.
Proof. vm_compute. repeat split. Qed.

(** With the stored sensitivity 1.1 the third event, a traffic volume of
    14 against a threshold of 0, makes [detect] divide by zero inside the
    listener; the loop ends there. *)
Example pipeline_run_stops :
  let '(source, controller, outcome) :=
    generate_loop (H:=reference_runtime) sample_draws pipeline_source
                  misconfigured_controller in
  outcome = Raise ZeroDivisionError
  /\ generated_count source = 2%nat
  /\ length (raw_data (storage controller)) = 3%nat
  /\ length (anomalies (storage controller)) = 1%nat.
Proof. vm_compute. repeat split. Qed.

(** What [decimal_str] prints is read back by [decimal_float]. *)
Example decimal_round_trip :
  decimal_str (-5 # 2) = "-2.5"
  /\ decimal_float (decimal_str (-5 # 2)) = Some (-25 # 10)
  /\ decimal_str (1 # 3) = "0.33333333333333333".
Proof. repeat split. Qed.

(** * Further properties *)

(** ** The detector *)

Section DetectorExtras.
Context `{PyRuntime}.






End DetectorExtras.

(** ** Calibration, continued *)

Section TrainingExtras.
Context `{PyRuntime}.




End TrainingExtras.

(** ** The store *)

Lemma find_app_first {A} (f : A -> bool) (l1 l2 : list A) :
  List.find f (l1 ++ l2)%list
  = match List.find f l1 with Some x => Some x | None => List.find f l2 end.
Proof.
  induction l1 as [|x l1 IH]; [reflexivity|].
  cbn [app List.find]. destruct (f x); [reflexivity|exact IH].
Qed.

(** Looking an anomaly up after storing one: an anomaly already stored
    under the identifier keeps being returned (the first match wins), the
    new one is returned when the identifier was free and is its own, and
    the lookup fails otherwise.  A successful lookup returns a stored
    anomaly with the requested identifier. *)
Theorem get_anomaly_store (anomaly_id : string) (a : Anomaly.t)
    (self : InMemoryDataStorage) :
  get_anomaly anomaly_id (store_anomaly a self)
  = match get_anomaly anomaly_id self with
    | Some a' => Some a'
    | None => if String.eqb (Anomaly.anomaly_id a) anomaly_id then Some a else None
    end
  /\ (forall a', get_anomaly anomaly_id self = Some a' ->
        In a' (anomalies self) /\ Anomaly.anomaly_id a' = anomaly_id)
  /\ (get_anomaly anomaly_id self = None <->
        forall a', In a' (anomalies self) -> Anomaly.anomaly_id a' <> anomaly_id).
Proof.
  unfold get_anomaly, store_anomaly. cbn [anomalies]. split; [|split].
  - rewrite find_app_first. destruct (List.find _ (anomalies self)); [reflexivity|].
    cbn. destruct (String.eqb _ _); reflexivity.
  - intros a' Hfind. apply find_some in Hfind as [Hin Heq].
    apply String.eqb_eq in Heq. auto.
  - split.
    + intros Hnone a' Hin Heq.
      apply (find_none _ _ Hnone) in Hin. apply String.eqb_neq in Hin. contradiction.
    + intros Hall. destruct (List.find _ (anomalies self)) as [a'|] eqn:Hfind; [|reflexivity].
      apply find_some in Hfind as [Hin Heq]. apply String.eqb_eq in Heq.
      exfalso. exact (Hall a' Hin Heq).
Qed.

(** The historical query selects the prepared records whose timestamp t
    satisfies start_time <= t <= end_time, both bounds included.  After a
    store: a prepared record inside the range is appended to the answer,
    one outside it is not, the other two stores leave the answer alone,
    and a range whose start lies after its end selects nothing. *)
Theorem get_historical_data_store (start_time end_time : Z)
    (self : InMemoryDataStorage) :
  (forall d,
     In d (get_historical_data start_time end_time self)
     <-> In d (prepared_data self)
         /\ (start_time <= PreparedData.timestamp d <= end_time)%Z)
  /\ (forall d,
     (start_time <= PreparedData.timestamp d <= end_time)%Z ->
     get_historical_data start_time end_time (store_prepared_data d self)
     = (get_historical_data start_time end_time self ++ [d])%list)
  /\ (forall d,
     ~ (start_time <= PreparedData.timestamp d <= end_time)%Z ->
     get_historical_data start_time end_time (store_prepared_data d self)
     = get_historical_data start_time end_time self)
  /\ (forall raw,
     get_historical_data start_time end_time (store_raw_data raw self)
     = get_historical_data start_time end_time self)
  /\ (forall a,
     get_historical_data start_time end_time (store_anomaly a self)
     = get_historical_data start_time end_time self)
  /\ ((end_time < start_time)%Z ->
     get_historical_data start_time end_time self = []).
Proof.
  unfold get_historical_data. split; [|split; [|split; [|split; [|split]]]].
  - intros d. rewrite filter_In, in_range_spec. reflexivity.
  - intros d Hin. cbn [prepared_data store_prepared_data]. rewrite List.filter_app.
    cbn [List.filter]. apply in_range_spec in Hin. rewrite Hin. reflexivity.
  - intros d Hout. cbn [prepared_data store_prepared_data]. rewrite List.filter_app.
    cbn [List.filter].
    destruct (in_range start_time end_time (PreparedData.timestamp d)) eqn:E.
    + apply in_range_spec in E. contradiction.
    + apply app_nil_r.
  - reflexivity.
  - reflexivity.
  - intros Hlt. induction (prepared_data self) as [|d l IH]; [reflexivity|].
    cbn [List.filter]. rewrite IH.
    destruct (in_range start_time end_time (PreparedData.timestamp d)) eqn:E; [|reflexivity].
    apply in_range_spec in E. lia.
Qed.

(** ** The settings repository *)

(** Settings saved for a user are loaded back unchanged, saving for one
    user leaves what is loaded for every other user alone, and saving what
    was just loaded changes nothing that can be loaded, also for a user
    who had no entry and gets the default. *)
Theorem settings_round_trip (settings : DetectionSettings.t) (self : ConfigController)
    (u : string) :
  get_settings_for_user (DetectionSettings.user_id settings)
    (save_user_settings settings self) = settings
  /\ (u <> DetectionSettings.user_id settings ->
      get_settings_for_user u (save_user_settings settings self)
      = get_settings_for_user u self)
  /\ (forall u',
      get_settings_for_user u'
        (save_user_settings (get_settings_for_user u self) self)
      = get_settings_for_user u' self).
Proof.
  assert (Hsame : forall s c,
    get_settings_for_user (DetectionSettings.user_id s) (save_user_settings s c) = s).
  { intros [uid sens srcs] c. unfold get_settings_for_user, save_user_settings,
      load_settings, save_settings. cbn. rewrite lookup_insert_eq. reflexivity. }
  assert (Hother : forall s c v, v <> DetectionSettings.user_id s ->
    get_settings_for_user v (save_user_settings s c) = get_settings_for_user v c).
  { intros s c v Hne. unfold get_settings_for_user, save_user_settings,
      load_settings, save_settings. cbn. rewrite lookup_insert_ne by congruence.
    reflexivity. }
  split; [apply Hsame|]. split; [apply Hother|].
  intros u'. destruct (decide (u' = u)) as [->|Hne].
  - pose proof (Hsame (get_settings_for_user u self) self) as Hs.
    cbn [get_settings_for_user load_settings DetectionSettings.user_id] in Hs.
    exact Hs.
  - apply Hother. exact Hne.
Qed.

(** ** The alert service *)

Lemma take_timer_In (i : string) (pc : timer_pc) (ts rest : list (string * timer_pc)) :
  take_timer i pc ts = Some rest -> forall x, In x rest -> In x ts.
Proof.
  revert rest. induction ts as [|[j p] ts IH]; intros rest Htake x Hin; [discriminate|].
  cbn [take_timer] in Htake.
  destruct (String.eqb j i && bool_decide (p = pc)).
  - injection Htake as <-. right. exact Hin.
  - destruct (take_timer i pc ts) as [r|]; [|discriminate].
    injection Htake as <-. destruct Hin as [<-|Hin]; [left; reflexivity|].
    right. exact (IH r eq_refl x Hin).
Qed.

Lemma take_timer_absent (i : string) (pc : timer_pc) (ts : list (string * timer_pc)) :
  ~ In (i, pc) ts -> take_timer i pc ts = None.
Proof.
  induction ts as [|[j p] ts IH]; intros Hnot; [reflexivity|].
  cbn [take_timer].
  destruct (String.eqb_spec j i) as [->|Hne]; cbn [andb].
  - destruct (bool_decide_reflect (p = pc)) as [->|Hp].
    + exfalso. apply Hnot. left. reflexivity.
    + rewrite IH; [reflexivity|]. intros Hin. apply Hnot. right. exact Hin.
  - rewrite IH; [reflexivity|]. intros Hin. apply Hnot. right. exact Hin.
Qed.

Lemma take_timer_present (i : string) (pc : timer_pc) (ts : list (string * timer_pc)) :
  In (i, pc) ts -> exists rest, take_timer i pc ts = Some rest.
Proof.
  induction ts as [|[j p] ts IH]; intros Hin; [destruct Hin|].
  cbn [take_timer].
  destruct (String.eqb j i && bool_decide (p = pc)) eqn:E; [eexists; reflexivity|].
  destruct Hin as [Heq|Hin].
  - injection Heq as -> ->. rewrite String.eqb_refl in E.
    rewrite bool_decide_eq_true_2 in E by reflexivity. discriminate.
  - destruct (IH Hin) as [rest ->]. eexists. reflexivity.
Qed.

(** What one action can do to the alert stored under [i]: nothing, or
    replace its status. *)
Lemma step_alert_lookup (self : GuiAlertService) (e : event) (i : string) :
  alerts (step self e) !! i = alerts self !! i
  \/ exists a st, alerts self !! i = Some a
                  /\ alerts (step self e) !! i = Some (set_status st a).
Proof.
  assert (Hupd : forall now j st s,
    alerts (update_alert_status now j st s) !! i = alerts s !! i
    \/ exists a st', alerts s !! i = Some a
         /\ alerts (update_alert_status now j st s) !! i = Some (set_status st' a)).
  { intros now j st s. unfold update_alert_status.
    destruct (alerts s !! j) as [a|] eqn:Hj; [|left; reflexivity].
    cbn [alerts]. destruct (decide (j = i)) as [<-|Hne].
    - right. exists a, st. rewrite lookup_insert_eq. auto.
    - left. apply lookup_insert_ne. exact Hne. }
  destruct e as [now j st|j|now j]; cbn [step].
  - apply Hupd.
  - left. unfold auto_confirm_wake.
    destruct (take_timer j Sleeping (timers self)); reflexivity.
  - unfold do_confirm. destruct (take_timer j Scheduled (timers self)) as [rest|];
      [|left; reflexivity].
    apply (Hupd now j "confirmed"
             (mkService (alerts self) (auto_confirm_timeout self)
                        (confirmed_times self) rest)).
Qed.

(** No sequence of status changes and timer actions creates or removes an
    alert, and it changes nothing of an alert but its status. *)
Theorem run_preserves_alerts (self : GuiAlertService) (es : list event) (i : string) :
  (alerts (run self es) !! i = None <-> alerts self !! i = None)
  /\ (forall a a',
        alerts self !! i = Some a ->
        alerts (run self es) !! i = Some a' ->
        a' = set_status (Alert.status a') a).
Proof.
  revert self. induction es as [|e es IH]; intros self.
  - cbn. split; [reflexivity|]. intros [? ? ? ? ?] a' Ha Ha'.
    rewrite Ha in Ha'. injection Ha' as <-. reflexivity.
  - change (run self (e :: es)) with (run (step self e) es).
    destruct (IH (step self e)) as [Hnone Hsome].
    destruct (step_alert_lookup self e i) as [Heq|(a0 & st & Ha0 & Hstep)].
    + rewrite Heq in Hnone, Hsome. split; [exact Hnone|exact Hsome].
    + split.
      * rewrite Hnone, Hstep, Ha0. split; discriminate.
      * intros a a' Ha Ha'. rewrite Ha0 in Ha. injection Ha as <-.
        rewrite (Hsome _ a' Hstep Ha'). destruct a0. reflexivity.
Qed.

Lemma update_keeps_confirmation (now : Z) (j st : string) (self : GuiAlertService) :
  confirmation_recorded self ->
  confirmation_recorded (update_alert_status now j st self).
Proof.
  intros Hinv i. rewrite status_of_update. specialize (Hinv i).
  unfold update_alert_status.
  destruct (alerts self !! j) as [a|] eqn:Hj.
  - cbn [confirmed_times]. destruct (decide (j = i)) as [<-|Hne].
    + destruct (String.eqb_spec st "confirmed") as [->|Hst].
      * rewrite lookup_insert_eq. split; [reflexivity|]. intros _. eexists. reflexivity.
      * rewrite lookup_delete_eq. split; [intros [x Hx]; discriminate|].
        intros [= E]. contradiction.
    + destruct (String.eqb st "confirmed").
      * rewrite lookup_insert_ne by exact Hne. exact Hinv.
      * rewrite lookup_delete_ne by exact Hne. exact Hinv.
  - destruct (decide (j = i)) as [<-|Hne]; [|exact Hinv].
    rewrite Hinv. unfold status_of. rewrite Hj. reflexivity.
Qed.

(** In every state the service can reach while alert identifiers are
    fresh, a confirmation time is on record exactly for the alerts whose
    status is confirmed. *)
Theorem confirmed_times_track_status `{PyRuntime} (self : GuiAlertService) :
  service_reachable self -> confirmation_recorded self.
Proof.
  induction 1 as [timeout|alert_id now anomaly user self Hr IH Hfresh|self e Hr IH].
  - intros i. unfold status_of. cbn. rewrite !lookup_empty. cbn.
    split; [intros [x Hx]; discriminate|discriminate].
  - intros i. specialize (IH i). unfold status_of in *. cbn [send_alert alerts confirmed_times].
    destruct (decide (alert_id = i)) as [<-|Hne].
    + rewrite lookup_insert_eq. cbn. rewrite Hfresh in IH. cbn in IH.
      split; [intros Hsome; apply IH in Hsome; discriminate|discriminate].
    + rewrite lookup_insert_ne by exact Hne. exact IH.
  - destruct e as [now j st|j|now j]; cbn [step].
    + apply update_keeps_confirmation. exact IH.
    + unfold auto_confirm_wake. destruct (take_timer j Sleeping (timers self)); exact IH.
    + unfold do_confirm. destruct (take_timer j Scheduled (timers self)) as [rest|];
        [|exact IH].
      apply update_keeps_confirmation. exact IH.
Qed.

Section AlertExtras.
Context `{PyRuntime}.

(** With a positive timeout, an alert that nobody touches is confirmed by
    its timer: after the thread wakes and its confirmation runs, the
    status is confirmed and the time of the confirmation is recorded. *)
Theorem auto_confirm_confirms_open_alert (alert_id : string) (now now' timeout : Z)
    (anomaly : Anomaly.t) (user : User.t) (self : GuiAlertService) :
  auto_confirm_timeout self = Some timeout ->
  (0 < timeout)%Z ->
  let raised := send_alert alert_id now anomaly user self in
  status_of alert_id raised = Some "open"
  /\ status_of alert_id (run raised [TimerWakes alert_id; TimerConfirms now' alert_id])
     = Some "confirmed"
  /\ confirmed_times (run raised [TimerWakes alert_id; TimerConfirms now' alert_id])
       !! alert_id = Some now'.
Proof.
  intros Htimeout Hpos raised.
  assert (Hopen : exists a, alerts raised !! alert_id = Some a /\ Alert.status a = "open").
  { eexists. unfold raised, send_alert. cbn [alerts]. rewrite lookup_insert_eq.
    split; reflexivity. }
  destruct Hopen as (a & Ha & Hst).
  assert (Htimer : In (alert_id, Sleeping) (timers raised)).
  { unfold raised, send_alert. cbn [timers]. rewrite Htimeout.
    apply Z.ltb_lt in Hpos. rewrite Hpos. apply in_or_app. right. left. reflexivity. }
  split; [unfold status_of; rewrite Ha; cbn; rewrite Hst; reflexivity|].
  cbn [run foldl step].
  destruct (take_timer_present _ _ _ Htimer) as [rest Hrest].
  assert (Hwake : auto_confirm_wake alert_id raised
                  = mkService (alerts raised) (auto_confirm_timeout raised)
                              (confirmed_times raised)
                              (rest ++ [(alert_id, Scheduled)])%list).
  { unfold auto_confirm_wake. rewrite Hrest, Ha, Hst. reflexivity. }
  rewrite Hwake.
  destruct (take_timer_present alert_id Scheduled (rest ++ [(alert_id, Scheduled)])%list)
    as [rest' Hrest']; [apply in_or_app; right; left; reflexivity|].
  assert (Hconfirm : do_confirm now' alert_id
                       (mkService (alerts raised) (auto_confirm_timeout raised)
                                  (confirmed_times raised)
                                  (rest ++ [(alert_id, Scheduled)])%list)
                     = mkService (<[alert_id := set_status "confirmed" a]> (alerts raised))
                                 (auto_confirm_timeout raised)
                                 (<[alert_id := now']> (confirmed_times raised)) rest').
  { unfold do_confirm. cbn [timers]. rewrite Hrest'.
    unfold update_alert_status. cbn [alerts auto_confirm_timeout confirmed_times timers].
    rewrite Ha. reflexivity. }
  rewrite Hconfirm. split.
  - unfold status_of. cbn [alerts]. rewrite lookup_insert_eq. reflexivity.
  - cbn [confirmed_times]. apply lookup_insert_eq.
Qed.

(** Without a positive timeout no timer is started: when no thread is
    pending for the identifier, the raised alert stays open under every
    sequence of timer actions, whichever alerts they belong to. *)
Theorem no_timeout_alert_stays_open (alert_id : string) (now : Z)
    (anomaly : Anomaly.t) (user : User.t) (self : GuiAlertService)
    (es : list event) :
  (forall timeout, auto_confirm_timeout self = Some timeout -> (timeout <= 0)%Z) ->
  (forall pc, ~ In (alert_id, pc) (timers self)) ->
  Forall (fun e => timer_event e = true) es ->
  status_of alert_id (run (send_alert alert_id now anomaly user self) es) = Some "open".
Proof.
  intros Htimeout Hnone Hes.
  assert (Hstart : status_of alert_id (send_alert alert_id now anomaly user self)
                   = Some "open"
                   /\ forall pc, ~ In (alert_id, pc)
                                   (timers (send_alert alert_id now anomaly user self))).
  { split.
    - unfold status_of, send_alert. cbn [alerts]. rewrite lookup_insert_eq. reflexivity.
    - unfold send_alert. cbn [timers].
      destruct (auto_confirm_timeout self) as [t|]; [|exact Hnone].
      specialize (Htimeout t eq_refl). apply Z.ltb_ge in Htimeout. rewrite Htimeout.
      exact Hnone. }
  revert Hstart. generalize (send_alert alert_id now anomaly user self) as s.
  induction Hes as [|e es He Hes IH]; intros s [Hopen Hts]; [exact Hopen|].
  change (run s (e :: es)) with (run (step s e) es). apply IH.
  destruct e as [t j st|j|t j]; [discriminate| |]; cbn [step].
  - unfold auto_confirm_wake.
    destruct (take_timer j Sleeping (timers s)) as [rest|] eqn:Htake; [|auto].
    destruct (String.eqb_spec j alert_id) as [->|Hne].
    { rewrite take_timer_absent in Htake by apply Hts. discriminate. }
    split; [exact Hopen|]. intros pc Hin. cbn [timers] in Hin.
    assert (Hrest : In (alert_id, pc) rest).
    { destruct (match alerts s !! j with Some a => _ | None => false end); [|exact Hin].
      apply in_app_or in Hin as [Hin|[Heq|[]]]; [exact Hin|]. congruence. }
    exact (Hts pc (take_timer_In _ _ _ _ Htake _ Hrest)).
  - unfold do_confirm.
    destruct (take_timer j Scheduled (timers s)) as [rest|] eqn:Htake; [|auto].
    destruct (String.eqb_spec j alert_id) as [->|Hne].
    { rewrite take_timer_absent in Htake by apply Hts. discriminate. }
    split.
    + rewrite status_of_update. rewrite decide_False by exact Hne. exact Hopen.
    + intros pc Hin.
      assert (Hrest : In (alert_id, pc) rest).
      { revert Hin. unfold update_alert_status. cbn [alerts].
        destruct (alerts s !! j); cbn [timers]; auto. }
      exact (Hts pc (take_timer_In _ _ _ _ Htake _ Hrest)).
Qed.
End AlertExtras.

(** ** The controller *)

Section ControllerExtras.
Context `{PyRuntime}.

Lemma preprocess_data_inv (raw : RawData.t) (prepared : PreparedData.t) :
  preprocess_data raw = Ok prepared ->
  PreparedData.id prepared = RawData.id raw
  /\ PreparedData.timestamp prepared = RawData.timestamp raw
  /\ PreparedData.features prepared <> [].
Proof.
  unfold preprocess_data. intros Hpre.
  destruct (if String.eqb _ "1" then _ else _) as [[ty fs]|e] eqn:E; [|discriminate].
  cbn in Hpre. injection Hpre as <-. cbn. split; [reflexivity|]. split; [reflexivity|].
  repeat (destruct (String.eqb _ _) in E; [destruct (py_float _) in E; [|discriminate];
    cbn in E; injection E as <- <-; discriminate|]).
  discriminate.
Qed.

(** A prepared record keeps the identifier and the timestamp of its raw
    event, carries exactly one feature, and its category is fixed by the
    discriminant: "1" gives sensor, "2" transaction, "3" traffic. *)
Theorem preprocess_data_shape (raw : RawData.t) (prepared : PreparedData.t) :
  preprocess_data raw = Ok prepared ->
  PreparedData.id prepared = RawData.id raw
  /\ PreparedData.timestamp prepared = RawData.timestamp raw
  /\ length (PreparedData.features prepared) = 1%nat
  /\ ((RawData.attributes raw !! "type" = Some "1"
       /\ PreparedData.data_type prepared = "sensor")
      \/ (RawData.attributes raw !! "type" = Some "2"
       /\ PreparedData.data_type prepared = "transaction")
      \/ (RawData.attributes raw !! "type" = Some "3"
       /\ PreparedData.data_type prepared = "traffic")).
Proof.
  unfold preprocess_data. intros Hpre.
  destruct (RawData.attributes raw !! "type") as [ty|] eqn:Hty; cbn [default from_option id] in Hpre.
  - destruct (String.eqb_spec ty "1") as [->|_].
    { destruct (py_float _) as [x|e]; [|discriminate]. cbn in Hpre.
      injection Hpre as <-. cbn. auto 10. }
    destruct (String.eqb_spec ty "2") as [->|_].
    { destruct (py_float _) as [x|e]; [|discriminate]. cbn in Hpre.
      injection Hpre as <-. cbn. auto 10. }
    destruct (String.eqb_spec ty "3") as [->|_]; [|discriminate].
    destruct (py_float _) as [x|e]; [|discriminate]. cbn in Hpre.
    injection Hpre as <-. cbn. auto 10.
  - discriminate.
Qed.

(** What one event does to the controller: the detector, the settings and
    the user are never touched; a successful extraction appends exactly
    the raw event and its prepared record; and an alert is raised exactly
    when an anomaly is stored, for that anomaly, which carries the given
    identifier and the event's timestamp. *)
Theorem process_new_raw_data_effects (anomaly_uuid alert_uuid : string) (now : Z)
    (raw : RawData.t) (self : AnomalyController) :
  let self' := (process_new_raw_data anomaly_uuid alert_uuid now raw self).1 in
  detector self' = detector self
  /\ config_controller self' = config_controller self
  /\ user self' = user self
  /\ (forall prepared, preprocess_data raw = Ok prepared ->
        raw_data (storage self') = (raw_data (storage self) ++ [raw])%list
        /\ prepared_data (storage self') = (prepared_data (storage self) ++ [prepared])%list)
  /\ ((anomalies (storage self') = anomalies (storage self)
       /\ alert_service self' = alert_service self)
      \/ exists a,
           anomalies (storage self') = (anomalies (storage self) ++ [a])%list
           /\ alert_service self'
              = send_alert alert_uuid now a (user self) (alert_service self)
           /\ Anomaly.anomaly_id a = anomaly_uuid
           /\ Anomaly.detection_time a = RawData.timestamp raw).
Proof.
  cbn zeta. unfold process_new_raw_data.
  destruct (preprocess_data raw) as [prepared|e] eqn:Hpre.
  - pose proof (preprocess_data_inv raw prepared Hpre) as (_ & Hts & _).
    assert (Hstores : forall st0, forall p, Ok prepared = Ok p ->
              raw_data st0 = (raw_data (storage self) ++ [raw])%list ->
              prepared_data st0 = (prepared_data (storage self) ++ [prepared])%list ->
              raw_data st0 = (raw_data (storage self) ++ [raw])%list
              /\ prepared_data st0 = (prepared_data (storage self) ++ [p])%list).
    { intros st0 p [= <-] H1 H2. split; assumption. }
    destruct (detect _ _ _ _) as [[a|]|e] eqn:Hd; cbn [fst].
    + split; [reflexivity|]. split; [reflexivity|]. split; [reflexivity|].
      split; [intros p Hp; apply (Hstores _ p Hp); reflexivity|].
      right. exists a. split; [reflexivity|]. split; [reflexivity|].
      apply detect_some_inv in Hd. destruct Hd as (v & rest & _ & Hd).
      destruct Hd as [(_ & _ & _ & ->)|[(_ & _ & _ & ->)|(_ & sc & de & _ & _ & ->)]];
        (split; [reflexivity|exact Hts]).
    + split; [reflexivity|]. split; [reflexivity|]. split; [reflexivity|].
      split; [intros p Hp; apply (Hstores _ p Hp); reflexivity|].
      left. split; reflexivity.
    + split; [reflexivity|]. split; [reflexivity|]. split; [reflexivity|].
      split; [intros p Hp; apply (Hstores _ p Hp); reflexivity|].
      left. split; reflexivity.
  - cbn [fst]. split; [reflexivity|]. split; [reflexivity|]. split; [reflexivity|].
    split; [intros p Hp; discriminate|]. left. split; reflexivity.
Qed.

(** With a sensitivity in [0,1] in force for the user, the only way an
    event can fail in the pipeline is a failed extraction. *)
Theorem process_new_raw_data_failure (anomaly_uuid alert_uuid : string) (now : Z)
    (raw : RawData.t) (self : AnomalyController) (e : exn) :
  (0 <= effective_sensitivity (detector self)
          (get_settings_for_user (User.user_id (user self)) (config_controller self))
     <= 1)%Q ->
  (process_new_raw_data anomaly_uuid alert_uuid now raw self).2 = Raise e ->
  preprocess_data raw = Raise e.
Proof.
  intros Hs. unfold process_new_raw_data.
  destruct (preprocess_data raw) as [prepared|e'] eqn:Hpre; [|cbn [snd]; intros [= ->]; reflexivity].
  pose proof (preprocess_data_inv raw prepared Hpre) as (_ & _ & Hfeat).
  destruct (detect_total anomaly_uuid (detector self) prepared
              (get_settings_for_user (User.user_id (user self)) (config_controller self))
              Hfeat Hs) as [r Hr].
  rewrite Hr. destruct r; discriminate.
Qed.

Lemma detect_with_settings_sensitivity uuid (d1 d2 : SimpleAnomalyDetector)
    data settings :
  is_Some (DetectionSettings.sensitivity settings) ->
  detect uuid d1 data settings = detect uuid d2 data settings.
Proof.
  intros [s Hs]. unfold detect, effective_sensitivity. rewrite Hs. reflexivity.
Qed.

(** The detector's global sensitivity plays no part in the pipeline as
    long as the user's stored entry, if there is one, holds a sensitivity
    (a user without an entry gets the default 0.5): changing it before an
    event gives the same stores, alerts and outcome as changing it
    after. *)
Theorem pipeline_ignores_global_sensitivity (anomaly_uuid alert_uuid : string) (now : Z)
    (raw : RawData.t) (self : AnomalyController) (g : Q) :
  (forall entry,
     settings_dict (settings_repo (config_controller self)) !! User.user_id (user self)
       = Some entry ->
     is_Some (entry_sensitivity entry)) ->
  process_new_raw_data anomaly_uuid alert_uuid now raw (update_global_sensitivity g self)
  = (update_global_sensitivity g
       (process_new_raw_data anomaly_uuid alert_uuid now raw self).1,
     (process_new_raw_data anomaly_uuid alert_uuid now raw self).2).
Proof.
  intros Hentry.
  assert (Hsome : is_Some (DetectionSettings.sensitivity
            (get_settings_for_user (User.user_id (user self)) (config_controller self)))).
  { unfold get_settings_for_user, load_settings. cbn [DetectionSettings.sensitivity].
    destruct (settings_dict _ !! _) as [entry|] eqn:E; cbn [default from_option id].
    - apply Hentry. reflexivity.
    - eexists. reflexivity. }
  unfold process_new_raw_data, update_global_sensitivity.
  cbn [storage detector alert_service config_controller user].
  destruct (preprocess_data raw) as [prepared|e]; [|reflexivity].
  rewrite (detect_with_settings_sensitivity anomaly_uuid
             (set_global_sensitivity g (detector self)) (detector self) prepared _ Hsome).
  destruct (detect _ _ _ _) as [[a|]|e]; reflexivity.
Qed.
End ControllerExtras.

(** Setting the sensitivity from the settings view stores it for the
    current user, keeping the monitored sources, and sets the global
    value; the next event is evaluated with it; other users' settings,
    the store and the alerts are left alone. *)
Theorem set_sensitivity_takes_effect (s : Q) (self : AnomalyController) (u : string) :
  let self' := set_sensitivity s self in
  let uid := User.user_id (user self) in
  get_settings_for_user uid (config_controller self')
  = DetectionSettings.mk uid (Some s)
      (DetectionSettings.monitored_sources
         (get_settings_for_user uid (config_controller self)))
  /\ global_sensitivity (detector self') = s
  /\ effective_sensitivity (detector self')
       (get_settings_for_user (User.user_id (user self')) (config_controller self')) = s
  /\ (u <> uid ->
      get_settings_for_user u (config_controller self')
      = get_settings_for_user u (config_controller self))
  /\ storage self' = storage self
  /\ alert_service self' = alert_service self.
Proof.
  cbn zeta. unfold set_sensitivity, update_global_sensitivity.
  cbn [config_controller detector storage alert_service user].
  unfold get_settings_for_user, save_user_settings, load_settings, save_settings.
  cbn [settings_repo settings_dict DetectionSettings.user_id DetectionSettings.sensitivity
       DetectionSettings.monitored_sources set_global_sensitivity global_sensitivity].
  rewrite lookup_insert_eq. cbn [default from_option id entry_sensitivity
    entry_monitored_sources effective_sensitivity DetectionSettings.sensitivity].
  repeat split. intros Hne. rewrite lookup_insert_ne by congruence. reflexivity.
Qed.

(** ** The event source *)

Section DataSourceExtras.
Context `{PyRuntime} {W : Type}.

(** Every event the source generates can be extracted, provided [float]
    reads back the text that [str] printed for the drawn value: the
    prepared record has the event's identifier, the time of the simulated
    clock, the category of the drawn type and the value read back as its
    feature.  [get_next_data_chunk] produces the same events. *)
Theorem generated_event_is_extractable (d : Draw) (self : SimulatedDataSource W) (x : Q) :
  draw_type d = 1%Z \/ draw_type d = 2%Z \/ draw_type d = 3%Z ->
  float_of_str (str_of_float (draw_uniform d)) = Some x ->
  let category :=
    if (draw_type d =? 1)%Z then "sensor"
    else if (draw_type d =? 2)%Z then "transaction" else "traffic" in
  preprocess_data (generate_one_data d self).2
  = Ok (PreparedData.mk (draw_uuid d) (current_timestamp self) category [x])
  /\ get_next_data_chunk d self = generate_one_data d self.
Proof.
  intros Hty Hfloat. cbn zeta. split; [|reflexivity].
  unfold generate_one_data, preprocess_data, py_float.
  cbn [snd RawData.attributes RawData.id RawData.timestamp].
  destruct Hty as [-> | [-> | ->]].
  - change (pretty 1%Z) with "1". cbn [String.eqb Ascii.eqb Bool.eqb]. cbn match.
    rewrite lookup_insert_ne by discriminate. rewrite lookup_insert_eq.
    cbn [default from_option id String.eqb Ascii.eqb Bool.eqb]. cbn match.
    rewrite lookup_insert_eq. cbn [default from_option id]. rewrite Hfloat. reflexivity.
  - change (pretty 2%Z) with "2". cbn [String.eqb Ascii.eqb Bool.eqb]. cbn match.
    rewrite !lookup_insert_ne by discriminate. rewrite lookup_insert_eq.
    cbn [default from_option id String.eqb Ascii.eqb Bool.eqb]. cbn match.
    rewrite lookup_insert_ne by discriminate. rewrite lookup_insert_eq.
    cbn [default from_option id]. rewrite Hfloat. reflexivity.
  - change (pretty 3%Z) with "3". cbn [String.eqb Ascii.eqb Bool.eqb]. cbn match.
    rewrite !lookup_insert_ne by discriminate. rewrite lookup_insert_eq.
    cbn [default from_option id String.eqb Ascii.eqb Bool.eqb]. cbn match.
    rewrite lookup_insert_ne by discriminate. rewrite lookup_insert_eq.
    cbn [default from_option id]. rewrite Hfloat. reflexivity.
Qed.

Lemma generate_loop_fuel_delivers (callback : RawData.t -> W -> W * result unit)
    (draws : nat -> Draw) (origin : SimulatedDataSource W) (fuel : nat) :
  (forall raw w, is_ok (callback raw w).2 = true) ->
  forall (k : nat) (self : SimulatedDataSource W) (w : W),
    running self = true ->
    listener self = Some callback ->
    current_timestamp self = (current_timestamp origin + Z.of_nat k * one_hour)%Z ->
    (300 - generated_count self <= fuel)%nat ->
    generate_loop_fuel fuel draws k self w
    = (mkSource (Some callback) true
         (current_timestamp self
          + Z.of_nat (300 - generated_count self) * one_hour)%Z
         (Nat.max (generated_count self) 300),
       foldl (fun w raw => (callback raw w).1) w
             (event_at draws origin <$> seq k (300 - generated_count self)),
       Ok tt).
Proof.
  intros Hsafe. induction fuel as [|fuel IH]; intros k self w Hrun Hl Hts Hfuel.
  - destruct self as [l r ts c]. cbn in *. subst l r.
    replace (300 - c)%nat with O by lia. cbn.
    replace (Nat.max c 300) with c by lia. repeat f_equal. lia.
  - cbn [generate_loop_fuel]. rewrite Hrun. cbn [andb].
    destruct (Nat.ltb_spec (generated_count self) 300) as [Hlt|Hge].
    + destruct (generate_one_data (draws k) self) as [self1 raw] eqn:Hgen.
      pose proof (generate_one_data_source (draws k) self) as Hsrc.
      assert (Hraw : raw = event_at draws origin k).
      { pose proof (f_equal snd Hgen) as Hsnd. cbn [snd] in Hsnd. rewrite <- Hsnd.
        unfold event_at. apply generated_event_clock. exact Hts. }
      rewrite Hgen in Hsrc. cbn [fst] in Hsrc. subst self1.
      cbn [listener running current_timestamp generated_count]. rewrite Hl.
      specialize (Hsafe raw w). destruct (callback raw w) as [w1 [[]|e]] eqn:Hcb;
        [|discriminate].
      rewrite IH; cbn [listener running current_timestamp generated_count];
        [|first [reflexivity|assumption]|first [reflexivity|assumption]
         |rewrite Hts, Nat2Z.inj_succ; lia|lia].
      replace (300 - generated_count self)%nat with (S (300 - S (generated_count self)))
        by lia.
      cbn [seq fmap list_fmap foldl]. rewrite <- Hraw, Hcb. cbn [fst].
      f_equal. f_equal. f_equal; [rewrite Nat2Z.inj_succ; lia|lia].
    + destruct self as [l r ts c]. cbn in *. subst l r.
      replace (300 - c)%nat with O by lia. cbn.
      replace (Nat.max c 300) with c by lia. repeat f_equal. lia.
Qed.

(** With a listener that does not fail, a run of a connected source hands
    the listener the events number 0, 1, ... up to the cap, one after the
    other and each exactly once; event number k is stamped k hours after
    the start of the run; the run ends with the count at the cap. *)
Theorem generate_loop_delivers_in_order (callback : RawData.t -> W -> W * result unit)
    (draws : nat -> Draw) (self : SimulatedDataSource W) (w : W) :
  running self = true ->
  listener self = Some callback ->
  (forall raw w, is_ok (callback raw w).2 = true) ->
  let n := (300 - generated_count self)%nat in
  generate_loop draws self w
  = (mkSource (Some callback) true
       (current_timestamp self + Z.of_nat n * one_hour)%Z
       (Nat.max (generated_count self) 300),
     foldl (fun w raw => (callback raw w).1) w (event_at draws self <$> seq 0 n),
     Ok tt)
  /\ forall k, RawData.timestamp (event_at draws self k)
               = (current_timestamp self + Z.of_nat k * one_hour)%Z.
Proof.
  intros Hrun Hl Hsafe n. split; [|reflexivity].
  unfold generate_loop.
  apply (generate_loop_fuel_delivers callback draws self); try assumption; [|lia].
  unfold one_hour. lia.
Qed.

(** The cap counts events over the life of the source: after a run that
    returned normally, another run generates nothing and calls nobody. *)
Theorem generate_loop_second_run (draws draws' : nat -> Draw)
    (self self' : SimulatedDataSource W) (w w' w'' : W) :
  running self = true ->
  generate_loop draws self w = (self', w', Ok tt) ->
  generate_loop draws' self' w'' = (self', w'', Ok tt).
Proof.
  intros Hrun Hloop. unfold generate_loop in Hloop.
  apply generate_loop_fuel_outcome in Hloop; [|exact Hrun|lia].
  destruct Hloop as (n & _ & Hcount & _).
  unfold generate_loop. replace (300 - generated_count self')%nat with O by lia.
  reflexivity.
Qed.
End DataSourceExtras.

(** ** Retraining *)

Section RetrainingExtras.
Context `{PyRuntime}.

(** Retraining uses the stored records of the role's category and no
    others (all of them, since every datetime lies between
    [datetime.min] and [datetime.max]); for a role outside the map no
    extracted record qualifies and the detector is left as it is. *)
Theorem trigger_retraining_by_role (uuid role : string)
    (data_storage : InMemoryDataStorage) (detector : SimpleAnomalyDetector) :
  Forall (fun d => (datetime_min <= PreparedData.timestamp d <= datetime_max)%Z)
         (prepared_data data_storage) ->
  (forall category,
     role_map !! role = Some category ->
     trigger_retraining uuid role data_storage detector
     = train_model uuid detector
         (List.filter (fun d => String.eqb (PreparedData.data_type d) category)
                      (prepared_data data_storage)))
  /\ (role_map !! role = None ->
      Forall (fun d => PreparedData.data_type d <> "") (prepared_data data_storage) ->
      trigger_retraining uuid role data_storage detector = Ok detector).
Proof.
  intros Hrange.
  assert (Hall : get_historical_data datetime_min datetime_max data_storage
                 = prepared_data data_storage).
  { unfold get_historical_data.
    induction Hrange as [|d l Hd Hl IH]; [reflexivity|].
    cbn [List.filter]. apply in_range_spec in Hd. rewrite Hd, IH. reflexivity. }
  unfold trigger_retraining, filter_by_role. rewrite Hall. split.
  - intros category ->. reflexivity.
  - intros -> Htypes. cbn [default from_option id].
    assert (Hnil : List.filter (fun d => String.eqb (PreparedData.data_type d) "")
                     (prepared_data data_storage) = []).
    { clear Hrange Hall. induction Htypes as [|d l Hd Hl IH]; [reflexivity|].
      cbn [List.filter]. apply String.eqb_neq in Hd. rewrite Hd. exact IH. }
    rewrite Hnil. reflexivity.
Qed.
End RetrainingExtras.

(** ** Concrete runs of the further properties *)




Lemma get_anomalies_complete_witness :
  role_map !! "security" = Some "traffic"
  /\ In traffic_anomaly (anomalies two_anomalies)
  /\ In traffic_anomaly (get_anomalies "security" 0 100 two_anomalies).
Proof.
  assert (Hin : In traffic_anomaly (anomalies two_anomalies)) by (right; left; reflexivity).
  split; [reflexivity|]. split; [exact Hin|].
  refine (get_anomalies_complete (H:=reference_runtime) two_anomalies 0 100
            "security" "traffic" traffic_anomaly eq_refl Hin traffic_anomaly_produced _).
  cbn. lia.
Defined.

Lemma get_anomalies_unknown_role_witness :
  role_map !! "auditor" = None
  /\ get_anomalies "auditor" 0 100 two_anomalies = [].
Proof.
  split; [reflexivity|].
  refine (get_anomalies_unknown_role (H:=reference_runtime) two_anomalies 0 100
            "auditor" eq_refl _).
  repeat constructor.
  - exists "sensor". exact sensor_anomaly_produced.
  - exists "traffic". exact traffic_anomaly_produced.
Defined.

Lemma raised_alert_reachable : service_reachable (H:=reference_runtime) raised_alert.
Proof. apply service_send; [apply service_new|reflexivity]. Defined.

Lemma confirmed_times_track_status_witness :
  service_reachable (H:=reference_runtime)
    (run raised_alert [SetStatus 60%Z "al-1" "confirmed"])
  /\ confirmation_recorded (run raised_alert [SetStatus 60%Z "al-1" "confirmed"]).
Proof.
  assert (Hr : service_reachable (H:=reference_runtime)
                 (run raised_alert [SetStatus 60%Z "al-1" "confirmed"])).
  { exact (service_step raised_alert (SetStatus 60%Z "al-1" "confirmed")
             raised_alert_reachable). }
  split; [exact Hr|].
  exact (confirmed_times_track_status (H:=reference_runtime) _ Hr).
Defined.

Lemma auto_confirm_confirms_open_alert_witness :
  auto_confirm_timeout (new_service (Some 120%Z)) = Some 120%Z
  /\ (0 < 120)%Z
  /\ status_of "al-1"
       (run (send_alert (H:=reference_runtime) "al-1" 50 traffic_anomaly analyst
               (new_service (Some 120%Z)))
            [TimerWakes "al-1"; TimerConfirms 170%Z "al-1"])
     = Some "confirmed".
Proof.
  split; [reflexivity|]. split; [lia|].
  refine (proj1 (proj2 (auto_confirm_confirms_open_alert (H:=reference_runtime)
            "al-1" 50 170 120 traffic_anomaly analyst (new_service (Some 120%Z))
            eq_refl _))).
  lia.
Defined.

Lemma no_timeout_alert_stays_open_witness :
  Forall (fun e => timer_event e = true) [TimerWakes "al-1"; TimerConfirms 170%Z "al-1"]
  /\ status_of "al-1"
       (run (send_alert (H:=reference_runtime) "al-1" 50 traffic_anomaly analyst
               untimed_service)
            [TimerWakes "al-1"; TimerConfirms 170%Z "al-1"])
     = Some "open".
Proof.
  assert (Hes : Forall (fun e => timer_event e = true)
                  [TimerWakes "al-1"; TimerConfirms 170%Z "al-1"]).
  { repeat constructor. }
  split; [exact Hes|].
  refine (no_timeout_alert_stays_open (H:=reference_runtime) "al-1" 50 traffic_anomaly
            analyst untimed_service _ _ _ Hes).
  - intros timeout Ht. discriminate Ht.
  - intros pc Hin. destruct Hin.
Defined.

Lemma timer_after_manual_is_noop_witness :
  status_of "al-1" closed_alert = Some "false_positive"
  /\ take_timer "al-1" Scheduled (timers closed_alert) = None
  /\ alerts (run closed_alert [TimerWakes "al-1"; TimerConfirms 170%Z "al-1"])
     = alerts closed_alert.
Proof.
  split; [reflexivity|]. split; [reflexivity|].
  refine (proj1 (timer_after_manual_is_noop 170 "al-1" closed_alert _ eq_refl)).
  intros E. discriminate E.
Defined.

Lemma preprocess_data_shape_witness :
  preprocess_data (H:=reference_runtime) (event_with_temperature "180.25")
    = Ok (PreparedData.mk "event-2" 3600 "sensor" [18025 # 100])
  /\ length (PreparedData.features (PreparedData.mk "event-2" 3600 "sensor" [18025 # 100]))
     = 1%nat.
Proof.
  split; [reflexivity|].
  exact (proj1 (proj2 (proj2 (preprocess_data_shape (H:=reference_runtime)
           (event_with_temperature "180.25") _ eq_refl)))).
Defined.

Lemma process_new_raw_data_failure_witness :
  (0 <= effective_sensitivity (detector fresh_controller)
          (get_settings_for_user (User.user_id (user fresh_controller))
             (config_controller fresh_controller)) <= 1)%Q
  /\ (process_new_raw_data (H:=reference_runtime) "a-1" "al-1" 50
        (event_of_type "9") fresh_controller).2 = Raise (ValueError "Unknown data type")
  /\ preprocess_data (H:=reference_runtime) (event_of_type "9")
     = Raise (ValueError "Unknown data type").
Proof.
  assert (Hs : (0 <= effective_sensitivity (detector fresh_controller)
          (get_settings_for_user (User.user_id (user fresh_controller))
             (config_controller fresh_controller)) <= 1)%Q).
  { change (0 <= 0.5 <= 1)%Q. split; q_numerals. }
  split; [exact Hs|]. split; [reflexivity|].
  exact (process_new_raw_data_failure (H:=reference_runtime) "a-1" "al-1" 50
           (event_of_type "9") fresh_controller _ Hs eq_refl).
Defined.

Lemma pipeline_ignores_global_sensitivity_witness :
  settings_dict (settings_repo (config_controller tuned_controller)) !! "analyst"
    = Some (mkEntry (Some 0.9%Q) ["any"])
  /\ process_new_raw_data (H:=reference_runtime) "a-1" "al-1" 50 traffic_event
       (update_global_sensitivity 0.1 tuned_controller)
     = (update_global_sensitivity 0.1
          (process_new_raw_data (H:=reference_runtime) "a-1" "al-1" 50 traffic_event
             tuned_controller).1,
        (process_new_raw_data (H:=reference_runtime) "a-1" "al-1" 50 traffic_event
           tuned_controller).2).
Proof.
  split; [reflexivity|].
  refine (pipeline_ignores_global_sensitivity (H:=reference_runtime) "a-1" "al-1" 50
            traffic_event tuned_controller 0.1 _).
  intros entry Hentry.
  change (Some (mkEntry (Some 0.9%Q) ["any"]) = Some entry) in Hentry.
  injection Hentry as <-. eexists. reflexivity.
Defined.

Lemma processed_controller_reachable : reachable (H:=reference_runtime) processed_controller.
Proof. apply reachable_process. apply reachable_init. reflexivity. Defined.

Lemma stored_anomaly_has_source_witness :
  reachable (H:=reference_runtime) processed_controller
  /\ length (anomalies (storage processed_controller)) = 1%nat
  /\ Forall (fun a => exists raw prepared,
               In raw (raw_data (storage processed_controller))
               /\ In prepared (prepared_data (storage processed_controller))
               /\ preprocess_data (H:=reference_runtime) raw = Ok prepared
               /\ Anomaly.data_id a = RawData.id raw)
            (anomalies (storage processed_controller)).
Proof.
  split; [exact processed_controller_reachable|]. split; [reflexivity|].
  apply List.Forall_forall.
  exact (stored_anomaly_has_source (H:=reference_runtime) processed_controller
           processed_controller_reachable).
Defined.

Lemma generated_event_is_extractable_witness :
  float_of_str (PyRuntime:=reference_runtime)
    (str_of_float (PyRuntime:=reference_runtime) (draw_uniform (sample_draws 1)))
    = Some (70 # 10)
  /\ preprocess_data (H:=reference_runtime)
       (generate_one_data (H:=reference_runtime) (sample_draws 1)
          (connected_source counting_listener)).2
     = Ok (PreparedData.mk "event-1" 0 "transaction" [70 # 10]).
Proof.
  split; [reflexivity|].
  refine (proj1 (generated_event_is_extractable (H:=reference_runtime) (sample_draws 1)
            (connected_source counting_listener) (70 # 10) _ eq_refl)).
  right. left. reflexivity.
Defined.

Lemma generate_loop_delivers_in_order_witness :
  running (connected_source counting_listener) = true
  /\ (generate_loop (H:=reference_runtime) constant_draws
        (connected_source counting_listener) O).1.2
     = foldl (fun w raw => (counting_listener raw w).1) O
             (event_at (H:=reference_runtime) constant_draws
                (connected_source counting_listener) <$> seq 0 300).
Proof.
  split; [reflexivity|].
  rewrite (proj1 (generate_loop_delivers_in_order (H:=reference_runtime)
             counting_listener constant_draws (connected_source counting_listener) O
             eq_refl eq_refl (fun raw w => eq_refl))).
  reflexivity.
Defined.

Lemma generate_loop_second_run_witness :
  generate_loop (H:=reference_runtime) constant_draws
    (connected_source counting_listener) O
  = (mkSource (Some counting_listener) true (300 * one_hour)%Z 300, 300%nat, Ok tt)
  /\ generate_loop (H:=reference_runtime) sample_draws
       (mkSource (Some counting_listener) true (300 * one_hour)%Z 300) 7%nat
     = (mkSource (Some counting_listener) true (300 * one_hour)%Z 300, 7%nat, Ok tt).
Proof.
  assert (Hfirst : generate_loop (H:=reference_runtime) constant_draws
                     (connected_source counting_listener) O
                   = (mkSource (Some counting_listener) true (300 * one_hour)%Z 300,
                      300%nat, Ok tt)) by (vm_compute; reflexivity).
  split; [exact Hfirst|].
  exact (generate_loop_second_run (H:=reference_runtime) constant_draws sample_draws
           (connected_source counting_listener) _ O 300%nat 7%nat eq_refl Hfirst).
Defined.

Lemma trigger_retraining_by_role_witness :
  Forall (fun d => (datetime_min <= PreparedData.timestamp d <= datetime_max)%Z)
         (prepared_data sensor_storage)
  /\ role_map !! "equipment" = Some "sensor"
  /\ trigger_retraining (H:=reference_runtime) "a-1" "equipment" sensor_storage
       (mkDetector 0.5)
     = train_model (H:=reference_runtime) "a-1" (mkDetector 0.5)
         (List.filter (fun d => String.eqb (PreparedData.data_type d) "sensor")
                      (prepared_data sensor_storage)).
Proof.
  assert (Hrange : Forall (fun d => (datetime_min <= PreparedData.timestamp d
                                     <= datetime_max)%Z)
                          (prepared_data sensor_storage)).
  { repeat constructor; cbn; unfold datetime_min, datetime_max; lia. }
  split; [exact Hrange|]. split; [reflexivity|].
  exact (proj1 (trigger_retraining_by_role (H:=reference_runtime) "a-1" "equipment"
                  sensor_storage (mkDetector 0.5) Hrange) "sensor" eq_refl).
Defined.
